(** * Verification model of the YouTube translator extension

    Shallow embedding of [chrome_extension/translator_ui.js] (the translator
    page) and of the background script [background.js] (tab manager).

    Text is modelled as the list of Unicode scalar values it holds (a JS
    string without lone surrogates); the bytes the transport delivers are
    [Z] values in [0, 255].  The streaming path decodes bytes with
    [new TextDecoder()] and [decoder.decode(value, { stream: true })], which
    is modelled after the WHATWG Encoding standard (UTF-8 decoder, BOM
    handling of the serializer, replacement error mode). *)

From Stdlib Require Import ZArith String Ascii List Bool Lia.
Import ListNotations.
Open Scope Z_scope.

(** ** Text *)

Definition text := list Z.

(** ** The WHATWG UTF-8 decoder *)

Record utf8_state := Utf8State {
  u_cp : Z;        (* UTF-8 code point *)
  u_seen : Z;      (* UTF-8 bytes seen *)
  u_needed : Z;    (* UTF-8 bytes needed *)
  u_lower : Z;     (* UTF-8 lower boundary *)
  u_upper : Z      (* UTF-8 upper boundary *)
}.

Definition utf8_init : utf8_state := Utf8State 0 0 0 128 191.

(** Step 3 of the decoder: a byte read while no continuation byte is
    expected.  Returns the new state and the scalar values emitted. *)
Definition utf8_lead (b : Z) : utf8_state * text :=
  if b <=? 127 then (utf8_init, [b])
  else if (194 <=? b) && (b <=? 223) then
    (Utf8State (Z.land b 31) 0 1 128 191, [])
  else if (224 <=? b) && (b <=? 239) then
    (Utf8State (Z.land b 15) 0 2
       (if b =? 224 then 160 else 128) (if b =? 237 then 159 else 191), [])
  else if (240 <=? b) && (b <=? 244) then
    (Utf8State (Z.land b 7) 0 3
       (if b =? 240 then 144 else 128) (if b =? 244 then 143 else 191), [])
  else (utf8_init, [65533]).

(** One byte through the decoder (steps 3 to 10).  A byte outside the
    boundaries resets the decoder, emits U+FFFD and is restored to the
    queue, i.e. it is processed again as a lead byte. *)
Definition utf8_step (st : utf8_state) (b : Z) : utf8_state * text :=
  if u_needed st =? 0 then utf8_lead b
  else if negb ((u_lower st <=? b) && (b <=? u_upper st)) then
    let '(st', out) := utf8_lead b in (st', 65533 :: out)
  else
    let cp := Z.lor (Z.shiftl (u_cp st) 6) (Z.land b 63) in
    let seen := u_seen st + 1 in
    if seen =? u_needed st then (utf8_init, [cp])
    else (Utf8State cp seen (u_needed st) 128 191, []).

Fixpoint utf8_run (st : utf8_state) (bs : list Z) : utf8_state * text :=
  match bs with
  | [] => (st, [])
  | b :: bs' =>
      let '(st1, o1) := utf8_step st b in
      let '(st2, o2) := utf8_run st1 bs' in
      (st2, o1 ++ o2)
  end.

(** ** TextDecoder with [ignoreBOM = false] and [{stream: true}] *)

Record text_decoder := TextDecoder {
  td_dec : utf8_state;
  td_bom_seen : bool
}.

Definition new_TextDecoder : text_decoder := TextDecoder utf8_init false.

(** "Serialize I/O queue": while the BOM has not been seen, the first
    scalar value sets the flag and is dropped if it is U+FEFF. *)
Definition serialize_io (bom_seen : bool) (items : text) : bool * text :=
  match items with
  | [] => (bom_seen, [])
  | c :: r =>
      if bom_seen then (true, items)
      else (true, if c =? 65279 then r else items)
  end.

(** [decoder.decode(value, { stream: true })]: the decoder and the BOM flag
    are kept between calls (no flush since [do not flush] stays set). *)
Definition decode_stream (td : text_decoder) (value : list Z)
  : text_decoder * text :=
  let '(dec', items) := utf8_run (td_dec td) value in
  let '(bom', out) := serialize_io (td_bom_seen td) items in
  (TextDecoder dec' bom', out).

(** The read loop of [handleStreamTranslation]:
    [while (true) { const {done, value} = await reader.read(); if (done) break;
       const chunk = decoder.decode(value, {stream: true});
       outputDiv.textContent += chunk; }] *)
Fixpoint read_loop (td : text_decoder) (out : text) (chunks : list (list Z))
  : text_decoder * text :=
  match chunks with
  | [] => (td, out)
  | value :: rest =>
      let '(td', chunk) := decode_stream td value in
      read_loop td' (out ++ chunk) rest
  end.

(** ** The transport side: UTF-8 encoding of the streamed fragments *)

Definition utf8_encode_cp (c : Z) : list Z :=
  if c <? 128 then [c]
  else if c <? 2048 then [192 + c / 64; 128 + c mod 64]
  else if c <? 65536 then [224 + c / 4096; 128 + (c / 64) mod 64; 128 + c mod 64]
  else [240 + c / 262144; 128 + (c / 4096) mod 64;
        128 + (c / 64) mod 64; 128 + c mod 64].

Definition utf8_encode (t : text) : list Z := flat_map utf8_encode_cp t.

Definition scalar_value (c : Z) : bool :=
  (0 <=? c) && (c <=? 1114111) && negb ((55296 <=? c) && (c <=? 57343)).

(** Output after the first [k] fragments of a response, each fragment sent
    as the UTF-8 bytes of its text: [outputDiv.textContent = ''] then the
    read loop over the first [k] chunks. *)
Definition stream_render (frags : list text) (k : nat) : text :=
  snd (read_loop new_TextDecoder [] (map utf8_encode (firstn k frags))).

Definition strip_bom (t : text) : text :=
  match t with
  | c :: r => if c =? 65279 then r else t
  | [] => []
  end.

(** ** JavaScript strings *)

(** A JS string literal of the source, given by its UTF-8 bytes. *)
Definition js (s : string) : text :=
  snd (utf8_run utf8_init
         (map (fun a => Z.of_nat (nat_of_ascii a)) (list_ascii_of_string s))).

(** WhiteSpace and LineTerminator code points of ECMAScript. *)
Definition js_whitespace (c : Z) : bool :=
  (c =? 9) || (c =? 10) || (c =? 11) || (c =? 12) || (c =? 13) || (c =? 32) ||
  (c =? 160) || (c =? 5760) || ((8192 <=? c) && (c <=? 8202)) ||
  (c =? 8232) || (c =? 8233) || (c =? 8239) || (c =? 8287) ||
  (c =? 12288) || (c =? 65279).

Fixpoint trim_start (t : text) : text :=
  match t with
  | c :: r => if js_whitespace c then trim_start r else t
  | [] => []
  end.

(** [String.prototype.trim] *)
Definition js_trim (t : text) : text := rev (trim_start (rev (trim_start t))).

Fixpoint is_prefix (p t : text) : bool :=
  match p, t with
  | [], _ => true
  | a :: p', b :: t' => (a =? b) && is_prefix p' t'
  | _ :: _, [] => false
  end.

(** [String.prototype.includes] *)
Fixpoint includes (t p : text) : bool :=
  is_prefix p t || match t with [] => false | _ :: t' => includes t' p end.

(** Truthiness of a string value. *)
Definition truthy (t : text) : bool :=
  match t with [] => false | _ => true end.

(** [`${n}`] for an integer. *)
Fixpoint digits_rev (fuel : nat) (n : Z) : text :=
  match fuel with
  | O => []
  | S fuel' =>
      (48 + n mod 10) :: (if n <? 10 then [] else digits_rev fuel' (n / 10))
  end.

Definition z_to_text (n : Z) : text :=
  if n <? 0 then 45 :: rev (digits_rev 20 (- n)) else rev (digits_rev 20 n).

(** ** Errors, JSON values and responses *)

Record js_error := JsError {
  err_name : string;
  err_message : text
}.

(** [new Error(message)] *)
Definition js_Error (m : text) : js_error := JsError "Error" m.

Definition read_null_error (prop : string) : js_error :=
  JsError "TypeError"
    (js ("Cannot read properties of null (reading '" ++ prop ++ "')")).

Definition read_undefined_error (prop : string) : js_error :=
  JsError "TypeError"
    (js ("Cannot read properties of undefined (reading '" ++ prop ++ "')")).

(** [controller.abort()] makes the pending fetch or read reject with this. *)
Definition abort_error : js_error :=
  JsError "AbortError" (js "signal is aborted without reason").

(** A parsed JSON value: [null], an object with string fields, or any
    other value (number, boolean, string, array), on which a property read
    yields [undefined]. *)
Inductive json :=
  | JNull
  | JObject (fields : list (string * text))
  | JOther.

(** Result of reading property [k]: [Some v], [None] for [undefined], or a
    thrown [TypeError] for [null]. *)
Definition json_get (v : json) (k : string) : option text + js_error :=
  match v with
  | JNull => inr (read_null_error k)
  | JObject fs =>
      inl (match find (fun kv => String.eqb (fst kv) k) fs with
           | Some (_, x) => Some x
           | None => None
           end)
  | JOther => inl None
  end.

(** A response body is valid JSON (with its value) or not; for the latter
    the engine's [SyntaxError] message is recorded. *)
Inductive body :=
  | BodyJson (v : json)
  | BodyNotJson (raw : text) (parse_message : text).

Record response := Response {
  status : Z;
  resp_body : body
}.

Definition response_ok (r : response) : bool := (200 <=? status r) && (status r <=? 299).

(** [response.json()], and equally [JSON.parse(await response.text())]. *)
Definition response_json (r : response) : json + js_error :=
  match resp_body r with
  | BodyJson v => inl v
  | BodyNotJson _ m => inr (JsError "SyntaxError" m)
  end.

Inductive fetch_result :=
  | FetchResponse (r : response)
  | FetchError (e : js_error).

(** [x || fallback] where [x] is a property read of a string field. *)
Definition or_else (x : option text) (fallback : text) : text :=
  match x with
  | Some t => if truthy t then t else fallback
  | None => fallback
  end.

(** ** The translator page *)

(** The status indicator after [updateStatus]: text, type (CSS class),
    spinner shown, indicator displayed. *)
Record status_view := StatusView {
  st_text : text;
  st_type : string;
  st_spinner : bool;
  st_shown : bool
}.

(** The progress modal: displayed, its text, the bar width in percent. *)
Record progress_view := ProgressView {
  pv_shown : bool;
  pv_text : text;
  pv_width : Z
}.

(** Pending timers ([setTimeout] and [setInterval]) by the callback they
    run. *)
Inductive timer_kind :=
  | TranslateTimeout (ctrl : nat)   (* the 180 s timeout of a single-shot request *)
  | ProgressTick                    (* the 1 s progress ticker *)
  | ShowResult                      (* the 500 ms result display after success *)
  | StatusFade.                     (* the 3 s fade of a 'success' status *)

(** Requests dispatched with [fetch]. *)
Inductive request :=
  | ReqModels (provider : text)
  | ReqTranscript (video_id : text) (preserve_timestamps : bool)
  | ReqTranslate (input : text) (model : text) (target : text) (notify : bool)
  | ReqTranslateStream (input : text) (model : text) (target : text) (notify : bool).

(** The form controls the handlers read. *)
Record controls := Controls {
  input_text : text;         (* #input-text innerText *)
  provider_value : text;     (* #provider-select value *)
  model_value : text;        (* #model-select value *)
  target_value : text;       (* #target-language-select value *)
  notify_checked : bool;     (* #notification-checkbox *)
  timestamp_checked : bool;  (* #timestamp-checkbox *)
  streaming_checked : bool   (* #streaming-checkbox *)
}.

Record page := Page {
  btn_disabled : bool;                (* #translate-button disabled *)
  editable : bool;                    (* #input-text contenteditable *)
  output : text;                      (* #output-text textContent *)
  input_html : text;                  (* #input-text innerHTML *)
  status_ind : status_view;
  hide_timeout : option nat;          (* statusIndicator.hideTimeout *)
  progress : progress_view;
  timers : list (nat * timer_kind);   (* pending timers by id *)
  next_id : nat;                      (* next timer / controller id *)
  unload_handlers : list nat;         (* 'beforeunload' listeners, by controller *)
  aborted : list nat;                 (* aborted AbortControllers *)
  requests : list request;            (* fetch calls issued, latest first *)
  store : list (string * text);       (* localStorage *)
  form : controls
}.

Definition set_btn_disabled b p := Page b (editable p) (output p) (input_html p) (status_ind p) (hide_timeout p) (progress p) (timers p) (next_id p) (unload_handlers p) (aborted p) (requests p) (store p) (form p).
Definition set_editable b p := Page (btn_disabled p) b (output p) (input_html p) (status_ind p) (hide_timeout p) (progress p) (timers p) (next_id p) (unload_handlers p) (aborted p) (requests p) (store p) (form p).
Definition set_output t p := Page (btn_disabled p) (editable p) t (input_html p) (status_ind p) (hide_timeout p) (progress p) (timers p) (next_id p) (unload_handlers p) (aborted p) (requests p) (store p) (form p).
Definition set_input_html t p := Page (btn_disabled p) (editable p) (output p) t (status_ind p) (hide_timeout p) (progress p) (timers p) (next_id p) (unload_handlers p) (aborted p) (requests p) (store p) (form p).
Definition set_status_ind s p := Page (btn_disabled p) (editable p) (output p) (input_html p) s (hide_timeout p) (progress p) (timers p) (next_id p) (unload_handlers p) (aborted p) (requests p) (store p) (form p).
Definition set_hide_timeout h p := Page (btn_disabled p) (editable p) (output p) (input_html p) (status_ind p) h (progress p) (timers p) (next_id p) (unload_handlers p) (aborted p) (requests p) (store p) (form p).
Definition set_progress v p := Page (btn_disabled p) (editable p) (output p) (input_html p) (status_ind p) (hide_timeout p) v (timers p) (next_id p) (unload_handlers p) (aborted p) (requests p) (store p) (form p).
Definition set_timers ts n p := Page (btn_disabled p) (editable p) (output p) (input_html p) (status_ind p) (hide_timeout p) (progress p) ts n (unload_handlers p) (aborted p) (requests p) (store p) (form p).
Definition set_unload_handlers hs p := Page (btn_disabled p) (editable p) (output p) (input_html p) (status_ind p) (hide_timeout p) (progress p) (timers p) (next_id p) hs (aborted p) (requests p) (store p) (form p).
Definition set_aborted a p := Page (btn_disabled p) (editable p) (output p) (input_html p) (status_ind p) (hide_timeout p) (progress p) (timers p) (next_id p) (unload_handlers p) a (requests p) (store p) (form p).
Definition set_requests rs p := Page (btn_disabled p) (editable p) (output p) (input_html p) (status_ind p) (hide_timeout p) (progress p) (timers p) (next_id p) (unload_handlers p) (aborted p) rs (store p) (form p).
Definition set_store st p := Page (btn_disabled p) (editable p) (output p) (input_html p) (status_ind p) (hide_timeout p) (progress p) (timers p) (next_id p) (unload_handlers p) (aborted p) (requests p) st (form p).
Definition set_form f p := Page (btn_disabled p) (editable p) (output p) (input_html p) (status_ind p) (hide_timeout p) (progress p) (timers p) (next_id p) (unload_handlers p) (aborted p) (requests p) (store p) f.

(** *** Browser primitives *)

(** [setTimeout] / [setInterval]: registers a timer, returns its id. *)
Definition set_timer (k : timer_kind) (p : page) : nat * page :=
  (next_id p, set_timers ((next_id p, k) :: timers p) (S (next_id p)) p).

(** [clearTimeout] / [clearInterval] *)
Definition clear_timer (id : nat) (p : page) : page :=
  set_timers (filter (fun e => negb (Nat.eqb (fst e) id)) (timers p)) (next_id p) p.

(** [new AbortController()] *)
Definition new_controller (p : page) : nat * page :=
  (next_id p, set_timers (timers p) (S (next_id p)) p).

Definition abort (ctrl : nat) (p : page) : page := set_aborted (ctrl :: aborted p) p.

Definition issue (r : request) (p : page) : page := set_requests (r :: requests p) p.

(** [localStorage.getItem] and [localStorage.setItem] *)
Definition get_item (k : string) (st : list (string * text)) : option text :=
  match find (fun kv => String.eqb (fst kv) k) st with
  | Some (_, v) => Some v
  | None => None
  end.

Definition set_item (k : string) (v : text) (st : list (string * text)) :=
  (k, v) :: filter (fun kv => negb (String.eqb (fst kv) k)) st.

(** [String(b)] for a boolean stored with [setItem]. *)
Definition bool_text (b : bool) : text := if b then js "true" else js "false".

(** *** UI helpers of translator_ui.js *)

(** [updateStatus(message, type, showSpinner)] *)
Definition update_status (msg : text) (type : string) (spinner : bool) (p : page) : page :=
  let p1 := match hide_timeout p with
            | Some id => set_hide_timeout None (clear_timer id p)
            | None => p
            end in
  let p2 := set_status_ind
              (StatusView msg type spinner (spinner || negb (String.eqb type "info"))) p1 in
  if negb spinner && String.eqb type "success" then
    let '(id, p3) := set_timer StatusFade p2 in set_hide_timeout (Some id) p3
  else p2.

(** [showProgress], [hideProgress], [updateProgressBar] *)
Definition show_progress (msg : text) (p : page) : page :=
  set_progress (ProgressView true msg (pv_width (progress p))) p.
Definition hide_progress (p : page) : page :=
  set_progress (ProgressView false (pv_text (progress p)) (pv_width (progress p))) p.
Definition update_progress_bar (w : Z) (p : page) : page :=
  set_progress (ProgressView (pv_shown (progress p)) (pv_text (progress p)) w) p.

(** *** Single-shot mode: [handleRegularTranslation] *)

Definition msg_enter_text := js "번역할 내용을 입력해주세요".
Definition msg_select_model := js "사용 가능한 모델을 먼저 선택해주세요".
Definition msg_timeout_status := js "요청이 3분을 초과하여 취소되었습니다".
Definition msg_unknown_server := js "알 수 없는 서버 오류".
Definition msg_timeout := js "요청 시간이 초과되었습니다. 인터넷 연결을 확인해주세요.".
Definition msg_unreachable := js "서버에 연결할 수 없습니다. 서버가 실행 중인지 확인해주세요.".
Definition msg_server_failed :=
  js "서버에서 번역을 처리하던 중 오류가 발생했습니다. 잠시 후 다시 시도해주세요.".
Definition msg_unknown := js "알 수 없는 오류가 발생했습니다. 다시 시도해주세요.".
Definition tag_input_error := js "입력 오류".
Definition tag_server_error := js "서버 내부 오류".

Definition progress_steps : list text :=
  map js ["서버 연결중..."; "요청 전송중..."; "AI 번역 처리중..."; "결과 수신중..."; "완료 처리중..."]%string.

Definition progress_step (n : nat) : text := nth n progress_steps [].

(** How the network call of one attempt ends: the promise settles after
    [secs] seconds with a response or a rejection, or it never settles. *)
Inductive net_outcome :=
  | Settles (secs : nat) (res : fetch_result)
  | NeverSettles.

(** [n] runs of the [setInterval] callback, from [progressPhase = phase]. *)
Fixpoint run_ticks (n phase : nat) (p : page) : nat * page :=
  match n with
  | O => (phase, p)
  | S n' =>
      let phase' := Nat.min (S phase) (length progress_steps - 1) in
      let p := show_progress (progress_step phase') p in
      let p := update_progress_bar (10 + Z.of_nat phase' * 20) p in
      run_ticks n' phase' p
  end.

(** The [setTimeout(..., 180000)] callback; the fired timer is no longer
    pending. *)
Definition fire_timeout (tid ctrl : nat) (p : page) : page :=
  let p := clear_timer tid p in
  let p := abort ctrl p in
  let p := update_status msg_timeout_status "error" false p in
  let p := hide_progress p in
  let p := set_btn_disabled false p in
  set_editable true p.

(** The error thrown for a non-OK response whose body parsed as [err]. *)
Definition classify_error (st : Z) (err : json) : js_error :=
  match json_get err "detail" with
  | inr e => e
  | inl d =>
      let m := or_else d msg_unknown_server in
      if st =? 400 then js_Error (js "입력 오류: " ++ m)
      else if st =? 500 then js_Error (js "서버 내부 오류: " ++ m)
      else js_Error (js "HTTP " ++ z_to_text st ++ js ": " ++ m)
  end.

(** First [.then(response => ...)]. *)
Definition regular_then1 (tid : nat) (r : response) (p : page) : page * (json + js_error) :=
  let p := clear_timer tid p in
  let p := update_progress_bar 70 p in
  let p := show_progress (js "서버 응답 처리중...") p in
  if negb (response_ok r) then
    match response_json r with
    | inr e => (p, inr e)
    | inl err => (p, inr (classify_error (status r) err))
    end
  else (p, response_json r).

(** Second [.then(data => ...)]; [textContent = undefined] clears the
    output. *)
Definition regular_then2 (provider model : text) (data : json) (p : page)
  : page * (unit + js_error) :=
  let p := update_progress_bar 90 p in
  let p := show_progress (js "결과 표시중...") p in
  match json_get data "translated_text" with
  | inr e => (p, inr e)
  | inl t =>
      let p := set_output (match t with Some x => x | None => [] end) p in
      let p := set_store (set_item "lastUsedProvider" provider (store p)) p in
      let p := set_store (set_item "lastUsedModel" model (store p)) p in
      let p := update_progress_bar 100 p in
      let '(_, p) := set_timer ShowResult p in
      (p, inl tt)
  end.

(** The user-facing message of [.catch(error => ...)]. *)
Definition friendly_message (e : js_error) : text :=
  let m := err_message e in
  if String.eqb (err_name e) "AbortError" then msg_timeout
  else if String.eqb (err_name e) "TypeError" && includes m (js "fetch") then msg_unreachable
  else if includes m tag_input_error then m
  else if includes m tag_server_error then msg_server_failed
  else msg_unknown.

Definition regular_catch (iid : nat) (e : js_error) (p : page) : page :=
  let p := hide_progress p in
  let p := clear_timer iid p in
  let msg := friendly_message e in
  let p := set_output msg p in
  update_status msg "error" false p.

Definition regular_finally (iid tid : nat) (p : page) : page :=
  let p := clear_timer iid p in
  let p := clear_timer tid p in
  let p := set_btn_disabled false p in
  let p := set_editable true p in
  if negb (btn_disabled p) then update_status (js "준비 완료") "success" false p else p.

(** [fetch(...).then(...).then(...).catch(...).finally(...)] once the fetch
    promise settles with [res]. *)
Definition regular_chain (provider model : text) (tid iid : nat)
    (res : fetch_result) (p : page) : page :=
  let '(p, r1) := match res with
                  | FetchError e => (p, inr e)
                  | FetchResponse r => regular_then1 tid r p
                  end in
  let '(p, r2) := match r1 with
                  | inr e => (p, inr e)
                  | inl data => regular_then2 provider model data p
                  end in
  let p := match r2 with
           | inr e => regular_catch iid e p
           | inl _ => p
           end in
  regular_finally iid tid p.

(** [handleRegularTranslation()], run until the promise chain has settled
    (progress ticks that fall before the settlement included). *)
Definition handle_regular (o : net_outcome) (p : page) : page :=
  let f := form p in
  let inputText := input_text f in
  let selectedModel := model_value f in
  if negb (truthy (js_trim inputText)) then
    update_status msg_enter_text "error" false p
  else if negb (truthy selectedModel) || includes selectedModel (js "로딩")
          || includes selectedModel (js "없음") then
    update_status msg_select_model "error" false p
  else
    let p := set_btn_disabled true p in
    let p := set_editable false p in
    let p := update_status (js "번역 준비중...") "loading" true p in
    let p := show_progress (progress_step 0) p in
    let p := update_progress_bar 10 p in
    let '(ctrl, p) := new_controller p in
    let '(tid, p) := set_timer (TranslateTimeout ctrl) p in
    let '(iid, p) := set_timer ProgressTick p in
    let p := issue (ReqTranslate inputText selectedModel (target_value f)
                      (notify_checked f)) p in
    let timed_out :=
      regular_chain (provider_value f) selectedModel tid iid (FetchError abort_error)
        (fire_timeout tid ctrl (snd (run_ticks 179 0 p))) in
    match o with
    | Settles secs res =>
        if Nat.ltb secs 180
        then regular_chain (provider_value f) selectedModel tid iid res
               (snd (run_ticks secs 0 p))
        else timed_out
    | NeverSettles => timed_out
    end.

(** *** Streaming mode: [handleStreamTranslation] *)

(** How a streaming attempt goes: [fetch] rejects, or a response arrives;
    for an OK response the reader yields [chunks] and then either reports
    [done] ([None]) or rejects ([Some e]).  Cancellation through
    'beforeunload' shows up as a rejection with [abort_error]. *)
Inductive stream_outcome :=
  | StreamFetchError (e : js_error)
  | StreamResponse (r : response) (chunks : list (list Z)) (ending : option js_error).

Definition msg_stream_failed := js "스트리밍 연결에 실패했습니다.".
Definition msg_cancelled := js "번역이 사용자에 의해 취소되었습니다.".

Definition stream_catch (e : js_error) (p : page) : page :=
  if String.eqb (err_name e) "AbortError" then
    let p := set_output msg_cancelled p in
    update_status (js "번역 취소됨") "warning" false p
  else
    let p := set_output (js "오류: " ++ err_message e) p in
    update_status (js "오류: " ++ err_message e) "error" false p.

(** [throw new Error(JSON.parse(errorText).detail || '...')] *)
Definition stream_http_error (r : response) : js_error :=
  match response_json r with
  | inr e => e
  | inl v =>
      match json_get v "detail" with
      | inr e => e
      | inl d => js_Error (or_else d msg_stream_failed)
      end
  end.

Definition handle_stream (o : stream_outcome) (p : page) : page :=
  let f := form p in
  let inputText := input_text f in
  if negb (truthy (js_trim inputText)) then
    update_status msg_enter_text "error" false p
  else
    let p := set_btn_disabled true p in
    let p := set_editable false p in
    let p := set_output [] p in
    let p := update_status (js "스트리밍 번역 중...") "loading" true p in
    let '(ctrl, p) := new_controller p in
    (* try { *)
    let p := set_unload_handlers (ctrl :: unload_handlers p) p in
    let p := issue (ReqTranslateStream inputText (model_value f) (target_value f)
                      (notify_checked f)) p in
    let p :=
      match o with
      | StreamFetchError e => stream_catch e p
      | StreamResponse r chunks ending =>
          if negb (response_ok r) then stream_catch (stream_http_error r) p
          else
            let '(_, out) := read_loop new_TextDecoder (output p) chunks in
            let p := set_output out p in
            match ending with
            | None => update_status (js "스트리밍 완료") "success" false p
            | Some e => stream_catch e p
            end
      end in
    (* } finally { *)
    let p := set_unload_handlers
               (filter (fun h => negb (Nat.eqb h ctrl)) (unload_handlers p)) p in
    let p := set_btn_disabled false p in
    set_editable true p.

(** *** [fetchAndDisplayTranscript] *)

(** A double quote inside the HTML templates. *)
Definition dq : text := [34].

Definition loading_html : text :=
  js "<div style=" ++ dq ++ js "color: #888;" ++ dq ++ js ">자막을 불러오는 중입니다...</div>".

Definition title_open : text :=
  js "<div style=" ++ dq ++ js "font-size: 20px; font-weight: 500;" ++ dq ++ js ">".

(** [titleHTML] *)
Definition title_html (videoTitle : text) : text :=
  title_open ++ js_trim videoTitle ++ js " - YouTube</div>".

Definition url_open : text :=
  js "<div style=" ++ dq ++ js "font-size: 14px; color: #555; margin-bottom: 1em;" ++ dq ++ js ">".

(** [urlHTML] *)
Definition url_html (fullUrl : text) : text := url_open ++ fullUrl ++ js "</div>".

(** [errorHTML] *)
Definition error_html (message : text) : text :=
  js "<div style=" ++ dq ++ js "color: red;" ++ dq ++ js ">자막을 불러오는 데 실패했습니다: "
    ++ message ++ js "</div>".

Definition msg_transcript_unavailable := js "자막을 불러올 수 없습니다.".

(** [s.replace(/c/g, rep)] for a single character [c]. *)
Definition replace_char (c : Z) (rep : text) (s : text) : text :=
  flat_map (fun a => if a =? c then rep else [a]) s.

(** [data.transcript.replace(/&/g, "&amp;").replace(/</g, "&lt;").replace(/>/g, "&gt;")] *)
Definition transcript_content (t : text) : text :=
  replace_char 62 (js "&gt;") (replace_char 60 (js "&lt;") (replace_char 38 (js "&amp;") t)).

(** What the three passes do to one character. *)
Definition html_escape_char (c : Z) : text :=
  if c =? 38 then js "&amp;" else if c =? 60 then js "&lt;" else if c =? 62 then js "&gt;" else [c].

(** How the HTML parser reads text content back: the character references
    [&amp;], [&lt;] and [&gt;] stand for [&], [<] and [>]. *)
Fixpoint html_unescape_n (n : nat) (s : text) : text :=
  match n with
  | O => s
  | S n' =>
      match s with
      | [] => []
      | c :: r =>
          if (c =? 38) && is_prefix (js "amp;") r then 38 :: html_unescape_n n' (skipn 4 r)
          else if (c =? 38) && is_prefix (js "lt;") r then 60 :: html_unescape_n n' (skipn 3 r)
          else if (c =? 38) && is_prefix (js "gt;") r then 62 :: html_unescape_n n' (skipn 3 r)
          else c :: html_unescape_n n' r
      end
  end.

Definition html_unescape (s : text) : text := html_unescape_n (length s) s.

(** How the transcript request goes. *)
Inductive transcript_outcome :=
  | TranscriptFetchError (e : js_error)
  | TranscriptResponse (r : response).

(** The body of the [try] block up to the rendering: the transcript text,
    or the error the [catch] block receives. *)
Definition transcript_result (o : transcript_outcome) : text + js_error :=
  match o with
  | TranscriptFetchError e => inr e
  | TranscriptResponse r =>
      if negb (response_ok r) then
        match response_json r with
        | inr e => inr e
        | inl errorData =>
            match json_get errorData "detail" with
            | inr e => inr e
            | inl d => inr (js_Error (or_else d msg_transcript_unavailable))
            end
        end
      else
        match response_json r with
        | inr e => inr e
        | inl data =>
            match json_get data "transcript" with
            | inr e => inr e
            | inl None => inr (read_undefined_error "replace")
            | inl (Some t) => inl t
            end
        end
  end.

(** [fetchAndDisplayTranscript(videoId, videoTitle, fullUrl)], run until
    the request has been answered ([updateCharCounter] only redraws the
    counter and is left out). *)
Definition fetch_and_display_transcript (videoId videoTitle fullUrl : text)
    (o : transcript_outcome) (p : page) : page :=
  let preserveTimestamps := timestamp_checked (form p) in
  let p := set_input_html loading_html p in
  let p := update_status (js "자막 로딩 중...") "loading" true p in
  let p := issue (ReqTranscript videoId preserveTimestamps) p in
  match transcript_result o with
  | inl t =>
      let p := set_input_html (title_html videoTitle ++ url_html fullUrl ++ transcript_content t) p in
      update_status (js "자막 로드 완료") "success" false p
  | inr e =>
      let p := set_input_html (title_html videoTitle ++ url_html fullUrl ++ error_html (err_message e)) p in
      update_status (js "자막 로딩 실패: " ++ err_message e) "error" false p
  end.

(** *** Preferences: the 'DOMContentLoaded' listener and its handlers *)

Definition with_provider (v : text) (f : controls) : controls :=
  Controls (input_text f) v (model_value f) (target_value f) (notify_checked f)
           (timestamp_checked f) (streaming_checked f).
Definition with_model (v : text) (f : controls) : controls :=
  Controls (input_text f) (provider_value f) v (target_value f) (notify_checked f)
           (timestamp_checked f) (streaming_checked f).
Definition with_timestamp (b : bool) (f : controls) : controls :=
  Controls (input_text f) (provider_value f) (model_value f) (target_value f) (notify_checked f)
           b (streaming_checked f).
Definition with_streaming (b : bool) (f : controls) : controls :=
  Controls (input_text f) (provider_value f) (model_value f) (target_value f) (notify_checked f)
           (timestamp_checked f) b.

Fixpoint text_eqb (a b : text) : bool :=
  match a, b with
  | [], [] => true
  | x :: a', y :: b' => (x =? y) && text_eqb a' b'
  | _, _ => false
  end.

(** [localStorage.getItem(k) === 'true'] *)
Definition stored_true (k : string) (st : list (string * text)) : bool :=
  match get_item k st with Some v => text_eqb v (js "true") | None => false end.

(** How the models request goes: it throws (network error, non-OK status
    or unparsable body) or yields the list of model names. *)
Inductive models_outcome :=
  | ModelsFailed (e : js_error)
  | ModelsLoaded (models : list text).

(** [loadModelsForProvider(provider, selectedModelName)]; the model select
    is represented by its value. Setting the value of a select to a value
    no option has leaves no option selected (value ''). *)
Definition load_models_for_provider (provider : text) (selectedModelName : option text)
    (o : models_outcome) (p : page) : page :=
  let p := set_form (with_model (js "모델 로딩 중...") (form p)) p in
  let p := update_status (js "모델 목록을 불러오는 중...") "loading" true p in
  let p := issue (ReqModels provider) p in
  match o with
  | ModelsFailed e =>
      let p := set_form (with_model (js "모델 로딩 실패") (form p)) p in
      update_status (if truthy (err_message e) then err_message e else js "모델 목록 로딩 실패")
        "error" false p
  | ModelsLoaded [] =>
      let p := set_form (with_model (js "사용 가능한 모델 없음") (form p)) p in
      update_status (js "사용 가능한 모델이 없습니다") "error" false p
  | ModelsLoaded ((m0 :: _) as models) =>
      let v := match selectedModelName with
               | Some s => if truthy s then (if existsb (text_eqb s) models then s else []) else m0
               | None => m0
               end in
      let p := set_form (with_model v (form p)) p in
      update_status (z_to_text (Z.of_nat (length models)) ++ js "개 모델 로드 완료") "success" false p
  end.

(** The preference reads of the 'DOMContentLoaded' listener, in source
    order (the transcript or placeholder rendering between them is
    [fetch_and_display_transcript]). *)
Definition init_preferences (o : models_outcome) (p : page) : page :=
  let showTimestamp := stored_true "show_timestamp" (store p) in
  let p := set_form (with_timestamp showTimestamp (form p)) p in
  let useStreaming := stored_true "use_streaming" (store p) in
  let p := set_form (with_streaming useStreaming (form p)) p in
  let lastUsedProvider := or_else (get_item "lastUsedProvider" (store p)) (js "gemini") in
  let lastUsedModel := get_item "lastUsedModel" (store p) in
  let p := set_form (with_provider lastUsedProvider (form p)) p in
  load_models_for_provider lastUsedProvider lastUsedModel o p.

(** 'change' on #timestamp-checkbox, the box now [checked]; [videoId] is
    the page's video id ([] when absent). *)
Definition on_timestamp_change (checked : bool) (videoId videoTitle fullUrl : text)
    (o : transcript_outcome) (p : page) : page :=
  let p := set_form (with_timestamp checked (form p)) p in
  let p := set_store (set_item "show_timestamp" (bool_text checked) (store p)) p in
  if truthy videoId then fetch_and_display_transcript videoId videoTitle fullUrl o p else p.

(** 'change' on #streaming-checkbox. *)
Definition on_streaming_change (checked : bool) (p : page) : page :=
  let p := set_form (with_streaming checked (form p)) p in
  set_store (set_item "use_streaming" (bool_text checked) (store p)) p.

(** 'change' on #provider-select, the user having picked [v]. *)
Definition on_provider_change (v : text) (o : models_outcome) (p : page) : page :=
  let p := set_form (with_provider v (form p)) p in
  load_models_for_provider v None o p.

(** ** background.js: the translator tab manager *)

Module Background.

Record tab := Tab {
  tab_id : Z;
  tab_url : text
}.

(** The browser as the background script sees it: open tabs, the focused
    tab, [chrome.storage.session]'s translatorTabId, and the id the next
    created tab gets. *)
Record browser := Browser {
  tabs : list tab;
  focused : option Z;
  translatorTabId : option Z;
  next_tab : Z
}.

Definition set_tabs ts b := Browser ts (focused b) (translatorTabId b) (next_tab b).
Definition set_focused f b := Browser (tabs b) f (translatorTabId b) (next_tab b).
Definition set_translatorTabId s b := Browser (tabs b) (focused b) s (next_tab b).
Definition set_next_tab n b := Browser (tabs b) (focused b) (translatorTabId b) n.

(** [chrome.tabs.get(id)]: the tab, or [None] when the promise rejects. *)
Definition tabs_get (id : Z) (b : browser) : option tab :=
  find (fun t => tab_id t =? id) (tabs b).

(** [chrome.tabs.update(id, { url, active: true })] *)
Definition tabs_update (id : Z) (url : text) (b : browser) : browser :=
  let b := set_tabs (map (fun t => if tab_id t =? id then Tab id url else t) (tabs b)) b in
  set_focused (Some id) b.

(** [chrome.tabs.create({ url, active: true }, callback)]: the new tab and
    the tab given to the callback. *)
Definition tabs_create (url : text) (b : browser) : tab * browser :=
  let t := Tab (next_tab b) url in
  (t, set_next_tab (next_tab b + 1) (set_focused (Some (tab_id t)) (set_tabs (tabs b ++ [t]) b))).

(** [createTranslatorTab(url)] *)
Definition createTranslatorTab (url : text) (b : browser) : browser :=
  let '(newTab, b) := tabs_create url b in
  if negb (tab_id newTab =? 0) then set_translatorTabId (Some (tab_id newTab)) b else b.

(** [reuseOrCreateTab(newUrl)]; a stored id is truthy when it is not 0. *)
Definition reuseOrCreateTab (newUrl : text) (b : browser) : browser :=
  match translatorTabId b with
  | Some id =>
      if negb (id =? 0) then
        match tabs_get id b with
        | Some t => tabs_update (tab_id t) newUrl b
        | None => createTranslatorTab newUrl b
        end
      else createTranslatorTab newUrl b
  | None => createTranslatorTab newUrl b
  end.

(** [encodeURIComponent]-like form encoding of [URLSearchParams]: bytes of
    the UTF-8 encoding, unreserved ones kept, space as '+', others as %XX. *)
Definition hex_digit (n : Z) : Z := if n <? 10 then 48 + n else 55 + n.

Definition form_byte (c : Z) : text :=
  if ((48 <=? c) && (c <=? 57)) || ((65 <=? c) && (c <=? 90)) || ((97 <=? c) && (c <=? 122))
     || (c =? 42) || (c =? 45) || (c =? 46) || (c =? 95) then [c]
  else if c =? 32 then [43]
  else [37; hex_digit (c / 16); hex_digit (c mod 16)].

Definition form_encode (t : text) : text := flat_map form_byte (utf8_encode t).

Record video_data := VideoData {
  videoId : text;
  videoTitle : text;
  fullUrl : text
}.

(** [url.href] for [chrome.runtime.getURL('translator_ui.html')] at
    [ext_base] and the three search parameters set in order. *)
Definition ui_url (ext_base : text) (d : video_data) : text :=
  ext_base ++ js "translator_ui.html?videoId=" ++ form_encode (videoId d)
    ++ js "&videoTitle=" ++ form_encode (videoTitle d)
    ++ js "&fullUrl=" ++ form_encode (fullUrl d).

(** The [chrome.runtime.onMessage] listener. *)
Definition on_message (ext_base : text) (action : string) (data : option video_data)
    (b : browser) : browser :=
  if String.eqb action "showVideoId" then
    match data with
    | Some d => if truthy (videoId d) then reuseOrCreateTab (ui_url ext_base d) b else b
    | None => b
    end
  else b.

(** The [chrome.tabs.onRemoved] listener. *)
Definition on_removed (tabId : Z) (b : browser) : browser :=
  let b := set_tabs (filter (fun t => negb (tab_id t =? tabId)) (tabs b)) b in
  match translatorTabId b with
  | Some id => if id =? tabId then set_translatorTabId None b else b
  | None => b
  end.

End Background.

(** ** More of translator_ui.js *)

Definition with_input (t : text) (f : controls) : controls :=
  Controls t (provider_value f) (model_value f) (target_value f) (notify_checked f)
           (timestamp_checked f) (streaming_checked f).
Definition with_target (v : text) (f : controls) : controls :=
  Controls (input_text f) (provider_value f) (model_value f) v (notify_checked f)
           (timestamp_checked f) (streaming_checked f).

(** The 'click' listener of #translate-button. *)
Definition translate_click (o : net_outcome) (so : stream_outcome) (p : page) : page :=
  if streaming_checked (form p) then handle_stream so p else handle_regular o p.

(** *** The input area's placeholder *)

Definition placeholder_text : text := js "번역할 내용을 입력하거나 붙여넣으세요...".

(** [placeholderHTML] *)
Definition placeholder_html : text :=
  js "<div style=" ++ dq ++ js "color: #888;" ++ dq ++ js ">" ++ placeholder_text ++ js "</div>".

(** [inputDiv.innerHTML = placeholderHTML]; the area's innerText then reads
    the placeholder's text. *)
Definition show_placeholder (p : page) : page :=
  set_form (with_input placeholder_text (form p)) (set_input_html placeholder_html p).

(** [inputDiv.onfocus]: [innerHTML = ''] empties the innerText as well
    (the colour change is not modelled). *)
Definition on_input_focus (p : page) : page :=
  if text_eqb (js_trim (input_text (form p))) placeholder_text
  then set_form (with_input [] (form p)) (set_input_html [] p)
  else p.

(** [inputDiv.onblur] *)
Definition on_input_blur (p : page) : page :=
  if text_eqb (js_trim (input_text (form p))) [] then show_placeholder p else p.

(** *** [new URLSearchParams(window.location.search)] and [urlParams.get] *)

(** Splitting on a byte, empty pieces kept. *)
Fixpoint split_on (c : Z) (t : text) : list text :=
  match t with
  | [] => [[]]
  | x :: r =>
      if x =? c then [] :: split_on c r
      else match split_on c r with
           | [] => [[x]]
           | y :: ys => (x :: y) :: ys
           end
  end.

(** The bytes before the first [c], and those after it if there is one. *)
Fixpoint break_at (c : Z) (t : text) : text * option text :=
  match t with
  | [] => ([], None)
  | x :: r =>
      if x =? c then ([], Some r)
      else let '(a, b) := break_at c r in (x :: a, b)
  end.

Definition plus_to_space (t : text) : text := map (fun b => if b =? 43 then 32 else b) t.

Definition is_hex_digit (b : Z) : bool :=
  ((48 <=? b) && (b <=? 57)) || ((65 <=? b) && (b <=? 70)) || ((97 <=? b) && (b <=? 102)).

Definition hex_value (b : Z) : Z :=
  if b <=? 57 then b - 48 else if b <=? 70 then b - 55 else b - 87.

(** Percent-decode of the URL standard. *)
Fixpoint percent_decode (bs : list Z) : list Z :=
  match bs with
  | [] => []
  | b :: r =>
      if b =? 37 then
        match r with
        | h :: l :: r' =>
            if is_hex_digit h && is_hex_digit l
            then (hex_value h * 16 + hex_value l) :: percent_decode r'
            else 37 :: percent_decode r
        | _ => 37 :: percent_decode r
        end
      else b :: percent_decode r
  end.

(** UTF-8 decode without BOM: the decoder run to the end of the queue,
    an unfinished sequence giving U+FFFD. *)
Definition utf8_decode_no_bom (bs : list Z) : text :=
  let '(st, out) := utf8_run utf8_init bs in
  out ++ (if u_needed st =? 0 then [] else [65533]).

Definition form_decode (bs : list Z) : text :=
  utf8_decode_no_bom (percent_decode (plus_to_space bs)).

(** The application/x-www-form-urlencoded parser. *)
Definition form_parse (bs : list Z) : list (text * text) :=
  flat_map (fun seq =>
              match seq with
              | [] => []
              | _ => let '(name, value) := break_at 61 seq in
                     [(form_decode name, form_decode (match value with Some v => v | None => [] end))]
              end)
           (split_on 38 bs).

(** [new URLSearchParams(init)]: a leading '?' is removed. *)
Definition url_search_params (init : text) : list (text * text) :=
  form_parse (utf8_encode (match init with 63 :: r => r | _ => init end)).

(** [urlParams.get(name)]: the first value, or [null] ([None]). *)
Definition search_get (name : text) (params : list (text * text)) : option text :=
  match find (fun kv => text_eqb (fst kv) name) params with
  | Some (_, v) => Some v
  | None => None
  end.

Fixpoint take_until (c : Z) (t : text) : text :=
  match t with
  | [] => []
  | x :: r => if x =? c then [] else x :: take_until c r
  end.

(** [window.location.search] of the page loaded at [href]: '?' and the
    query (up to a '#'), or '' when the query is absent or empty. *)
Fixpoint location_search (href : text) : text :=
  match href with
  | [] => []
  | c :: r =>
      if c =? 35 then []
      else if c =? 63 then
        match take_until 35 r with [] => [] | q => 63 :: q end
      else location_search r
  end.

(** [`${x}`] for a value read with [urlParams.get]. *)
Definition template_value (x : option text) : text :=
  match x with Some t => t | None => js "null" end.

(** *** The two halves of the asynchronous loaders *)

(** [fetchAndDisplayTranscript] up to its [await fetch(...)]. *)
Definition transcript_start (videoId : text) (p : page) : page :=
  let preserveTimestamps := timestamp_checked (form p) in
  let p := set_input_html loading_html p in
  let p := update_status (js "자막 로딩 중...") "loading" true p in
  issue (ReqTranscript videoId preserveTimestamps) p.

(** The rest of [fetchAndDisplayTranscript], with [videoTitle] and
    [fullUrl] as read by [urlParams.get]. With no title, [videoTitle.trim()]
    throws in the [try] block and again in the [catch] block, so the
    promise rejects and the page is left as it is. *)
Definition transcript_finish (videoTitle fullUrl : option text) (o : transcript_outcome)
    (p : page) : page :=
  match videoTitle with
  | None => p
  | Some title =>
      let url := template_value fullUrl in
      match transcript_result o with
      | inl t =>
          let p := set_input_html (title_html title ++ url_html url ++ transcript_content t) p in
          update_status (js "자막 로드 완료") "success" false p
      | inr e =>
          let p := set_input_html (title_html title ++ url_html url ++ error_html (err_message e)) p in
          update_status (js "자막 로딩 실패: " ++ err_message e) "error" false p
      end
  end.

(** [loadModelsForProvider] up to its [await fetch(...)]. *)
Definition models_start (provider : text) (p : page) : page :=
  let p := set_form (with_model (js "모델 로딩 중...") (form p)) p in
  let p := update_status (js "모델 목록을 불러오는 중...") "loading" true p in
  issue (ReqModels provider) p.

(** The rest of [loadModelsForProvider]. *)
Definition models_finish (selectedModelName : option text) (o : models_outcome) (p : page) : page :=
  match o with
  | ModelsFailed e =>
      let p := set_form (with_model (js "모델 로딩 실패") (form p)) p in
      update_status (if truthy (err_message e) then err_message e else js "모델 목록 로딩 실패")
        "error" false p
  | ModelsLoaded [] =>
      let p := set_form (with_model (js "사용 가능한 모델 없음") (form p)) p in
      update_status (js "사용 가능한 모델이 없습니다") "error" false p
  | ModelsLoaded ((m0 :: _) as models) =>
      let v := match selectedModelName with
               | Some s => if truthy s then (if existsb (text_eqb s) models then s else []) else m0
               | None => m0
               end in
      let p := set_form (with_model v (form p)) p in
      update_status (z_to_text (Z.of_nat (length models)) ++ js "개 모델 로드 완료") "success" false p
  end.

(** The 'DOMContentLoaded' listener for the page whose [location.search]
    is [search]. [fetchAndDisplayTranscript] and [loadModelsForProvider]
    are not awaited: both run up to their [fetch], then their remainders
    run in the order the two requests are answered ([transcript_first]).
    [updateCharCounter] only draws the counter; [loadLanguageOptions]
    fills the language select with 'ko' selected. *)
Definition dom_content_loaded (search : text) (t_o : transcript_outcome)
    (m_o : models_outcome) (transcript_first : bool) (p : page) : page :=
  let urlParams := url_search_params search in
  let videoId := search_get (js "videoId") urlParams in
  let videoTitle := search_get (js "videoTitle") urlParams in
  let fullUrl := search_get (js "fullUrl") urlParams in
  let vid := match videoId with Some v => v | None => [] end in
  let p := set_form (with_target (js "ko") (form p)) p in
  let p := set_form (with_timestamp (stored_true "show_timestamp" (store p)) (form p)) p in
  let p := set_form (with_streaming (stored_true "use_streaming" (store p)) (form p)) p in
  let p := if truthy vid then transcript_start vid p else show_placeholder p in
  let lastUsedProvider := or_else (get_item "lastUsedProvider" (store p)) (js "gemini") in
  let lastUsedModel := get_item "lastUsedModel" (store p) in
  let p := set_form (with_provider lastUsedProvider (form p)) p in
  let p := models_start lastUsedProvider p in
  let finish_t (q : page) := if truthy vid then transcript_finish videoTitle fullUrl t_o q else q in
  let finish_m (q : page) := models_finish lastUsedModel m_o q in
  if transcript_first then finish_m (finish_t p) else finish_t (finish_m p).

(** ** More of background.js *)

(** What the tab manager relies on from Chrome: tab ids are positive and
    below the id the next created tab gets. *)
Definition tabs_wf (b : Background.browser) : Prop :=
  0 < Background.next_tab b /\
  forall t, In t (Background.tabs b) -> 0 < Background.tab_id t < Background.next_tab b.

(** ** Relations between pages used by the proofs *)

(** [q'] differs from [q] at most in the status indicator, the progress
    modal and the timers. *)
Definition frame (q q' : page) : Prop :=
  output q' = output q /\ btn_disabled q' = btn_disabled q /\
  editable q' = editable q /\ aborted q' = aborted q /\
  requests q' = requests q /\ store q' = store q /\
  unload_handlers q' = unload_handlers q /\ form q' = form q /\
  input_html q' = input_html q.

(** Every timer pending in [q'] was pending in [q] or satisfies [P]. *)
Definition timers_from (P : nat * timer_kind -> Prop) (q q' : page) : Prop :=
  forall e, In e (timers q') -> In e (timers q) \/ P e.

(** Timers that only touch the status indicator and the progress modal. *)
Definition cosmetic (e : nat * timer_kind) : Prop :=
  snd e = ShowResult \/ snd e = StatusFade.

(** The model guard of [handleRegularTranslation]: an attempt is refused
    when the selected model is empty, or still shows the loading or the
    no-model placeholder. *)
Definition model_rejected (m : text) : bool :=
  negb (truthy m) || includes m (js "로딩") || includes m (js "없음").

(** Status fade-out timers only. *)
Definition is_fade (e : nat * timer_kind) : Prop := snd e = StatusFade.

(** The bookkeeping of [statusIndicator.hideTimeout]: timer ids are
    distinct and below [next_id], and every pending fade-out timer is the
    one recorded in [hideTimeout]. *)
Definition fade_inv (p : page) : Prop :=
  NoDup (map fst (timers p)) /\
  (forall e, In e (timers p) -> (fst e < next_id p)%nat) /\
  (forall e, In e (timers p) -> snd e = StatusFade -> hide_timeout p = Some (fst e)).

(** ** Sample inputs *)

Definition sample_form : controls :=
  Controls (js "hello") (js "gemini") (js "models/gemini-pro") (js "ko") false false false.

(** An idle page: controls enabled, nothing pending. *)
Definition sample_page : page :=
  Page false true [] [] (StatusView [] "info" false false) None (ProgressView false [] 0)
       [] 1 [] [] [] [] sample_form.

Definition ok_response (t : text) : response :=
  Response 200 (BodyJson (JObject [("translated_text"%string, t)])).

Definition detail_response (st : Z) (d : text) : response :=
  Response st (BodyJson (JObject [("detail"%string, d)])).

(** A browser with the translator open in tab 5. *)
Definition sample_browser : Background.browser :=
  Background.Browser [Background.Tab 3 (js "https://www.youtube.com/");
                      Background.Tab 5 (js "chrome-extension://x/translator_ui.html")]
    (Some 3) (Some 5) 6.

Definition sample_video : Background.video_data :=
  Background.VideoData (js "abc") (js "A video") (js "https://www.youtube.com/watch?v=abc").

(** A video whose title holds the characters the query syntax uses. *)
Definition tricky_video : Background.video_data :=
  Background.VideoData (js "dQw4w9WgXcQ") (js "Tom & Jerry = 톰과 제리 #1 + 100%")
    (js "https://www.youtube.com/watch?v=dQw4w9WgXcQ&t=42s").

(** Bytes that [form_encode] writes out as themselves and that the query
    parser never treats specially. *)
Definition url_safe (b : Z) : bool :=
  (0 <=? b) && (b <? 128) && negb (b =? 38) && negb (b =? 61) && negb (b =? 35) && negb (b =? 63).

(** A sequence of 'change' events on the two preference checkboxes: the
    timestamp box (with the page's video, if any, and how its transcript
    request goes) and the streaming box. *)
Inductive checkbox_event :=
  | TimestampChange (checked : bool) (videoId videoTitle fullUrl : text) (o : transcript_outcome)
  | StreamingChange (checked : bool).

Definition run_checkbox_event (p : page) (e : checkbox_event) : page :=
  match e with
  | TimestampChange c v t u o => on_timestamp_change c v t u o p
  | StreamingChange c => on_streaming_change c p
  end.

Definition run_checkbox_events (evs : list checkbox_event) (p : page) : page :=
  fold_left run_checkbox_event evs p.

(** The state of each box after the events, [d] if the box was not
    changed. *)
Fixpoint last_timestamp_choice (evs : list checkbox_event) (d : bool) : bool :=
  match evs with
  | [] => d
  | TimestampChange c _ _ _ _ :: r => last_timestamp_choice r c
  | StreamingChange _ :: r => last_timestamp_choice r d
  end.

Fixpoint last_streaming_choice (evs : list checkbox_event) (d : bool) : bool :=
  match evs with
  | [] => d
  | TimestampChange _ _ _ _ _ :: r => last_streaming_choice r d
  | StreamingChange c :: r => last_streaming_choice r c
  end.

(* ================================================================== *)
(** * Proofs *)
(* ================================================================== *)

(** ** Bit-level helpers for the UTF-8 decoder *)

Lemma land_low_bits (a n : Z) : 0 <= n -> Z.land a (2 ^ n - 1) = a mod 2 ^ n.
Proof. intros Hn. rewrite <- Z.land_ones by exact Hn. unfold Z.ones. now rewrite Z.shiftl_1_l, Z.sub_1_r. Qed.

Lemma lor_shiftl_low (x y : Z) (n : Z) :
  0 <= n -> 0 <= y < 2 ^ n -> Z.lor (Z.shiftl x n) y = x * 2 ^ n + y.
Proof.
  intros Hn Hy.
  assert (Hland : Z.land (Z.shiftl x n) y = 0).
  { apply Z.bits_inj'. intros m Hm. rewrite Z.land_spec, Z.testbit_0_l.
    destruct (Z.lt_ge_cases m n) as [Hlt | Hge].
    - rewrite Z.shiftl_spec_low by exact Hlt. reflexivity.
    - rewrite <- (Z.mod_small y (2 ^ n)) by exact Hy.
      rewrite Z.mod_pow2_bits_high by lia. apply andb_false_r. }
  rewrite <- Z.lxor_lor by exact Hland. rewrite <- Z.add_nocarry_lxor by exact Hland.
  now rewrite Z.shiftl_mul_pow2.
Qed.

Lemma land31 a : Z.land a 31 = a mod 32.
Proof. exact (land_low_bits a 5 ltac:(lia)). Qed.
Lemma land15 a : Z.land a 15 = a mod 16.
Proof. exact (land_low_bits a 4 ltac:(lia)). Qed.
Lemma land7 a : Z.land a 7 = a mod 8.
Proof. exact (land_low_bits a 3 ltac:(lia)). Qed.
Lemma land63 a : Z.land a 63 = a mod 64.
Proof. exact (land_low_bits a 6 ltac:(lia)). Qed.

Lemma accumulate6 x b : 0 <= b -> Z.lor (Z.shiftl x 6) (Z.land b 63) = x * 64 + b mod 64.
Proof.
  intros Hb. rewrite land63. apply (lor_shiftl_low x (b mod 64) 6); [lia|].
  change (2 ^ 6) with 64. apply Z.mod_pos_bound. lia.
Qed.

(** Rewrites every comparison of the goal that [lia] decides. *)
Ltac zcmp :=
  repeat match goal with
  | |- context [ (?a <=? ?b)%Z ] =>
      first [ rewrite (proj2 (Z.leb_le a b)) by lia
            | rewrite (proj2 (Z.leb_gt a b)) by lia ]
  | |- context [ (?a =? ?b)%Z ] =>
      first [ rewrite (proj2 (Z.eqb_eq a b)) by lia
            | rewrite (proj2 (Z.eqb_neq a b)) by lia ]
  end; cbv beta iota zeta delta [andb negb].

Lemma lead_ascii b : 0 <= b <= 127 -> utf8_lead b = (utf8_init, [b]).
Proof. intros. unfold utf8_lead. zcmp. reflexivity. Qed.

Lemma lead_two b : 194 <= b <= 223 -> utf8_lead b = (Utf8State (b mod 32) 0 1 128 191, []).
Proof. intros. unfold utf8_lead. zcmp. now rewrite land31. Qed.

Lemma lead_three b : 224 <= b <= 239 ->
  utf8_lead b = (Utf8State (b mod 16) 0 2
       (if b =? 224 then 160 else 128) (if b =? 237 then 159 else 191), []).
Proof. intros. unfold utf8_lead. zcmp. now rewrite land15. Qed.

Lemma lead_four b : 240 <= b <= 244 ->
  utf8_lead b = (Utf8State (b mod 8) 0 3
       (if b =? 240 then 144 else 128) (if b =? 244 then 143 else 191), []).
Proof. intros. unfold utf8_lead. zcmp. now rewrite land7. Qed.

Lemma step_lead st b : u_needed st = 0 -> utf8_step st b = utf8_lead b.
Proof. intros H. unfold utf8_step. now rewrite H. Qed.

Lemma step_cont st b : u_needed st <> 0 -> u_lower st <= b <= u_upper st -> 0 <= b ->
  utf8_step st b =
    (let cp := u_cp st * 64 + b mod 64 in
     if u_seen st + 1 =? u_needed st then (utf8_init, [cp])
     else (Utf8State cp (u_seen st + 1) (u_needed st) 128 191, [])).
Proof.
  intros Hn Hb H0. unfold utf8_step.
  rewrite (proj2 (Z.eqb_neq _ _) Hn).
  rewrite (proj2 (Z.leb_le _ _) (proj1 Hb)), (proj2 (Z.leb_le _ _) (proj2 Hb)).
  cbv beta iota zeta delta [andb negb]. now rewrite accumulate6.
Qed.

Lemma step_cont_done st b : u_needed st <> 0 -> u_lower st <= b <= u_upper st -> 0 <= b ->
  u_seen st + 1 = u_needed st ->
  utf8_step st b = (utf8_init, [u_cp st * 64 + b mod 64]).
Proof. intros Hn Hb H0 Hs. rewrite step_cont by assumption. cbv zeta. now rewrite Hs, Z.eqb_refl. Qed.

Lemma step_cont_more st b : u_needed st <> 0 -> u_lower st <= b <= u_upper st -> 0 <= b ->
  u_seen st + 1 <> u_needed st ->
  utf8_step st b = (Utf8State (u_cp st * 64 + b mod 64) (u_seen st + 1) (u_needed st) 128 191, []).
Proof. intros Hn Hb H0 Hs. rewrite step_cont by assumption. cbv zeta. now rewrite (proj2 (Z.eqb_neq _ _) Hs). Qed.

Lemma utf8_run_cons st b bs :
  utf8_run st (b :: bs) =
  let '(st1, o1) := utf8_step st b in let '(st2, o2) := utf8_run st1 bs in (st2, o1 ++ o2).
Proof. reflexivity. Qed.

Lemma utf8_run_nil st : utf8_run st [] = (st, []).
Proof. reflexivity. Qed.

Ltac zdiv := Z.div_mod_to_equations; lia.
Ltac proj := cbn [u_lower u_upper u_needed u_seen u_cp].
Ltac cont :=
  rewrite utf8_run_cons;
  first [ rewrite step_cont_done by (proj; try zdiv; try lia)
        | rewrite step_cont_more by (proj; try zdiv; try lia) ].

Lemma utf8_roundtrip_cp (c : Z) :
  scalar_value c = true -> utf8_run utf8_init (utf8_encode_cp c) = (utf8_init, [c]).
Proof.
  unfold scalar_value. intros Hc.
  apply andb_prop in Hc as [Hc Hsur]. apply andb_prop in Hc as [H0 H1].
  apply Z.leb_le in H0. apply Z.leb_le in H1. apply negb_true_iff in Hsur.
  assert (Hs : ~ (55296 <= c <= 57343)).
  { intros [Ha Hb]. apply Z.leb_le in Ha. apply Z.leb_le in Hb. now rewrite Ha, Hb in Hsur. }
  clear Hsur.
  unfold utf8_encode_cp.
  destruct (Z.ltb_spec c 128).
  { rewrite utf8_run_cons, step_lead, lead_ascii by (reflexivity || lia). reflexivity. }
  destruct (Z.ltb_spec c 2048).
  { rewrite utf8_run_cons, step_lead, lead_two by (reflexivity || zdiv).
    cont. rewrite utf8_run_nil. proj. cbv beta iota zeta delta [app].
    do 2 f_equal. zdiv. }
  destruct (Z.ltb_spec c 65536).
  { rewrite utf8_run_cons, step_lead, lead_three by (reflexivity || zdiv).
    rewrite utf8_run_cons, step_cont_more
      by (proj; try zdiv; try lia;
          destruct (Z.eqb_spec (224 + c / 4096) 224), (Z.eqb_spec (224 + c / 4096) 237); zdiv).
    cont. rewrite utf8_run_nil. proj. cbv beta iota zeta delta [app].
    do 2 f_equal. zdiv. }
  { rewrite utf8_run_cons, step_lead, lead_four by (reflexivity || zdiv).
    rewrite utf8_run_cons, step_cont_more
      by (proj; try zdiv; try lia;
          destruct (Z.eqb_spec (240 + c / 262144) 240), (Z.eqb_spec (240 + c / 262144) 244); zdiv).
    cont. cont. rewrite utf8_run_nil. proj. cbv beta iota zeta delta [app].
    do 2 f_equal. zdiv. }
Qed.

Lemma utf8_run_app st bs1 bs2 :
  utf8_run st (bs1 ++ bs2) =
  let '(st1, o1) := utf8_run st bs1 in let '(st2, o2) := utf8_run st1 bs2 in (st2, o1 ++ o2).
Proof.
  revert st. induction bs1 as [| b bs1 IH]; intros st; simpl.
  - now destruct (utf8_run st bs2).
  - destruct (utf8_step st b) as [st1 o1]. rewrite IH.
    destruct (utf8_run st1 bs1) as [st2 o2]. destruct (utf8_run st2 bs2) as [st3 o3].
    now rewrite app_assoc.
Qed.

Lemma utf8_roundtrip (t : text) :
  forallb scalar_value t = true -> utf8_run utf8_init (utf8_encode t) = (utf8_init, t).
Proof.
  induction t as [| c t IH]; simpl; intros H; [reflexivity|].
  apply andb_prop in H as [Hc Ht].
  rewrite utf8_run_app, utf8_roundtrip_cp by exact Hc. rewrite IH by exact Ht. reflexivity.
Qed.

Lemma serialize_io_app b t1 t2 :
  snd (serialize_io b t1) ++ snd (serialize_io (fst (serialize_io b t1)) t2) =
  snd (serialize_io b (t1 ++ t2)).
Proof.
  destruct t1 as [| c t1]; simpl; [reflexivity|].
  destruct b; simpl.
  - destruct t2; simpl; now rewrite ?app_nil_r.
  - destruct t2 as [| d t2]; simpl; rewrite ?app_nil_r; [reflexivity|].
    destruct (c =? 65279); reflexivity.
Qed.

Lemma read_loop_fragments (b : bool) (out : text) (frags : list text) :
  forallb (forallb scalar_value) frags = true ->
  read_loop (TextDecoder utf8_init b) out (map utf8_encode frags) =
  (TextDecoder utf8_init (fst (serialize_io b (List.concat frags))),
   out ++ snd (serialize_io b (List.concat frags))).
Proof.
  revert b out. induction frags as [| f frags IH]; intros b out H; simpl.
  - destruct b; now rewrite app_nil_r.
  - apply andb_prop in H as [Hf Hr].
    unfold decode_stream. simpl. rewrite utf8_roundtrip by exact Hf.
    destruct (serialize_io b f) as [b' o] eqn:Hs.
    rewrite IH by exact Hr. rewrite <- app_assoc.
    rewrite <- serialize_io_app, Hs. simpl.
    f_equal. f_equal.
    destruct f as [| c f]; destruct b; simpl in Hs |- *; inversion Hs; subst; try reflexivity.
    all: destruct (List.concat frags); reflexivity.
Qed.

Lemma forallb_firstn {A} (p : A -> bool) (l : list A) (k : nat) :
  forallb p l = true -> forallb p (firstn k l) = true.
Proof.
  revert k. induction l as [| x l IH]; intros [| k] H; simpl in *; try reflexivity.
  apply andb_prop in H as [Hx Hl]. now rewrite Hx, IH.
Qed.

Lemma firstn_succ_split {A} (l : list A) (k : nat) :
  firstn (S k) l = firstn k l ++ firstn 1 (skipn k l).
Proof.
  revert l. induction k as [| k IH]; intros [| x l]; simpl; try reflexivity.
  f_equal. apply IH.
Qed.

Lemma serialize_io_false (t : text) : snd (serialize_io false t) = strip_bom t.
Proof. destruct t; reflexivity. Qed.

Lemma stream_render_eq (frags : list text) (k : nat) :
  forallb (forallb scalar_value) frags = true ->
  stream_render frags k = strip_bom (List.concat (firstn k frags)).
Proof.
  intros H. unfold stream_render, new_TextDecoder.
  rewrite read_loop_fragments by (now apply forallb_firstn).
  simpl. apply serialize_io_false.
Qed.


(** ** Frame and timer lemmas for the page primitives *)

Lemma frame_refl q : frame q q.
Proof. repeat split. Qed.

Lemma frame_trans q1 q2 q3 : frame q1 q2 -> frame q2 q3 -> frame q1 q3.
Proof.
  unfold frame. intros (A1 & B1 & C1 & D1 & E1 & F1 & G1 & H1 & I1)
                       (A2 & B2 & C2 & D2 & E2 & F2 & G2 & H2 & I2).
  repeat split; congruence.
Qed.

Lemma frame_update_status m t s q : frame q (update_status m t s q).
Proof.
  unfold update_status, set_timer.
  destruct (hide_timeout q); destruct (negb s && String.eqb t "success");
    repeat split.
Qed.

Lemma frame_show_progress m q : frame q (show_progress m q).
Proof. repeat split. Qed.

Lemma frame_hide_progress q : frame q (hide_progress q).
Proof. repeat split. Qed.

Lemma frame_update_progress_bar w q : frame q (update_progress_bar w q).
Proof. repeat split. Qed.

Lemma frame_clear_timer id q : frame q (clear_timer id q).
Proof. repeat split. Qed.

Lemma frame_set_timer k q : frame q (snd (set_timer k q)).
Proof. repeat split. Qed.

Lemma frame_run_ticks n ph q : frame q (snd (run_ticks n ph q)).
Proof.
  revert ph q. induction n as [| n IH]; intros ph q; simpl; [apply frame_refl|].
  eapply frame_trans; [| apply IH].
  eapply frame_trans; [apply frame_show_progress | apply frame_update_progress_bar].
Qed.

Lemma tf_refl P q : timers_from P q q.
Proof. intros e He. now left. Qed.

Lemma tf_trans P q1 q2 q3 : timers_from P q1 q2 -> timers_from P q2 q3 -> timers_from P q1 q3.
Proof.
  intros H12 H23 e He. destruct (H23 e He) as [H | H]; [| now right]. now apply H12.
Qed.

Lemma tf_mono (P Q : nat * timer_kind -> Prop) q q' :
  (forall e, P e -> Q e) -> timers_from P q q' -> timers_from Q q q'.
Proof. intros HPQ H e He. destruct (H e He); [now left | right; now apply HPQ]. Qed.

Lemma tf_same P q q' : timers q' = timers q -> timers_from P q q'.
Proof. intros Heq e He. left. now rewrite <- Heq. Qed.

Lemma tf_clear_timer P id q : timers_from P q (clear_timer id q).
Proof. intros e He. left. simpl in He. apply filter_In in He. tauto. Qed.

Lemma clear_timer_removes id q e : In e (timers (clear_timer id q)) -> fst e <> id.
Proof.
  simpl. intros He. apply filter_In in He as [_ H].
  intros Heq. rewrite Heq, Nat.eqb_refl in H. discriminate.
Qed.

Lemma tf_set_timer k q : timers_from (fun e => e = (next_id q, k)) q (snd (set_timer k q)).
Proof. intros e He. simpl in He. destruct He as [<- | He]; [now right | now left]. Qed.

Lemma tf_update_status m t s q : timers_from cosmetic q (update_status m t s q).
Proof.
  unfold update_status, set_timer.
  assert (Hc : timers_from cosmetic q
                 (match hide_timeout q with
                  | Some id => set_hide_timeout None (clear_timer id q)
                  | None => q end)).
  { destruct (hide_timeout q); [apply tf_clear_timer | apply tf_refl]. }
  destruct (negb s && String.eqb t "success").
  - intros e He. simpl in He. destruct He as [<- | He].
    + right. now right.
    + now apply Hc.
  - intros e He. now apply Hc.
Qed.

Lemma run_ticks_timers n ph q : timers (snd (run_ticks n ph q)) = timers q.
Proof.
  revert ph q. induction n as [| n IH]; intros ph q; simpl; [reflexivity|]. now rewrite IH.
Qed.

(** Proves [timers_from cosmetic q (f1 (f2 ... q))] step by step. *)
Ltac tf_chain :=
  repeat match goal with
  | |- timers_from _ ?q ?q => apply tf_refl
  | |- timers_from _ _ (update_status _ _ _ ?x) =>
      apply (tf_trans _ _ x); [| apply tf_update_status]
  | |- timers_from _ _ (clear_timer _ ?x) =>
      apply (tf_trans _ _ x); [| apply tf_clear_timer]
  | |- timers_from _ _ (?f ?x) =>
      apply (tf_trans _ _ x); [| apply tf_same; reflexivity]
  end.

Ltac frame_chain :=
  repeat match goal with
  | |- frame ?q ?q => apply frame_refl
  | |- frame _ (update_status _ _ _ ?x) =>
      eapply frame_trans; [| apply frame_update_status]
  | |- frame _ (clear_timer _ ?x) =>
      eapply frame_trans; [| apply frame_clear_timer]
  | |- frame _ (show_progress _ ?x) =>
      eapply frame_trans; [| apply frame_show_progress]
  | |- frame _ (hide_progress ?x) =>
      eapply frame_trans; [| apply frame_hide_progress]
  | |- frame _ (update_progress_bar _ ?x) =>
      eapply frame_trans; [| apply frame_update_progress_bar]
  end.

(** ** The single-shot promise chain *)

Lemma then1_facts tid r q q1 r1 :
  regular_then1 tid r q = (q1, r1) -> frame q q1 /\ timers_from cosmetic q q1.
Proof.
  unfold regular_then1. intros H.
  destruct (response_ok r); [| destruct (response_json r)];
    injection H as <- <-; (split; [frame_chain | tf_chain]).
Qed.

Lemma then2_facts prov model data q q2 r2 :
  regular_then2 prov model data q = (q2, r2) ->
  btn_disabled q2 = btn_disabled q /\ editable q2 = editable q /\
  aborted q2 = aborted q /\ timers_from cosmetic q q2 /\
  (forall e, r2 = inr e -> output q2 = output q).
Proof.
  unfold regular_then2, set_timer. intros H.
  destruct (json_get data "translated_text") as [t | e]; injection H as <- <-.
  - repeat split; [| intros e He; discriminate].
    intros e He. simpl in He. destruct He as [<- | He]; [right; now left | now left].
  - repeat split. tf_chain.
Qed.

Lemma catch_facts iid e q :
  let q' := regular_catch iid e q in
  output q' = friendly_message e /\ btn_disabled q' = btn_disabled q /\
  editable q' = editable q /\ aborted q' = aborted q /\ timers_from cosmetic q q'.
Proof.
  unfold regular_catch. cbv zeta.
  destruct (frame_update_status (friendly_message e) "error" false
              (set_output (friendly_message e) (clear_timer iid (hide_progress q))))
    as (A & B & C & D & _).
  rewrite A, B, C, D. repeat split. tf_chain.
Qed.

Lemma finally_facts iid tid q :
  let q' := regular_finally iid tid q in
  btn_disabled q' = false /\ editable q' = true /\ output q' = output q /\
  aborted q' = aborted q /\
  (forall e, In e (timers q') -> (In e (timers q) /\ fst e <> iid /\ fst e <> tid) \/ cosmetic e).
Proof.
  unfold regular_finally. cbv zeta. simpl negb. cbv iota.
  set (q1 := set_editable true (set_btn_disabled false (clear_timer tid (clear_timer iid q)))).
  destruct (frame_update_status (js "준비 완료") "success" false q1) as (A & B & C & D & _).
  rewrite A, B, C, D. repeat split.
  intros e He. destruct (tf_update_status (js "준비 완료") "success" false q1 e He) as [H | H];
    [left | now right].
  assert (Hi : fst e <> iid).
  { unfold q1 in H. simpl in H. apply filter_In in H as [H _].
    now apply (clear_timer_removes iid q). }
  assert (Ht : fst e <> tid) by (now apply (clear_timer_removes tid (clear_timer iid q))).
  unfold q1 in H. simpl in H. apply filter_In in H as [H _]. apply filter_In in H as [H _].
  auto.
Qed.

Lemma finally_after q q3 iid tid :
  aborted q3 = aborted q -> timers_from cosmetic q q3 ->
  let q' := regular_finally iid tid q3 in
  btn_disabled q' = false /\ editable q' = true /\ aborted q' = aborted q /\
  (forall e, In e (timers q') -> (In e (timers q) /\ fst e <> iid /\ fst e <> tid) \/ cosmetic e).
Proof.
  intros Ha Ht. destruct (finally_facts iid tid q3) as (A & B & _ & D & E).
  repeat split; try assumption; [congruence|].
  intros e He. destruct (E e He) as [(H1 & H2 & H3) | H]; [| now right].
  destruct (Ht e H1); [left; auto | now right].
Qed.

Lemma catch_after q q2 iid e :
  aborted q2 = aborted q -> timers_from cosmetic q q2 ->
  aborted (regular_catch iid e q2) = aborted q /\
  timers_from cosmetic q (regular_catch iid e q2).
Proof.
  intros Ha Ht. destruct (catch_facts iid e q2) as (_ & _ & _ & Ha3 & Ht3).
  split; [congruence | eapply tf_trans; eauto].
Qed.

Lemma chain_facts prov model tid iid res q :
  let q' := regular_chain prov model tid iid res q in
  btn_disabled q' = false /\ editable q' = true /\ aborted q' = aborted q /\
  (forall e, In e (timers q') -> (In e (timers q) /\ fst e <> iid /\ fst e <> tid) \/ cosmetic e).
Proof.
  unfold regular_chain.
  destruct res as [r | e].
  - destruct (regular_then1 tid r q) as [q1 r1] eqn:E1.
    destruct (then1_facts tid r q q1 r1 E1) as [(_ & _ & _ & Ha1 & _) Ht1].
    destruct r1 as [data | e].
    + destruct (regular_then2 prov model data q1) as [q2 r2] eqn:E2.
      destruct (then2_facts prov model data q1 q2 r2 E2) as (_ & _ & Ha2 & Ht2 & _).
      assert (Ha : aborted q2 = aborted q) by congruence.
      assert (Ht : timers_from cosmetic q q2) by (eapply tf_trans; eauto).
      destruct r2 as [u | e].
      * now apply finally_after.
      * destruct (catch_after q q2 iid e Ha Ht). now apply finally_after.
    + destruct (catch_after q q1 iid e Ha1 Ht1). now apply finally_after.
  - destruct (catch_after q q iid e eq_refl (tf_refl _ _)). now apply finally_after.
Qed.

(** The output after the chain, when the fetch rejects with [e]. *)
Lemma chain_error_output prov model tid iid e q :
  output (regular_chain prov model tid iid (FetchError e) q) = friendly_message e.
Proof.
  unfold regular_chain. cbv iota.
  destruct (finally_facts iid tid (regular_catch iid e q)) as (_ & _ & C & _).
  rewrite C. apply catch_facts.
Qed.

(** The output after the chain for a non-OK response. *)
Lemma chain_http_error_output prov model tid iid r q :
  response_ok r = false ->
  output (regular_chain prov model tid iid (FetchResponse r) q) =
  friendly_message (match response_json r with
                    | inr e => e
                    | inl err => classify_error (status r) err end).
Proof.
  intros Hok. unfold regular_chain.
  destruct (regular_then1 tid r q) as [q1 r1] eqn:E1.
  unfold regular_then1 in E1. rewrite Hok in E1. cbv zeta iota in E1.
  destruct (response_json r) as [err | e]; injection E1 as <- <-;
    cbv iota; rewrite (proj1 (proj2 (proj2 (finally_facts _ _ _)))); apply catch_facts.
Qed.

Lemma fire_timeout_facts tid ctrl q :
  let q' := fire_timeout tid ctrl q in
  aborted q' = ctrl :: aborted q /\ output q' = output q /\ timers_from cosmetic q q'.
Proof.
  unfold fire_timeout. cbv zeta.
  destruct (frame_update_status msg_timeout_status "error" false (abort ctrl (clear_timer tid q)))
    as (A & _ & _ & D & _).
  destruct (frame_clear_timer tid q) as (A0 & _ & _ & D0 & _).
  split; [|split]; [| |tf_chain].
  - remember (update_status msg_timeout_status "error" false (abort ctrl (clear_timer tid q))) as u.
    simpl. rewrite D. simpl. rewrite ?D0. reflexivity.
  - remember (update_status msg_timeout_status "error" false (abort ctrl (clear_timer tid q))) as u.
    simpl. rewrite A. simpl. rewrite ?A0. reflexivity.
Qed.

(** ** Single-shot attempts *)

Lemma next_id_update_status_spinner m t q : next_id (update_status m t true q) = next_id q.
Proof. unfold update_status. destruct (hide_timeout q); reflexivity. Qed.

Lemma tf_update_status_spinner P m t q : timers_from P q (update_status m t true q).
Proof.
  unfold update_status. destruct (hide_timeout q) as [id |]; intros e He; left; [| exact He].
  apply (tf_clear_timer (fun _ => False) id q e) in He. destruct He as [He | []]. exact He.
Qed.

Lemma regular_prefix_facts p :
  let p1 := update_progress_bar 10 (show_progress (progress_step 0)
              (update_status (js "번역 준비중...") "loading" true
                 (set_editable false (set_btn_disabled true p)))) in
  next_id p1 = next_id p /\ output p1 = output p /\ aborted p1 = aborted p /\
  timers_from (fun _ => False) p p1.
Proof.
  cbv zeta.
  destruct (frame_update_status (js "번역 준비중...") "loading" true
              (set_editable false (set_btn_disabled true p))) as (A & _ & _ & D & _).
  split; [|split; [|split]].
  - exact (next_id_update_status_spinner (js "번역 준비중...") "loading" _).
  - exact A.
  - exact D.
  - exact (tf_update_status_spinner (fun _ => False) (js "번역 준비중...") "loading"
             (set_editable false (set_btn_disabled true p))).
Qed.

Lemma next_id_set_timers ts n q : next_id (set_timers ts n q) = n.
Proof. reflexivity. Qed.

Lemma timers_set_timers ts n q : timers (set_timers ts n q) = ts.
Proof. reflexivity. Qed.

Lemma chain_after prov model n res q p :
  (forall e, In e (timers q) ->
     e = (S (S n), ProgressTick) \/ e = (S n, TranslateTimeout n) \/ In e (timers p) \/ cosmetic e) ->
  let q' := regular_chain prov model (S n) (S (S n)) res q in
  btn_disabled q' = false /\ editable q' = true /\ aborted q' = aborted q /\
  (forall e, In e (timers q') -> (In e (timers p) /\ fst e <> S n /\ fst e <> S (S n)) \/ cosmetic e).
Proof.
  intros Hq. destruct (chain_facts prov model (S n) (S (S n)) res q) as (A & B & C & D).
  split; [exact A | split; [exact B | split; [exact C |]]].
  intros e He. destruct (D e He) as [(H1 & H2 & H3) | H]; [| now right].
  destruct (Hq e H1) as [-> | [-> | [H | H]]]; [now destruct H2 | now destruct H3 | | now right].
  left; auto.
Qed.

Lemma regular_valid_facts o p :
  model_rejected (model_value (form p)) = false ->
  truthy (js_trim (input_text (form p))) = true ->
  let n := next_id p in
  let p' := handle_regular o p in
  btn_disabled p' = false /\ editable p' = true /\
  (forall e, In e (timers p') -> (In e (timers p) /\ fst e <> S n /\ fst e <> S (S n)) \/ cosmetic e) /\
  (match o with Settles secs _ => (180 <= secs)%nat | NeverSettles => True end ->
     In n (aborted p') /\ output p' = msg_timeout) /\
  (forall secs r, o = Settles secs (FetchResponse r) -> (secs < 180)%nat -> response_ok r = false ->
     output p' = friendly_message (match response_json r with
                                   | inr e => e
                                   | inl err => classify_error (status r) err end)).
Proof.
  intros Hm Ht. cbv zeta.
  unfold handle_regular. rewrite Ht. unfold model_rejected in Hm. rewrite Hm.
  cbv beta iota zeta delta [negb new_controller set_timer].
  destruct (regular_prefix_facts p) as (N1 & O1 & A1 & T1). cbv zeta in N1, O1, A1, T1.
  remember (update_progress_bar 10 (show_progress (progress_step 0)
              (update_status (js "번역 준비중...") "loading" true
                 (set_editable false (set_btn_disabled true p))))) as p1 eqn:Hp1.
  rewrite ?next_id_set_timers, ?timers_set_timers.
  rewrite N1.
  set (ps := issue _ _).
  assert (Hps : forall e, In e (timers ps) ->
            e = (S (S (next_id p)), ProgressTick) \/ e = (S (next_id p), TranslateTimeout (next_id p)) \/
            In e (timers p) \/ cosmetic e).
  { intros e He. subst ps. cbn [timers issue set_requests set_timers] in He.
    destruct He as [<- | [<- | He]]; [now left | right; now left |].
    destruct (T1 e He) as [H | []]. right; right; now left. }
  assert (Hps_out : output ps = output p) by (subst ps; exact O1).
  assert (Hps_ab : aborted ps = aborted p) by (subst ps; exact A1).
  assert (Hticks : forall k, forall e, In e (timers (snd (run_ticks k 0 ps))) ->
            e = (S (S (next_id p)), ProgressTick) \/ e = (S (next_id p), TranslateTimeout (next_id p)) \/
            In e (timers p) \/ cosmetic e).
  { intros k e. rewrite run_ticks_timers. apply Hps. }
  assert (Hfire : forall e, In e (timers (fire_timeout (S (next_id p)) (next_id p) (snd (run_ticks 179 0 ps)))) ->
            e = (S (S (next_id p)), ProgressTick) \/ e = (S (next_id p), TranslateTimeout (next_id p)) \/
            In e (timers p) \/ cosmetic e).
  { intros e He. destruct (fire_timeout_facts (S (next_id p)) (next_id p) (snd (run_ticks 179 0 ps)))
      as (_ & _ & Tf).
    destruct (Tf e He) as [H | H]; [now apply (Hticks 179%nat) | right; right; now right]. }
  assert (Hab : aborted (fire_timeout (S (next_id p)) (next_id p) (snd (run_ticks 179 0 ps))) =
                next_id p :: aborted (snd (run_ticks 179 0 ps))).
  { apply fire_timeout_facts. }
  destruct o as [secs res |].
  - destruct (Nat.ltb_spec secs 180) as [Hlt | Hge].
    + destruct (chain_after (provider_value (form p)) (model_value (form p)) (next_id p) res
                  (snd (run_ticks secs 0 ps)) p (Hticks secs)) as (A & B & C & D).
      split; [exact A | split; [exact B | split; [exact D | split]]].
      * intros Hc. lia.
      * intros secs' r Heq Hlt' Hok. injection Heq as <- ->.
        now apply chain_http_error_output.
    + destruct (chain_after (provider_value (form p)) (model_value (form p)) (next_id p)
                  (FetchError abort_error) _ p Hfire) as (A & B & C & D).
      split; [exact A | split; [exact B | split; [exact D | split]]].
      * intros _. split; [rewrite C, Hab; now left | apply chain_error_output].
      * intros secs' r Heq Hlt'. injection Heq as <- _. lia.
  - destruct (chain_after (provider_value (form p)) (model_value (form p)) (next_id p)
                (FetchError abort_error) _ p Hfire) as (A & B & C & D).
    split; [exact A | split; [exact B | split; [exact D | split]]].
    * intros _. split; [rewrite C, Hab; now left | apply chain_error_output].
    * intros secs' r Heq. discriminate.
Qed.

(** ** Streaming attempts *)

Lemma tf_update_status_fade m t s q : timers_from is_fade q (update_status m t s q).
Proof.
  unfold update_status, set_timer.
  assert (Hc : timers_from is_fade q
                 (match hide_timeout q with
                  | Some id => set_hide_timeout None (clear_timer id q)
                  | None => q end)).
  { destruct (hide_timeout q); [apply tf_clear_timer | apply tf_refl]. }
  destruct (negb s && String.eqb t "success").
  - intros e He. simpl in He. destruct He as [<- | He].
    + right. reflexivity.
    + now apply Hc.
  - intros e He. now apply Hc.
Qed.

Lemma stream_catch_facts e q :
  unload_handlers (stream_catch e q) = unload_handlers q /\
  timers_from is_fade q (stream_catch e q) /\
  output (stream_catch e q) =
    (if String.eqb (err_name e) "AbortError" then msg_cancelled else js "오류: " ++ err_message e).
Proof.
  unfold stream_catch. destruct (String.eqb (err_name e) "AbortError").
  - destruct (frame_update_status (js "번역 취소됨") "warning" false (set_output msg_cancelled q))
      as (A & _ & _ & _ & _ & _ & G & _).
    split; [exact G | split; [| exact A]].
    exact (tf_update_status_fade (js "번역 취소됨") "warning" false (set_output msg_cancelled q)).
  - destruct (frame_update_status (js "오류: " ++ err_message e) "error" false
                (set_output (js "오류: " ++ err_message e) q))
      as (A & _ & _ & _ & _ & _ & G & _).
    split; [exact G | split; [| exact A]].
    exact (tf_update_status_fade (js "오류: " ++ err_message e) "error" false
             (set_output (js "오류: " ++ err_message e) q)).
Qed.

Lemma stream_valid_facts so p :
  truthy (js_trim (input_text (form p))) = true ->
  let ctrl := next_id p in
  let p' := handle_stream so p in
  btn_disabled p' = false /\ editable p' = true /\
  ~ In ctrl (unload_handlers p') /\
  (forall h, In h (unload_handlers p') -> In h (unload_handlers p)) /\
  (forall e, In e (timers p') -> In e (timers p) \/ is_fade e).
Proof.
  intros Ht. cbv zeta. unfold handle_stream. rewrite Ht.
  cbv beta iota zeta delta [negb new_controller].
  assert (N1 : next_id (update_status (js "스트리밍 번역 중...") "loading" true
                 (set_output [] (set_editable false (set_btn_disabled true p)))) = next_id p)
    by exact (next_id_update_status_spinner _ _ _).
  destruct (frame_update_status (js "스트리밍 번역 중...") "loading" true
              (set_output [] (set_editable false (set_btn_disabled true p))))
    as (_ & _ & _ & _ & _ & _ & U1 & _).
  assert (T1 : timers_from (fun _ => False) p
                 (update_status (js "스트리밍 번역 중...") "loading" true
                    (set_output [] (set_editable false (set_btn_disabled true p)))))
    by exact (tf_update_status_spinner _ _ _ _).
  remember (update_status (js "스트리밍 번역 중...") "loading" true
              (set_output [] (set_editable false (set_btn_disabled true p)))) as p1 eqn:Hp1.
  set (ps := issue _ _).
  assert (Ups : unload_handlers ps = next_id p :: unload_handlers p)
    by (subst ps; cbn; rewrite N1, U1; reflexivity).
  assert (Tps : timers ps = timers p1) by reflexivity.
  rewrite N1.
  match goal with |- context [filter _ (unload_handlers ?X)] => set (x := X) end.
  assert (Hx : unload_handlers x = unload_handlers ps /\ timers_from is_fade ps x).
  { subst x. destruct so as [e | r chunks ending].
    - destruct (stream_catch_facts e ps) as (A & B & _). exact (conj A B).
    - destruct (response_ok r).
      + destruct (read_loop new_TextDecoder (output ps) chunks) as [td out].
        destruct ending as [e |].
        * destruct (stream_catch_facts e (set_output out ps)) as (A & B & _). exact (conj A B).
        * destruct (frame_update_status (js "스트리밍 완료") "success" false (set_output out ps))
            as (_ & _ & _ & _ & _ & _ & G & _).
          split; [exact G |].
          exact (tf_update_status_fade (js "스트리밍 완료") "success" false (set_output out ps)).
      + destruct (stream_catch_facts (stream_http_error r) ps) as (A & B & _). exact (conj A B). }
  clearbody x. destruct Hx as [Ux Tx].
  split; [reflexivity | split; [reflexivity | split; [| split]]].
  - cbn [unload_handlers set_editable set_btn_disabled set_unload_handlers].
    intros Hin. apply filter_In in Hin as [_ Hin]. rewrite Nat.eqb_refl in Hin. discriminate.
  - cbn [unload_handlers set_editable set_btn_disabled set_unload_handlers].
    intros h Hin. apply filter_In in Hin as [Hin Hne]. rewrite Ux, Ups in Hin.
    destruct Hin as [<- | Hin]; [rewrite Nat.eqb_refl in Hne; discriminate | exact Hin].
  - cbn [timers set_editable set_btn_disabled set_unload_handlers].
    intros e He. destruct (Tx e He) as [H | H]; [| now right].
    rewrite Tps in H. destruct (T1 e H) as [H' | []]. now left.
Qed.

Lemma stream_http_error_not_abort r :
  String.eqb (err_name (stream_http_error r)) "AbortError" = false.
Proof.
  unfold stream_http_error, response_json.
  destruct (resp_body r) as [v | raw m]; [| reflexivity].
  destruct v; reflexivity.
Qed.

Lemma stream_valid_output so p :
  truthy (js_trim (input_text (form p))) = true ->
  let p' := handle_stream so p in
  (forall r chunks ending, so = StreamResponse r chunks ending -> response_ok r = false ->
     output p' = js "오류: " ++ err_message (stream_http_error r)) /\
  (forall r chunks, so = StreamResponse r chunks None -> response_ok r = true ->
     output p' = snd (read_loop new_TextDecoder [] chunks)).
Proof.
  intros Ht. cbv zeta. unfold handle_stream. rewrite Ht.
  cbv beta iota zeta delta [negb new_controller].
  destruct (frame_update_status (js "스트리밍 번역 중...") "loading" true
              (set_output [] (set_editable false (set_btn_disabled true p))))
    as (O1 & _).
  remember (update_status (js "스트리밍 번역 중...") "loading" true
              (set_output [] (set_editable false (set_btn_disabled true p)))) as p1 eqn:Hp1.
  set (ps := issue _ _).
  assert (Ops : output ps = []) by exact O1.
  split.
  - intros r chunks ending -> Hok.
    cbn [output set_editable set_btn_disabled set_unload_handlers].
    rewrite Hok. cbv iota.
    destruct (stream_catch_facts (stream_http_error r) ps) as (_ & _ & C).
    rewrite C, stream_http_error_not_abort. reflexivity.
  - intros r chunks -> Hok.
    cbn [output set_editable set_btn_disabled set_unload_handlers].
    rewrite Hok. cbv iota. rewrite Ops.
    destruct (read_loop new_TextDecoder [] chunks) as [td out].
    destruct (frame_update_status (js "스트리밍 완료") "success" false (set_output out ps))
      as (A & _). exact A.
Qed.
(** ** C1: streamed fragments are appended in arrival order *)

(** C1 (counterexample): TextDecoder drops a U+FEFF that starts the
    stream, so the output after the first fragment [U+FEFF A] is [A], not
    the fragment itself. *)
Lemma C1_leading_bom_dropped :
  stream_render [[65279; 65]] 1 = [65] /\
  stream_render [[65279; 65]] 1 <> List.concat (firstn 1 [[65279; 65]]).
Proof. split; vm_compute; [reflexivity | discriminate]. Qed.

(** C1 (amended): for a response whose fragments are text (Unicode scalar
    values) sent as their UTF-8 bytes, after the k-th fragment the output is
    the concatenation of the first k fragments, with a U+FEFF at the very
    start of the stream removed; each step only appends to the previous
    output, and after the last fragment the output is the whole response
    (again without a leading U+FEFF). The same text is what
    [handleStreamTranslation] leaves in the output box when an OK response
    delivers the first k fragments and then reports done. *)
Theorem C1_stream_output_prefix (frags : list text) :
  forallb (forallb scalar_value) frags = true ->
  (forall k, stream_render frags k = strip_bom (List.concat (firstn k frags))) /\
  (forall k, exists d, stream_render frags (S k) = stream_render frags k ++ d) /\
  stream_render frags (length frags) = strip_bom (List.concat frags) /\
  (forall p r k, truthy (js_trim (input_text (form p))) = true -> response_ok r = true ->
     output (handle_stream (StreamResponse r (map utf8_encode (firstn k frags)) None) p)
     = strip_bom (List.concat (firstn k frags))).
Proof.
  intros H. split; [| split; [| split]].
  - intros k. now apply stream_render_eq.
  - intros k. rewrite !stream_render_eq by exact H.
    rewrite <- !serialize_io_false.
    rewrite firstn_succ_split, concat_app, <- serialize_io_app.
    eexists. reflexivity.
  - rewrite stream_render_eq, firstn_all by exact H. reflexivity.
  - intros p r k Ht Hok.
    rewrite (proj2 (stream_valid_output _ p Ht) r _ eq_refl Hok).
    exact (stream_render_eq frags k H).
Qed.

(** Witness: the three Korean fragments of the spec's example. *)
Lemma C1_stream_output_prefix_witness :
  forallb (forallb scalar_value) [[50504]; [45397]; [54616; 49464; 50836]] = true /\
  stream_render [[50504]; [45397]; [54616; 49464; 50836]] 3 =
    [50504; 45397; 54616; 49464; 50836].
Proof.
  split; [reflexivity|].
  destruct (C1_stream_output_prefix [[50504]; [45397]; [54616; 49464; 50836]]
              eq_refl) as [Hk _].
  rewrite Hk. reflexivity.
Defined.

(** ** Substring search and the error tags *)

Lemma is_prefix_app (t y : text) : is_prefix t (t ++ y) = true.
Proof. induction t as [| a t IH]; [reflexivity |]. cbn [app is_prefix]. now rewrite Z.eqb_refl, IH. Qed.

Lemma includes_prefix (t s : text) : is_prefix t s = true -> includes s t = true.
Proof. destruct s; cbn [includes]; intros ->; reflexivity. Qed.

(** A match of [c :: t] cannot start inside a prefix that lacks [c]. *)
Lemma includes_skip (A m t : text) (c : Z) :
  forallb (fun a => negb (a =? c)) A = true -> includes (A ++ m) (c :: t) = includes m (c :: t).
Proof.
  induction A as [| a A IH]; [reflexivity |].
  cbn [forallb app includes is_prefix]. intros H. apply andb_prop in H as [H1 H2].
  rewrite (IH H2). rewrite Z.eqb_sym in H1. destruct (c =? a); [discriminate | reflexivity].
Qed.

Lemma digits_rev_ascii fuel n : 0 <= n -> forallb (fun a => a <? 128) (digits_rev fuel n) = true.
Proof.
  revert n. induction fuel as [| fuel IH]; intros n Hn; [reflexivity |].
  cbn [digits_rev forallb]. apply andb_true_iff. split.
  - apply Z.ltb_lt. pose proof (Z.mod_pos_bound n 10). lia.
  - destruct (n <? 10); [reflexivity |]. apply IH. apply Z.div_pos; lia.
Qed.

Lemma forallb_rev_eq {A} (f : A -> bool) (l : list A) : forallb f (rev l) = forallb f l.
Proof.
  induction l as [| a l IH]; [reflexivity |].
  cbn [rev forallb]. rewrite forallb_app, IH. cbn [forallb].
  now rewrite andb_true_r, andb_comm.
Qed.

Lemma z_to_text_ascii n : forallb (fun a => a <? 128) (z_to_text n) = true.
Proof.
  unfold z_to_text. destruct (Z.ltb_spec n 0).
  - cbn [forallb]. rewrite forallb_rev_eq, digits_rev_ascii by lia. reflexivity.
  - rewrite forallb_rev_eq. apply digits_rev_ascii. lia.
Qed.

Lemma forallb_ascii_neq (l : text) (c : Z) :
  128 <= c -> forallb (fun a => a <? 128) l = true -> forallb (fun a => negb (a =? c)) l = true.
Proof.
  intros Hc. rewrite !forallb_forall. intros H a Ha. specialize (H a Ha).
  apply Z.ltb_lt in H. apply negb_true_iff, Z.eqb_neq. lia.
Qed.

Lemma tag_input_error_eq : tag_input_error = 51077 :: tl tag_input_error.
Proof. vm_compute. reflexivity. Qed.

Lemma tag_server_error_eq : tag_server_error = 49436 :: tl tag_server_error.
Proof. vm_compute. reflexivity. Qed.

Lemma prefix_input_error : js "입력 오류: " = tag_input_error ++ js ": ".
Proof. vm_compute. reflexivity. Qed.

Lemma prefix_server_error : js "서버 내부 오류: " = tag_server_error ++ js ": ".
Proof. vm_compute. reflexivity. Qed.

Lemma friendly_js_Error (M : text) :
  friendly_message (js_Error M) =
  if includes M tag_input_error then M
  else if includes M tag_server_error then msg_server_failed else msg_unknown.
Proof. reflexivity. Qed.

Lemma trim_start_blank (t : text) : forallb js_whitespace t = true -> trim_start t = [].
Proof.
  induction t as [| c t IH]; [reflexivity |].
  cbn [forallb trim_start]. intros H. apply andb_prop in H as [H1 H2]. rewrite H1. now apply IH.
Qed.

Lemma js_trim_blank (t : text) : forallb js_whitespace t = true -> js_trim t = [].
Proof. intros H. unfold js_trim. rewrite (trim_start_blank t H). reflexivity. Qed.

Lemma update_status_text m t s q : st_text (status_ind (update_status m t s q)) = m.
Proof.
  unfold update_status. destruct (hide_timeout q); destruct (negb s && String.eqb t "success");
    reflexivity.
Qed.

Lemma update_status_error_shown m q : st_shown (status_ind (update_status m "error" false q)) = true.
Proof. unfold update_status. destruct (hide_timeout q); reflexivity. Qed.

Lemma update_status_error_timers m q :
  timers_from (fun _ => False) q (update_status m "error" false q).
Proof.
  unfold update_status. destruct (hide_timeout q) as [id |]; intros e He; left; [| exact He].
  apply (tf_clear_timer (fun _ => False) id q e) in He. destruct He as [He | []]. exact He.
Qed.

(** ** C2: error messages of non-OK single-shot responses *)

(** C2 (counterexample): a 500 response with detail "quota" renders the
    fixed server-failure text, which does not contain "quota". *)
Lemma C2_server_error_hides_detail :
  output (handle_regular (Settles 1 (FetchResponse (detail_response 500 (js "quota")))) sample_page)
    = msg_server_failed /\
  includes msg_server_failed (js "quota") = false.
Proof. split; vm_compute; reflexivity. Qed.

(** C2 (amended): for a non-OK response that arrives in time and whose
    body is JSON with a readable [detail] field (m: the detail, or the
    fallback text when it is missing or empty), the output shows
    "입력 오류: m" for status 400; for status 500 the fixed server-failure
    text, unless m itself contains "입력 오류"; for any other status the
    fixed unknown-error text, unless m contains one of the two tags. The
    detail is shown in full only for status 400 (or when it carries the
    input-error tag). *)
Theorem C2_http_error_classification o p secs r v x :
  model_rejected (model_value (form p)) = false ->
  truthy (js_trim (input_text (form p))) = true ->
  o = Settles secs (FetchResponse r) -> (secs < 180)%nat ->
  response_ok r = false -> response_json r = inl v -> json_get v "detail" = inl x ->
  let m := or_else x msg_unknown_server in
  let out := output (handle_regular o p) in
  (status r = 400 -> out = js "입력 오류: " ++ m) /\
  (status r = 500 ->
     out = if includes m tag_input_error then js "서버 내부 오류: " ++ m else msg_server_failed) /\
  (status r <> 400 -> status r <> 500 ->
     out = if includes m tag_input_error then js "HTTP " ++ z_to_text (status r) ++ js ": " ++ m
           else if includes m tag_server_error then msg_server_failed else msg_unknown).
Proof.
  intros Hm Ht Ho Hlt Hok Hj Hd. cbv zeta.
  destruct (regular_valid_facts o p Hm Ht) as (_ & _ & _ & _ & Hout).
  rewrite (Hout secs r Ho Hlt Hok), Hj. unfold classify_error. rewrite Hd.
  set (m := or_else x msg_unknown_server).
  split; [| split].
  - intros H400. rewrite H400. cbn [Z.eqb Pos.eqb]. rewrite friendly_js_Error.
    assert (I : includes (js "입력 오류: " ++ m) tag_input_error = true).
    { apply includes_prefix. rewrite prefix_input_error, <- app_assoc. apply is_prefix_app. }
    now rewrite I.
  - intros H500. rewrite H500. cbn [Z.eqb Pos.eqb]. rewrite friendly_js_Error.
    assert (I : includes (js "서버 내부 오류: " ++ m) tag_input_error = includes m tag_input_error).
    { rewrite tag_input_error_eq. apply includes_skip. vm_compute. reflexivity. }
    assert (S5 : includes (js "서버 내부 오류: " ++ m) tag_server_error = true).
    { apply includes_prefix. rewrite prefix_server_error, <- app_assoc. apply is_prefix_app. }
    rewrite I, S5. reflexivity.
  - intros H400 H500. apply Z.eqb_neq in H400, H500. rewrite H400, H500.
    rewrite friendly_js_Error.
    assert (Hasc : forallb (fun a => a <? 128) ((js "HTTP " ++ z_to_text (status r)) ++ js ": ") = true).
    { rewrite !forallb_app, z_to_text_ascii. vm_compute. reflexivity. }
    assert (I : includes (js "HTTP " ++ z_to_text (status r) ++ js ": " ++ m) tag_input_error
                = includes m tag_input_error).
    { rewrite tag_input_error_eq, !app_assoc. apply includes_skip.
      apply forallb_ascii_neq; [lia | exact Hasc]. }
    assert (S5 : includes (js "HTTP " ++ z_to_text (status r) ++ js ": " ++ m) tag_server_error
                 = includes m tag_server_error).
    { rewrite tag_server_error_eq, !app_assoc. apply includes_skip.
      apply forallb_ascii_neq; [lia | exact Hasc]. }
    rewrite I, S5. reflexivity.
Qed.

(** Witness: the spec's 400 example with detail "empty text". *)
Lemma C2_http_error_classification_witness :
  output (handle_regular (Settles 1 (FetchResponse (detail_response 400 (js "empty text"))))
            sample_page) = js "입력 오류: " ++ js "empty text".
Proof.
  pose proof (C2_http_error_classification
              (Settles 1 (FetchResponse (detail_response 400 (js "empty text")))) sample_page
              1 (detail_response 400 (js "empty text"))
              (JObject [("detail"%string, js "empty text")]) (Some (js "empty text"))
              ltac:(vm_compute; reflexivity) ltac:(vm_compute; reflexivity) eq_refl
              ltac:(lia) eq_refl eq_refl eq_refl) as H.
  cbv zeta in H. destruct H as [H _]. rewrite H by reflexivity. reflexivity.
Defined.

(** ** C3: teardown at the end of an attempt *)

(** C3 (counterexample): after a successful single-shot attempt the
    500 ms result timer (id 4) is still pending, and a successful streaming
    attempt leaves the status fade-out timer (id 2) pending. *)
Lemma C3_timers_outlive_attempt :
  In (4%nat, ShowResult)
     (timers (handle_regular (Settles 1 (FetchResponse (ok_response (js "안녕")))) sample_page)) /\
  In (2%nat, StatusFade)
     (timers (handle_stream (StreamResponse (ok_response []) [utf8_encode (js "안녕")] None)
                sample_page)).
Proof. split; vm_compute; auto 10. Qed.

(** C3 (amended): when an attempt is made (the input is not blank and, in
    single-shot mode, a model is selected), whatever way it ends the
    controls are enabled again. In single-shot mode the 180 s timeout
    timer and the progress interval of the attempt (ids n+1 and n+2) are
    no longer pending, and every pending timer either was pending before or
    only updates the status line or the progress modal (the 500 ms result
    display, the status fade-out). In streaming mode the attempt's
    'beforeunload' handler (controller n) is removed, no other handler is
    added, and the only new timer is the status fade-out. *)
Theorem C3_cleanup_after_attempt o so p :
  truthy (js_trim (input_text (form p))) = true ->
  let n := next_id p in
  (model_rejected (model_value (form p)) = false ->
     let p' := handle_regular o p in
     btn_disabled p' = false /\ editable p' = true /\
     ~ In (S n, TranslateTimeout n) (timers p') /\ ~ In (S (S n), ProgressTick) (timers p') /\
     (forall e, In e (timers p') -> In e (timers p) \/ cosmetic e)) /\
  (let p' := handle_stream so p in
     btn_disabled p' = false /\ editable p' = true /\
     ~ In n (unload_handlers p') /\
     (forall h, In h (unload_handlers p') -> In h (unload_handlers p)) /\
     (forall e, In e (timers p') -> In e (timers p) \/ is_fade e)).
Proof.
  intros Ht. cbv zeta. split.
  - intros Hm. destruct (regular_valid_facts o p Hm Ht) as (A & B & T & _).
    split; [exact A | split; [exact B | split; [| split]]].
    + intros He. destruct (T _ He) as [(_ & H & _) | [H | H]]; [now apply H | discriminate | discriminate].
    + intros He. destruct (T _ He) as [(_ & _ & H) | [H | H]]; [now apply H | discriminate | discriminate].
    + intros e He. destruct (T e He) as [(H & _) | H]; [now left | now right].
  - exact (stream_valid_facts so p Ht).
Qed.

(** Witness: the idle sample page. *)
Lemma C3_cleanup_after_attempt_witness :
  btn_disabled (handle_regular NeverSettles sample_page) = false /\
  ~ In (2%nat, TranslateTimeout 1) (timers (handle_regular NeverSettles sample_page)) /\
  ~ In 1%nat (unload_handlers (handle_stream (StreamFetchError abort_error) sample_page)).
Proof.
  destruct (C3_cleanup_after_attempt NeverSettles (StreamFetchError abort_error) sample_page
              ltac:(vm_compute; reflexivity)) as [Hr Hs].
  destruct (Hr ltac:(vm_compute; reflexivity)) as (A & _ & T & _).
  destruct Hs as (_ & _ & U & _).
  exact (conj A (conj T U)).
Defined.

(** ** C4: the 180 s timeout *)

(** C4: when the single-shot request has not settled after 180 s (it
    settles later or never), the attempt's AbortController (id n) is
    aborted, the output shows the timeout text, which differs from the
    unreachable-server and unknown-error texts, and the controls are
    enabled again. *)
Theorem C4_timeout_aborts o p :
  model_rejected (model_value (form p)) = false ->
  truthy (js_trim (input_text (form p))) = true ->
  match o with Settles secs _ => (180 <= secs)%nat | NeverSettles => True end ->
  let p' := handle_regular o p in
  In (next_id p) (aborted p') /\ output p' = msg_timeout /\
  msg_timeout <> msg_unreachable /\ msg_timeout <> msg_unknown /\
  btn_disabled p' = false /\ editable p' = true.
Proof.
  intros Hm Ht Ho. cbv zeta.
  destruct (regular_valid_facts o p Hm Ht) as (A & B & _ & Hto & _).
  destruct (Hto Ho) as [Hab Hout].
  split; [exact Hab | split; [exact Hout | split; [| split; [| split; [exact A | exact B]]]]].
  - vm_compute. discriminate.
  - vm_compute. discriminate.
Qed.

(** Witness: a fetch that never settles, on the idle sample page. *)
Lemma C4_timeout_aborts_witness :
  In 1%nat (aborted (handle_regular NeverSettles sample_page)) /\
  output (handle_regular NeverSettles sample_page) = msg_timeout.
Proof.
  destruct (C4_timeout_aborts NeverSettles sample_page
              ltac:(vm_compute; reflexivity) ltac:(vm_compute; reflexivity) I)
    as (A & B & _).
  exact (conj A B).
Defined.

(** ** C5: blank input is refused *)

(** C5: for an input made only of white space (or empty), both handlers
    only show the validation message: no request is issued, the controls,
    the output and the pending timers are left as they were (apart from the
    cleared fade-out of an earlier status). *)
Theorem C5_blank_input_rejected o so p :
  forallb js_whitespace (input_text (form p)) = true ->
  handle_regular o p = update_status msg_enter_text "error" false p /\
  handle_stream so p = update_status msg_enter_text "error" false p /\
  let p' := update_status msg_enter_text "error" false p in
  requests p' = requests p /\ btn_disabled p' = btn_disabled p /\ editable p' = editable p /\
  output p' = output p /\
  st_text (status_ind p') = msg_enter_text /\ st_shown (status_ind p') = true /\
  (forall e, In e (timers p') -> In e (timers p)).
Proof.
  intros Hw. assert (Ht : js_trim (input_text (form p)) = []) by now apply js_trim_blank.
  split; [| split].
  - unfold handle_regular. rewrite Ht. reflexivity.
  - unfold handle_stream. rewrite Ht. reflexivity.
  - cbv zeta.
    destruct (frame_update_status msg_enter_text "error" false p) as (O & B & C & _ & E & _).
    split; [exact E | split; [exact B | split; [exact C | split; [exact O | split]]]].
    + apply update_status_text.
    + split; [apply update_status_error_shown |].
      intros e He. destruct (update_status_error_timers msg_enter_text p e He) as [H | []]. exact H.
Qed.

(** Witness: an input of spaces and a newline. *)
Lemma C5_blank_input_rejected_witness :
  requests (handle_stream (StreamFetchError abort_error)
              (set_form (Controls [32; 10; 32] (js "gemini") (js "models/gemini-pro") (js "ko")
                           false false false) sample_page)) = [].
Proof.
  destruct (C5_blank_input_rejected NeverSettles (StreamFetchError abort_error)
              (set_form (Controls [32; 10; 32] (js "gemini") (js "models/gemini-pro") (js "ko")
                           false false false) sample_page) eq_refl) as (_ & Hs & E & _).
  rewrite Hs. exact E.
Defined.

(** ** C10: non-OK streaming responses *)

(** C10: for a non-OK streaming response, the output is "오류: " followed
    by the JSON parse error's message when the body is not JSON; when it is
    JSON, by the [detail] field (or the fixed stream-failure text when it
    is missing or empty, or the TypeError of reading a property of null);
    so a non-object JSON body never shows a detail. *)
Theorem C10_stream_http_error_message so p r chunks ending :
  truthy (js_trim (input_text (form p))) = true ->
  so = StreamResponse r chunks ending -> response_ok r = false ->
  let out := output (handle_stream so p) in
  (forall raw msg, resp_body r = BodyNotJson raw msg -> out = js "오류: " ++ msg) /\
  (forall v, resp_body r = BodyJson v ->
     out = js "오류: " ++ match json_get v "detail" with
                         | inl x => or_else x msg_stream_failed
                         | inr e => err_message e
                         end) /\
  (forall v, resp_body r = BodyJson v -> (forall fs, v <> JObject fs) ->
     out = js "오류: " ++ msg_stream_failed \/
     out = js "오류: " ++ err_message (read_null_error "detail")).
Proof.
  intros Ht Hso Hok. cbv zeta.
  destruct (stream_valid_output so p Ht) as [Hout _].
  rewrite (Hout r chunks ending Hso Hok). unfold stream_http_error, response_json.
  split; [| split].
  - intros raw msg ->. reflexivity.
  - intros v ->. destruct (json_get v "detail"); reflexivity.
  - intros v -> Hv. destruct v as [| fs |].
    + now right.
    + exfalso. exact (Hv fs eq_refl).
    + now left.
Qed.

(** Witness: a 502 whose body is an HTML page. *)
Lemma C10_stream_http_error_message_witness :
  output (handle_stream
            (StreamResponse (Response 502 (BodyNotJson (js "<html>Bad Gateway</html>")
                                             (js "Unexpected token < in JSON at position 0")))
               [] None) sample_page)
  = js "오류: " ++ js "Unexpected token < in JSON at position 0".
Proof.
  destruct (C10_stream_http_error_message
              (StreamResponse (Response 502 (BodyNotJson (js "<html>Bad Gateway</html>")
                                               (js "Unexpected token < in JSON at position 0")))
                 [] None) sample_page
              (Response 502 (BodyNotJson (js "<html>Bad Gateway</html>")
                               (js "Unexpected token < in JSON at position 0"))) [] None
              ltac:(vm_compute; reflexivity) eq_refl eq_refl) as [H _].
  exact (H _ _ eq_refl).
Defined.

(** ** The transcript view *)

Lemma js_amp : js "&amp;" = [38; 97; 109; 112; 59].
Proof. vm_compute. reflexivity. Qed.
Lemma js_lt : js "&lt;" = [38; 108; 116; 59].
Proof. vm_compute. reflexivity. Qed.
Lemma js_gt : js "&gt;" = [38; 103; 116; 59].
Proof. vm_compute. reflexivity. Qed.

Lemma transcript_content_nil : transcript_content [] = [].
Proof. reflexivity. Qed.

Lemma transcript_content_cons c t :
  transcript_content (c :: t) = html_escape_char c ++ transcript_content t.
Proof.
  unfold transcript_content, replace_char, html_escape_char.
  cbn [flat_map]. rewrite !flat_map_app. f_equal.
  destruct (Z.eqb_spec c 38) as [-> | H38]; [vm_compute; reflexivity |].
  destruct (Z.eqb_spec c 60) as [-> | H60]; [vm_compute; reflexivity |].
  destruct (Z.eqb_spec c 62) as [-> | H62]; [vm_compute; reflexivity |].
  apply Z.eqb_neq in H60, H62. cbn [flat_map app]. rewrite H60.
  cbn [flat_map app]. rewrite H62. reflexivity.
Qed.

Lemma transcript_content_flat_map t : transcript_content t = flat_map html_escape_char t.
Proof.
  induction t as [| c t IH]; [reflexivity |].
  rewrite transcript_content_cons, IH. reflexivity.
Qed.

Lemma escape_char_no_angle c :
  forallb (fun a => negb (a =? 60) && negb (a =? 62)) (html_escape_char c) = true.
Proof.
  unfold html_escape_char.
  destruct (Z.eqb_spec c 38) as [-> | H38]; [vm_compute; reflexivity |].
  destruct (Z.eqb_spec c 60) as [-> | H60]; [vm_compute; reflexivity |].
  destruct (Z.eqb_spec c 62) as [-> | H62]; [vm_compute; reflexivity |].
  cbn [forallb]. apply Z.eqb_neq in H60, H62. rewrite H60, H62. reflexivity.
Qed.

Lemma transcript_content_no_angle t :
  forallb (fun a => negb (a =? 60) && negb (a =? 62)) (transcript_content t) = true.
Proof.
  induction t as [| c t IH]; [reflexivity |].
  rewrite transcript_content_cons, forallb_app, IH, escape_char_no_angle. reflexivity.
Qed.

Lemma escape_char_length c : (1 <= length (html_escape_char c))%nat.
Proof.
  unfold html_escape_char.
  destruct (c =? 38); [rewrite js_amp | destruct (c =? 60); [rewrite js_lt | destruct (c =? 62); [rewrite js_gt |]]];
    cbn [length]; lia.
Qed.

Lemma transcript_content_length t : (length t <= length (transcript_content t))%nat.
Proof.
  induction t as [| c t IH]; [reflexivity |].
  rewrite transcript_content_cons, length_app. cbn [length].
  pose proof (escape_char_length c). lia.
Qed.

Lemma unescape_escape_n t n :
  (length t <= n)%nat -> html_unescape_n n (transcript_content t) = t.
Proof.
  revert n. induction t as [| c t IH]; intros n Hn.
  - destruct n; reflexivity.
  - destruct n as [| n]; [cbn [length] in Hn; lia |].
    cbn [length] in Hn. assert (Hn' : (length t <= n)%nat) by lia.
    rewrite transcript_content_cons. unfold html_escape_char.
    remember (transcript_content t) as rest eqn:Hrest.
    destruct (Z.eqb_spec c 38) as [-> | H38].
    { rewrite js_amp. simpl. subst rest. now rewrite IH. }
    destruct (Z.eqb_spec c 60) as [-> | H60].
    { rewrite js_lt. simpl. subst rest. now rewrite IH. }
    destruct (Z.eqb_spec c 62) as [-> | H62].
    { rewrite js_gt. simpl. subst rest. now rewrite IH. }
    cbn [app html_unescape_n]. apply Z.eqb_neq in H38. rewrite H38. cbn [andb].
    subst rest. now rewrite IH.
Qed.

Lemma unescape_escape t : html_unescape (transcript_content t) = t.
Proof. unfold html_unescape. apply unescape_escape_n, transcript_content_length. Qed.

Lemma input_html_update_status m t s q : input_html (update_status m t s q) = input_html q.
Proof. destruct (frame_update_status m t s q) as (_ & _ & _ & _ & _ & _ & _ & _ & I). exact I. Qed.

Lemma store_update_status m t s q : store (update_status m t s q) = store q.
Proof. destruct (frame_update_status m t s q) as (_ & _ & _ & _ & _ & S & _). exact S. Qed.

Lemma form_update_status m t s q : form (update_status m t s q) = form q.
Proof. destruct (frame_update_status m t s q) as (_ & _ & _ & _ & _ & _ & _ & F & _). exact F. Qed.

Lemma requests_update_status m t s q : requests (update_status m t s q) = requests q.
Proof. destruct (frame_update_status m t s q) as (_ & _ & _ & _ & R & _). exact R. Qed.

Lemma transcript_html p vid title url o :
  input_html (fetch_and_display_transcript vid title url o p) =
  title_html title ++ url_html url ++
    match transcript_result o with
    | inl t => transcript_content t
    | inr e => error_html (err_message e)
    end.
Proof.
  unfold fetch_and_display_transcript. cbv zeta.
  destruct (transcript_result o) as [t | e]; rewrite input_html_update_status; reflexivity.
Qed.

Lemma includes_app_mid (A X B : text) : includes (A ++ X ++ B) X = true.
Proof.
  induction A as [| a A IH].
  - cbn [app]. apply includes_prefix, is_prefix_app.
  - cbn [app includes]. rewrite IH. apply orb_true_r.
Qed.

Lemma includes_app_r (A B X : text) : includes B X = true -> includes (A ++ B) X = true.
Proof.
  intros H. induction A as [| a A IH]; [exact H |].
  cbn [app includes]. rewrite IH. apply orb_true_r.
Qed.

(** ** C7: rendering of the transcript *)

(** C7 (counterexample): for an error response whose body is an HTML page
    (not JSON), the error block shows the JSON parse error's message, not a
    backend detail nor the fallback text. *)
Lemma C7_non_json_error_body :
  let p' := fetch_and_display_transcript (js "abc") (js "T") (js "u")
              (TranscriptResponse (Response 502 (BodyNotJson (js "<html>Bad Gateway</html>")
                                                 (js "Unexpected token < in JSON at position 0"))))
              sample_page in
  input_html p' = title_html (js "T") ++ url_html (js "u")
                    ++ error_html (js "Unexpected token < in JSON at position 0") /\
  input_html p' <> title_html (js "T") ++ url_html (js "u") ++ error_html msg_transcript_unavailable.
Proof. split; vm_compute; [reflexivity | discriminate]. Qed.

(** C7 (amended): the input area ends up holding the title and URL blocks
    followed by: on success, the transcript with [&], [<] and [>] replaced
    by character references, which holds no [<] or [>] and reads back as
    the transcript; on a failure, the error block with the message of the
    error thrown: for a non-OK response whose body is JSON with a readable
    [detail], that detail or the fallback text when it is missing or empty;
    for any other failure (network error, body not JSON, JSON null, no
    transcript in the answer), the message of that exception. *)
Theorem C7_transcript_render vid title url o p :
  let h := input_html (fetch_and_display_transcript vid title url o p) in
  (forall t, transcript_result o = inl t ->
     h = title_html title ++ url_html url ++ transcript_content t /\
     ~ In 60 (transcript_content t) /\ ~ In 62 (transcript_content t) /\
     html_unescape (transcript_content t) = t) /\
  (forall r v x, o = TranscriptResponse r -> response_ok r = false ->
     response_json r = inl v -> json_get v "detail" = inl x ->
     h = title_html title ++ url_html url ++ error_html (or_else x msg_transcript_unavailable)) /\
  (forall e, transcript_result o = inr e ->
     h = title_html title ++ url_html url ++ error_html (err_message e)).
Proof.
  cbv zeta. rewrite transcript_html. split; [| split].
  - intros t ->. split; [reflexivity |].
    pose proof (transcript_content_no_angle t) as H. rewrite forallb_forall in H.
    split; [| split; [| apply unescape_escape]].
    + intros Hin. specialize (H 60 Hin). discriminate.
    + intros Hin. specialize (H 62 Hin). discriminate.
  - intros r v x -> Hok Hj Hd. unfold transcript_result. rewrite Hok. cbv iota beta.
    cbn [negb]. rewrite Hj, Hd. reflexivity.
  - intros e ->. reflexivity.
Qed.

(** Witness: a transcript holding markup. *)
Lemma C7_transcript_render_witness :
  html_unescape (transcript_content (js "<script>x</script> & more")) = js "<script>x</script> & more" /\
  ~ In 60 (transcript_content (js "<script>x</script> & more")).
Proof.
  destruct (C7_transcript_render (js "abc") (js "T") (js "u")
              (TranscriptResponse (Response 200 (BodyJson (JObject
                 [("transcript"%string, js "<script>x</script> & more")])))) sample_page)
    as [H _].
  destruct (H (js "<script>x</script> & more") ltac:(vm_compute; reflexivity)) as (_ & Hlt & _ & Hu).
  exact (conj Hu Hlt).
Defined.

(** ** C9: the title and URL are not escaped *)

(** C9: whatever the request gives, the input area's HTML starts with the
    title block holding the trimmed title verbatim and the URL block holding
    the URL verbatim; in particular a title holding the tag [<b>] puts that
    tag into the HTML unchanged. *)
Theorem C9_title_url_unescaped vid title url o p :
  let h := input_html (fetch_and_display_transcript vid title url o p) in
  (exists body, h = title_open ++ js_trim title ++ js " - YouTube</div>"
                    ++ url_open ++ url ++ js "</div>" ++ body) /\
  includes h (js_trim title) = true /\ includes h url = true /\
  includes (input_html (fetch_and_display_transcript vid (js "<b>x</b>") url o p)) (js "<b>") = true.
Proof.
  cbv zeta. rewrite !transcript_html. unfold title_html, url_html.
  split; [| split; [| split]].
  - eexists. now rewrite <- !app_assoc.
  - rewrite <- !app_assoc. apply includes_app_mid.
  - rewrite <- !app_assoc. do 4 apply includes_app_r.
    apply includes_prefix, is_prefix_app.
  - change (js_trim (js "<b>x</b>")) with (js "<b>" ++ js "x</b>").
    rewrite <- !app_assoc. apply includes_app_mid.
Qed.

(** ** Preferences *)

Lemma get_set_item k v st : get_item k (set_item k v st) = Some v.
Proof. unfold get_item, set_item. cbn [find fst]. now rewrite String.eqb_refl. Qed.

Lemma store_fetch_transcript vid title url o p :
  store (fetch_and_display_transcript vid title url o p) = store p.
Proof.
  unfold fetch_and_display_transcript. cbv zeta.
  destruct (transcript_result o); rewrite store_update_status; cbn [store set_input_html issue set_requests];
    rewrite store_update_status; reflexivity.
Qed.

Lemma load_models_facts provider sel o p :
  let p' := load_models_for_provider provider sel o p in
  store p' = store p /\ In (ReqModels provider) (requests p') /\
  (forall m models, sel = Some m -> truthy m = true -> o = ModelsLoaded models ->
     existsb (text_eqb m) models = true -> model_value (form p') = m).
Proof.
  cbv zeta. unfold load_models_for_provider.
  destruct o as [e | [| m0 models]]; rewrite store_update_status, requests_update_status, form_update_status;
    cbn [store set_form issue set_requests requests form];
    rewrite ?store_update_status, ?requests_update_status, ?form_update_status;
    (split; [reflexivity | split; [now left |]]).
  - intros m models Hs Ht Ho. discriminate.
  - intros m models Hs Ht Ho Hex. injection Ho as <-. discriminate.
  - intros m models' -> Ht Ho Hex. injection Ho as <-. cbn [model_value with_model].
    rewrite Ht, Hex. reflexivity.
Qed.

Lemma store_handle_stream so p : store (handle_stream so p) = store p.
Proof.
  unfold handle_stream. destruct (truthy (js_trim (input_text (form p)))); cbn [negb].
  2: apply store_update_status.
  cbv beta iota zeta delta [new_controller].
  assert (S1 : store (update_status (js "스트리밍 번역 중...") "loading" true
                 (set_output [] (set_editable false (set_btn_disabled true p)))) = store p)
    by exact (store_update_status _ _ _ _).
  remember (update_status (js "스트리밍 번역 중...") "loading" true
              (set_output [] (set_editable false (set_btn_disabled true p)))) as p1 eqn:Hp1.
  set (ps := issue _ _).
  assert (Sps : store ps = store p) by exact S1.
  match goal with |- context [filter _ (unload_handlers ?X)] => set (x := X) end.
  assert (Sx : store x = store ps).
  { subst x. destruct so as [e | r chunks ending].
    - unfold stream_catch. destruct (String.eqb (err_name e) "AbortError");
        rewrite store_update_status; reflexivity.
    - destruct (response_ok r); cbn [negb].
      + destruct (read_loop new_TextDecoder (output ps) chunks) as [td out].
        destruct ending as [e |].
        * unfold stream_catch. destruct (String.eqb (err_name e) "AbortError");
            rewrite store_update_status; reflexivity.
        * rewrite store_update_status. reflexivity.
      + unfold stream_catch. destruct (String.eqb (err_name (stream_http_error r)) "AbortError");
          rewrite store_update_status; reflexivity. }
  clearbody x. cbn [store set_editable set_btn_disabled set_unload_handlers]. congruence.
Qed.

Lemma store_finally iid tid q : store (regular_finally iid tid q) = store q.
Proof.
  unfold regular_finally. cbn [negb btn_disabled set_editable set_btn_disabled].
  rewrite store_update_status. reflexivity.
Qed.

Lemma chain_success_store prov model tid iid r data t q :
  response_ok r = true -> response_json r = inl data -> json_get data "translated_text" = inl t ->
  store (regular_chain prov model tid iid (FetchResponse r) q) =
  set_item "lastUsedModel" model (set_item "lastUsedProvider" prov (store q)).
Proof.
  intros Hok Hj Ht. unfold regular_chain.
  destruct (regular_then1 tid r q) as [q1 r1] eqn:E1.
  assert (F1 : frame q q1) by exact (proj1 (then1_facts tid r q q1 r1 E1)).
  unfold regular_then1 in E1. rewrite Hok, Hj in E1. cbn [negb] in E1. injection E1 as _ <-.
  cbv iota. unfold regular_then2. rewrite Ht. cbv beta iota zeta delta [set_timer].
  rewrite store_finally. cbn [store set_timers update_progress_bar set_store show_progress
                              set_output set_progress].
  destruct F1 as (_ & _ & _ & _ & _ & S & _). now rewrite S.
Qed.

Lemma store_run_ticks k ph q : store (snd (run_ticks k ph q)) = store q.
Proof.
  revert ph q. induction k as [|k IH]; intros ph q; [reflexivity|].
  cbn [run_ticks]. rewrite IH. reflexivity.
Qed.

Lemma regular_success_store o p secs r data t :
  model_rejected (model_value (form p)) = false ->
  truthy (js_trim (input_text (form p))) = true ->
  o = Settles secs (FetchResponse r) -> (secs < 180)%nat ->
  response_ok r = true -> response_json r = inl data ->
  json_get data "translated_text" = inl t ->
  store (handle_regular o p) =
  set_item "lastUsedModel" (model_value (form p))
    (set_item "lastUsedProvider" (provider_value (form p)) (store p)).
Proof.
  intros Hm Ht -> Hlt Hok Hj Htt.
  unfold handle_regular. rewrite Ht. unfold model_rejected in Hm. rewrite Hm.
  cbv beta iota zeta delta [negb new_controller set_timer].
  rewrite (proj2 (Nat.ltb_lt secs 180) Hlt).
  rewrite (chain_success_store _ _ _ _ r data t _ Hok Hj Htt).
  rewrite store_run_ticks. cbn [store issue set_requests set_timers update_progress_bar
                                 show_progress set_progress].
  rewrite store_update_status. reflexivity.
Qed.

Lemma load_models_form provider sel o p :
  let f' := form (load_models_for_provider provider sel o p) in
  provider_value f' = provider_value (form p) /\
  timestamp_checked f' = timestamp_checked (form p) /\
  streaming_checked f' = streaming_checked (form p).
Proof.
  cbv zeta. unfold load_models_for_provider.
  destruct o as [e | [| m0 models]]; rewrite form_update_status;
    cbn [form set_form issue set_requests]; rewrite ?form_update_status;
    cbn [form set_form provider_value timestamp_checked streaming_checked with_model];
    repeat split.
Qed.

Lemma init_preferences_facts o p :
  let p' := init_preferences o p in
  let prov := or_else (get_item "lastUsedProvider" (store p)) (js "gemini") in
  timestamp_checked (form p') = stored_true "show_timestamp" (store p) /\
  streaming_checked (form p') = stored_true "use_streaming" (store p) /\
  provider_value (form p') = prov /\
  In (ReqModels prov) (requests p') /\
  store p' = store p /\
  (forall m models, get_item "lastUsedModel" (store p) = Some m -> truthy m = true ->
     o = ModelsLoaded models -> existsb (text_eqb m) models = true -> model_value (form p') = m).
Proof.
  cbv zeta. unfold init_preferences. cbv zeta. cbn [store set_form].
  match goal with |- context [load_models_for_provider ?a ?b ?c ?d] =>
    destruct (load_models_form a b c d) as (F1 & F2 & F3);
    destruct (load_models_facts a b c d) as (S & R & M); set (q := d) in * end.
  rewrite F1, F2, F3, S. subst q. cbn [form store with_provider with_streaming with_timestamp
    provider_value timestamp_checked streaming_checked].
  split; [reflexivity | split; [reflexivity | split; [reflexivity | split; [exact R | split; [reflexivity |]]]]].
  intros m models Hm Ht Ho Hex. exact (M m models Hm Ht Ho Hex).
Qed.

Lemma get_set_item_other k k' v st :
  k <> k' -> get_item k (set_item k' v st) = get_item k st.
Proof.
  intros Hne. unfold get_item, set_item. cbn [find fst].
  destruct (String.eqb_spec k' k) as [E | _]; [congruence |].
  induction st as [| [k0 v0] st IH]; [reflexivity |].
  cbn [filter fst]. destruct (String.eqb_spec k0 k') as [-> | Hk].
  - cbn [negb]. rewrite IH. cbn [find fst].
    destruct (String.eqb_spec k' k); [congruence | reflexivity].
  - cbn [negb find fst]. destruct (String.eqb k0 k); [reflexivity | exact IH].
Qed.

(** C8 (counterexample): picking another provider in #provider-select
    reloads the model list but writes nothing to localStorage, so the new
    choice is not persisted when the setting changes. *)
Lemma C8_provider_change_not_persisted :
  provider_value (form (on_provider_change (js "openai") (ModelsLoaded [js "gpt-4o"]) sample_page))
    = js "openai" /\
  get_item "lastUsedProvider"
    (store (on_provider_change (js "openai") (ModelsLoaded [js "gpt-4o"]) sample_page)) = None.
Proof. vm_compute. split; reflexivity. Qed.

Lemma store_regular_catch iid e q : store (regular_catch iid e q) = store q.
Proof. unfold regular_catch. cbv zeta. rewrite store_update_status. reflexivity. Qed.

Lemma store_fire_timeout tid ctrl q : store (fire_timeout tid ctrl q) = store q.
Proof.
  unfold fire_timeout. cbv zeta. cbn [store set_editable set_btn_disabled hide_progress set_progress].
  rewrite store_update_status. reflexivity.
Qed.

(** The promise chain leaves localStorage as it was unless the fetch
    resolved with an OK response whose JSON has a 'translated_text'. *)
Lemma chain_failure_store prov model tid iid res q :
  (forall r data t, res = FetchResponse r -> response_ok r = true ->
     response_json r = inl data -> json_get data "translated_text" = inl t -> False) ->
  store (regular_chain prov model tid iid res q) = store q.
Proof.
  intros Hf. unfold regular_chain.
  destruct res as [r | e].
  - destruct (regular_then1 tid r q) as [q1 r1] eqn:E1.
    assert (S1 : store q1 = store q)
      by (destruct (then1_facts tid r q q1 r1 E1) as ((_ & _ & _ & _ & _ & S & _) & _); exact S).
    destruct r1 as [data | e].
    + assert (Hok : response_ok r = true /\ response_json r = inl data).
      { unfold regular_then1 in E1. destruct (response_ok r).
        - cbv beta iota zeta delta [negb] in E1. injection E1 as _ Hj. now split.
        - cbv beta iota zeta delta [negb] in E1.
          destruct (response_json r); injection E1 as _ H; discriminate. }
      destruct Hok as [Hok Hj].
      destruct (regular_then2 prov model data q1) as [q2 r2] eqn:E2.
      unfold regular_then2 in E2.
      destruct (json_get data "translated_text") as [t | e] eqn:Et.
      * exfalso. exact (Hf r data t eq_refl Hok Hj Et).
      * injection E2 as <- <-. cbv iota.
        rewrite store_finally, store_regular_catch.
        cbn [store update_progress_bar show_progress set_progress]. exact S1.
    + cbv iota. rewrite store_finally, store_regular_catch. exact S1.
  - cbv iota. rewrite store_finally, store_regular_catch. reflexivity.
Qed.

Lemma regular_failure_store o p :
  (forall secs r data t, o = Settles secs (FetchResponse r) -> (secs < 180)%nat ->
     response_ok r = true -> response_json r = inl data ->
     json_get data "translated_text" = inl t -> False) ->
  store (handle_regular o p) = store p.
Proof.
  intros Hf. unfold handle_regular.
  destruct (negb (truthy (js_trim (input_text (form p))))); [apply store_update_status |].
  destruct (negb (truthy (model_value (form p))) || includes (model_value (form p)) (js "로딩")
            || includes (model_value (form p)) (js "없음")); [apply store_update_status |].
  cbv beta iota zeta delta [new_controller set_timer].
  destruct o as [secs res |]; [destruct (Nat.ltb_spec secs 180) as [Hlt | Hge] |].
  - rewrite chain_failure_store
      by (intros r data t -> Hok Hj Ht; exact (Hf secs r data t eq_refl Hlt Hok Hj Ht)).
    rewrite store_run_ticks.
    cbn [store issue set_requests set_timers update_progress_bar show_progress set_progress
         set_editable set_btn_disabled].
    rewrite store_update_status. reflexivity.
  - rewrite chain_failure_store by (intros r data t E; discriminate).
    rewrite store_fire_timeout, store_run_ticks.
    cbn [store issue set_requests set_timers update_progress_bar show_progress set_progress
         set_editable set_btn_disabled].
    rewrite store_update_status. reflexivity.
  - rewrite chain_failure_store by (intros r data t E; discriminate).
    rewrite store_fire_timeout, store_run_ticks.
    cbn [store issue set_requests set_timers update_progress_bar show_progress set_progress
         set_editable set_btn_disabled].
    rewrite store_update_status. reflexivity.
Qed.

(** C8: the four preferences live in localStorage. At initialisation the
    two checkboxes are set from 'show_timestamp' and 'use_streaming', the
    provider from 'lastUsedProvider' (default 'gemini'), whose models are
    requested, and 'lastUsedModel' is selected when the list offers it;
    initialisation writes nothing. 'show_timestamp' and 'use_streaming' are
    written whenever their checkbox changes, and such a change writes no
    other key. 'lastUsedProvider' and 'lastUsedModel' are not written when
    the provider changes nor by a streaming translation; they are written,
    together, after a successful single-shot translation, and a single-shot
    attempt that does not succeed within 180 s (rejected input, failed or
    timed-out request, error response, missing translation) leaves
    localStorage unchanged. *)
Theorem C8_preference_storage :
  (forall o p,
     let p' := init_preferences o p in
     let prov := or_else (get_item "lastUsedProvider" (store p)) (js "gemini") in
     timestamp_checked (form p') = stored_true "show_timestamp" (store p) /\
     streaming_checked (form p') = stored_true "use_streaming" (store p) /\
     provider_value (form p') = prov /\
     In (ReqModels prov) (requests p') /\
     store p' = store p /\
     (forall m models, get_item "lastUsedModel" (store p) = Some m -> truthy m = true ->
        o = ModelsLoaded models -> existsb (text_eqb m) models = true ->
        model_value (form p') = m)) /\
  (forall checked vid title url o p,
     let p' := on_timestamp_change checked vid title url o p in
     get_item "show_timestamp" (store p') = Some (bool_text checked) /\
     (forall k, k <> "show_timestamp"%string -> get_item k (store p') = get_item k (store p))) /\
  (forall checked p,
     let p' := on_streaming_change checked p in
     get_item "use_streaming" (store p') = Some (bool_text checked) /\
     (forall k, k <> "use_streaming"%string -> get_item k (store p') = get_item k (store p))) /\
  (forall v o p, store (on_provider_change v o p) = store p) /\
  (forall so p, store (handle_stream so p) = store p) /\
  (forall o p secs r data t,
     model_rejected (model_value (form p)) = false ->
     truthy (js_trim (input_text (form p))) = true ->
     o = Settles secs (FetchResponse r) -> (secs < 180)%nat ->
     response_ok r = true -> response_json r = inl data ->
     json_get data "translated_text" = inl t ->
     get_item "lastUsedProvider" (store (handle_regular o p)) = Some (provider_value (form p)) /\
     get_item "lastUsedModel" (store (handle_regular o p)) = Some (model_value (form p))) /\
  (forall o p,
     (forall secs r data t, o = Settles secs (FetchResponse r) -> (secs < 180)%nat ->
        response_ok r = true -> response_json r = inl data ->
        json_get data "translated_text" = inl t -> False) ->
     store (handle_regular o p) = store p).
Proof.
  split; [| split; [| split; [| split; [| split; [| split]]]]].
  - intros o p. cbv zeta. exact (init_preferences_facts o p).
  - intros checked vid title url o p. cbv zeta. unfold on_timestamp_change. cbv zeta.
    destruct (truthy vid); [rewrite store_fetch_transcript |];
      cbn [store set_store set_form]; (split; [apply get_set_item |]);
      intros k Hk; apply get_set_item_other; exact Hk.
  - intros checked p. cbv zeta. unfold on_streaming_change. cbn [store set_store set_form].
    split; [apply get_set_item |]. intros k Hk. apply get_set_item_other. exact Hk.
  - intros v o p. unfold on_provider_change.
    destruct (load_models_facts v None o (set_form (with_provider v (form p)) p)) as (S & _).
    rewrite S. reflexivity.
  - exact store_handle_stream.
  - intros o p secs r data t Hm Ht Ho Hlt Hok Hj Htt.
    rewrite (regular_success_store o p secs r data t Hm Ht Ho Hlt Hok Hj Htt).
    split; [| apply get_set_item].
    rewrite get_set_item_other by discriminate. apply get_set_item.
  - exact regular_failure_store.
Qed.

Lemma C8_preference_storage_witness :
  (get_item "lastUsedProvider"
     (store (handle_regular (Settles 1 (FetchResponse (ok_response (js "안녕")))) sample_page))
     = Some (js "gemini") /\
   get_item "lastUsedModel"
     (store (handle_regular (Settles 1 (FetchResponse (ok_response (js "안녕")))) sample_page))
     = Some (js "models/gemini-pro")) /\
  store (handle_regular (Settles 200 (FetchResponse (ok_response (js "안녕")))) sample_page)
    = store sample_page.
Proof.
  destruct C8_preference_storage as (_ & _ & _ & _ & _ & H & Hf).
  split.
  - exact (H (Settles 1 (FetchResponse (ok_response (js "안녕")))) sample_page 1%nat
             (ok_response (js "안녕")) (JObject [("translated_text"%string, js "안녕")]) (Some (js "안녕"))
             ltac:(vm_compute; reflexivity) ltac:(vm_compute; reflexivity) eq_refl
             ltac:(lia) ltac:(vm_compute; reflexivity) eq_refl
             ltac:(vm_compute; reflexivity)).
  - apply Hf. intros secs r data t E Hlt _ _ _. injection E as <- _. lia.
Defined.

(** ** The translator tab manager *)

Lemma find_update_tab id url ts t :
  find (fun t => Background.tab_id t =? id) ts = Some t ->
  find (fun t => Background.tab_id t =? id)
    (map (fun t => if Background.tab_id t =? id then Background.Tab id url else t) ts)
  = Some (Background.Tab id url).
Proof.
  induction ts as [| t0 ts IH]; [discriminate |].
  cbn [find map]. destruct (Background.tab_id t0 =? id) eqn:E.
  - intros _. cbn [Background.tab_id]. now rewrite Z.eqb_refl.
  - intros H. rewrite E. exact (IH H).
Qed.

Lemma create_translator_tab_facts u b :
  Background.next_tab b <> 0 ->
  let b' := Background.createTranslatorTab u b in
  Background.tabs b' = Background.tabs b ++ [Background.Tab (Background.next_tab b) u] /\
  Background.focused b' = Some (Background.next_tab b) /\
  Background.translatorTabId b' = Some (Background.next_tab b).
Proof.
  intros Hn. cbv zeta. unfold Background.createTranslatorTab, Background.tabs_create.
  cbn [Background.tab_id]. destruct (Z.eqb_spec (Background.next_tab b) 0) as [E | _];
    [contradiction |].
  cbn [negb]. repeat split.
Qed.

Lemma create_translator_tab_session u b s :
  Background.next_tab b <> 0 ->
  Background.createTranslatorTab u (Background.set_translatorTabId s b) =
  Background.createTranslatorTab u b.
Proof.
  intros Hn. unfold Background.createTranslatorTab, Background.tabs_create.
  cbn [Background.tab_id Background.next_tab Background.set_translatorTabId].
  destruct (Z.eqb_spec (Background.next_tab b) 0) as [E | _]; [contradiction |].
  reflexivity.
Qed.

(** C6: on a 'showVideoId' message with a video id, a stored tab id that
    resolves to an open tab has that tab navigated to the UI URL and
    focused, with no tab created and the stored id kept; with no stored id
    (or 0) or a failed lookup, a tab is created at the UI URL, focused and
    its id stored, exactly as when no id was stored. *)
Theorem C6_show_video_tab ext act d b :
  String.eqb act "showVideoId" = true ->
  truthy (Background.videoId d) = true ->
  Background.next_tab b <> 0 ->
  let u := Background.ui_url ext d in
  let b' := Background.on_message ext act (Some d) b in
  (forall id t, Background.translatorTabId b = Some id -> id <> 0 ->
     Background.tabs_get id b = Some t ->
     b' = Background.tabs_update id u b /\
     Background.tabs_get id b' = Some (Background.Tab id u) /\
     Background.focused b' = Some id /\
     length (Background.tabs b') = length (Background.tabs b) /\
     Background.translatorTabId b' = Background.translatorTabId b) /\
  ((Background.translatorTabId b = None \/ Background.translatorTabId b = Some 0 \/
    exists id, Background.translatorTabId b = Some id /\ Background.tabs_get id b = None) ->
     b' = Background.on_message ext act (Some d) (Background.set_translatorTabId None b) /\
     Background.tabs b' = Background.tabs b ++ [Background.Tab (Background.next_tab b) u] /\
     Background.focused b' = Some (Background.next_tab b) /\
     Background.translatorTabId b' = Some (Background.next_tab b)).
Proof.
  intros Ha Hv Hn. cbv zeta. unfold Background.on_message. rewrite Ha, Hv.
  assert (Hnone : Background.reuseOrCreateTab (Background.ui_url ext d)
                    (Background.set_translatorTabId None b) =
                  Background.createTranslatorTab (Background.ui_url ext d) b).
  { unfold Background.reuseOrCreateTab. cbn [Background.translatorTabId Background.set_translatorTabId].
    now apply create_translator_tab_session. }
  rewrite Hnone. split.
  - intros id t Hs Hid Hg. unfold Background.reuseOrCreateTab. rewrite Hs.
    destruct (Z.eqb_spec id 0) as [E | _]; [contradiction |]. cbn [negb]. rewrite Hg.
    assert (Ht : Background.tab_id t = id).
    { unfold Background.tabs_get in Hg. apply find_some in Hg as [_ Hg]. now apply Z.eqb_eq. }
    rewrite Ht. split; [reflexivity |].
    unfold Background.tabs_update, Background.tabs_get, Background.set_focused, Background.set_tabs.
    cbn [Background.tabs Background.focused Background.translatorTabId].
    split; [exact (find_update_tab id _ _ t Hg) |].
    split; [reflexivity | split; [apply length_map | first [reflexivity | exact Hs]]].
  - intros Hc.
    assert (E : Background.reuseOrCreateTab (Background.ui_url ext d) b =
                Background.createTranslatorTab (Background.ui_url ext d) b).
    { unfold Background.reuseOrCreateTab.
      destruct Hc as [-> | [-> | (id & -> & Hg)]]; [reflexivity | reflexivity |].
      destruct (id =? 0); cbn [negb]; [reflexivity | now rewrite Hg]. }
    rewrite E. split; [reflexivity |]. exact (create_translator_tab_facts _ b Hn).
Qed.

Lemma C6_show_video_tab_witness :
  Background.tabs_get 5 (Background.on_message (js "chrome-extension://x/") "showVideoId"
                           (Some sample_video) sample_browser)
    = Some (Background.Tab 5 (Background.ui_url (js "chrome-extension://x/") sample_video)) /\
  Background.tabs (Background.on_message (js "chrome-extension://x/") "showVideoId"
                     (Some sample_video) (Background.set_translatorTabId (Some 9) sample_browser))
    = Background.tabs sample_browser
      ++ [Background.Tab 6 (Background.ui_url (js "chrome-extension://x/") sample_video)].
Proof.
  destruct (C6_show_video_tab (js "chrome-extension://x/") "showVideoId" sample_video sample_browser
              eq_refl ltac:(vm_compute; reflexivity) ltac:(discriminate)) as [H1 _].
  destruct (C6_show_video_tab (js "chrome-extension://x/") "showVideoId" sample_video
              (Background.set_translatorTabId (Some 9) sample_browser)
              eq_refl ltac:(vm_compute; reflexivity) ltac:(discriminate)) as [_ H2].
  split.
  - exact (proj1 (proj2 (H1 5 (Background.Tab 5 (js "chrome-extension://x/translator_ui.html"))
                           eq_refl ltac:(discriminate) eq_refl))).
  - exact (proj1 (proj2 (H2 (or_intror (or_intror (ex_intro _ 9 (conj eq_refl eq_refl))))))).
Defined.

(** ** The stream decoder does not depend on chunk boundaries *)

Lemma serialize_io_fst_app b t1 t2 :
  fst (serialize_io (fst (serialize_io b t1)) t2) = fst (serialize_io b (t1 ++ t2)).
Proof.
  destruct t1 as [| c t1]; [reflexivity |].
  destruct t2 as [| d t2]; destruct b; reflexivity.
Qed.

Lemma read_loop_concat td out chunks :
  read_loop td out chunks =
  let '(dec', items) := utf8_run (td_dec td) (List.concat chunks) in
  let '(bom', o) := serialize_io (td_bom_seen td) items in
  (TextDecoder dec' bom', out ++ o).
Proof.
  revert td out. induction chunks as [| v rest IH]; intros [dec bom] out.
  - cbn [read_loop List.concat utf8_run td_dec td_bom_seen].
    destruct bom; cbn; now rewrite app_nil_r.
  - cbn [read_loop List.concat td_dec td_bom_seen]. unfold decode_stream.
    cbn [td_dec td_bom_seen]. rewrite utf8_run_app.
    destruct (utf8_run dec v) as [dec1 items1] eqn:E1.
    destruct (serialize_io bom items1) as [b1 o1] eqn:S1.
    rewrite IH. cbn [td_dec td_bom_seen].
    destruct (utf8_run dec1 (List.concat rest)) as [dec2 items2] eqn:E2.
    pose proof (serialize_io_app bom items1 items2) as A.
    pose proof (serialize_io_fst_app bom items1 items2) as F.
    rewrite S1 in A, F. cbn [fst snd] in A, F.
    destruct (serialize_io b1 items2) as [b2 o2] eqn:S2.
    destruct (serialize_io bom (items1 ++ items2)) as [b3 o3] eqn:S3.
    cbn [fst snd] in A, F. subst. now rewrite app_assoc.
Qed.

Lemma prefix_multibyte c k :
  scalar_value c = true -> (1 <= k < length (utf8_encode_cp c))%nat ->
  snd (utf8_run utf8_init (firstn k (utf8_encode_cp c))) = [].
Proof.
  unfold scalar_value. intros Hc Hk.
  apply andb_prop in Hc as [Hc Hsur]. apply andb_prop in Hc as [H0 H1].
  apply Z.leb_le in H0. apply Z.leb_le in H1. apply negb_true_iff in Hsur.
  assert (Hs : ~ (55296 <= c <= 57343)).
  { intros [Ha Hb]. apply Z.leb_le in Ha. apply Z.leb_le in Hb. now rewrite Ha, Hb in Hsur. }
  clear Hsur.
  unfold utf8_encode_cp in *.
  destruct (Z.ltb_spec c 128); [cbn [length] in Hk; lia |].
  destruct (Z.ltb_spec c 2048).
  { cbn [length] in Hk. destruct k as [| [| k]]; [lia | | lia]. cbn [firstn].
    rewrite utf8_run_cons, step_lead, lead_two by (reflexivity || zdiv). reflexivity. }
  destruct (Z.ltb_spec c 65536).
  { cbn [length] in Hk. destruct k as [| [| [| k]]]; [lia | | | lia]; cbn [firstn];
      rewrite utf8_run_cons, step_lead, lead_three by (reflexivity || zdiv).
    - reflexivity.
    - rewrite utf8_run_cons, step_cont_more
        by (proj; try zdiv; try lia;
            destruct (Z.eqb_spec (224 + c / 4096) 224), (Z.eqb_spec (224 + c / 4096) 237); zdiv).
      reflexivity. }
  { cbn [length] in Hk. destruct k as [| [| [| [| k]]]]; [lia | | | | lia]; cbn [firstn];
      rewrite utf8_run_cons, step_lead, lead_four by (reflexivity || zdiv).
    - reflexivity.
    - rewrite utf8_run_cons, step_cont_more
        by (proj; try zdiv; try lia;
            destruct (Z.eqb_spec (240 + c / 262144) 240), (Z.eqb_spec (240 + c / 262144) 244); zdiv).
      reflexivity.
    - rewrite utf8_run_cons, step_cont_more
        by (proj; try zdiv; try lia;
            destruct (Z.eqb_spec (240 + c / 262144) 240), (Z.eqb_spec (240 + c / 262144) 244); zdiv).
      rewrite utf8_run_cons, step_cont_more by (proj; try zdiv; try lia).
      reflexivity. }
Qed.

(** X1: the streamed output is the decoding of all the bytes received, in
    one piece: it does not depend on where the transport cuts the chunks
    (a character split over two chunks comes out once and whole). The
    decoder is never flushed, so an incomplete character at the end of the
    stream (any proper prefix, of one to three bytes, of the encoding of a
    multi-byte character) is dropped without a replacement character. *)
Theorem stream_output_chunking p r :
  truthy (js_trim (input_text (form p))) = true -> response_ok r = true ->
  (forall chunks,
     output (handle_stream (StreamResponse r chunks None) p)
     = strip_bom (snd (utf8_run utf8_init (List.concat chunks)))) /\
  (forall t c k, forallb scalar_value t = true -> scalar_value c = true ->
     (1 <= k < length (utf8_encode_cp c))%nat ->
     output (handle_stream (StreamResponse r [utf8_encode t ++ firstn k (utf8_encode_cp c)] None) p)
     = strip_bom t).
Proof.
  intros Ht Hok.
  assert (G : forall chunks, output (handle_stream (StreamResponse r chunks None) p)
                           = strip_bom (snd (utf8_run utf8_init (List.concat chunks)))).
  { intros chunks. rewrite (proj2 (stream_valid_output _ p Ht) r chunks eq_refl Hok).
    rewrite read_loop_concat. cbn [td_dec td_bom_seen new_TextDecoder].
    destruct (utf8_run utf8_init (List.concat chunks)) as [d items].
    cbn [snd]. rewrite <- serialize_io_false.
    destruct (serialize_io false items) as [b o]. reflexivity. }
  split; [exact G |].
  intros t c k Hs Hc Hk. rewrite G. cbn [List.concat]. rewrite app_nil_r.
  rewrite utf8_run_app, utf8_roundtrip by exact Hs.
  pose proof (prefix_multibyte c k Hc Hk) as H.
  destruct (utf8_run utf8_init (firstn k (utf8_encode_cp c))) as [st o].
  cbn [snd] in H |- *. subst o. now rewrite app_nil_r.
Qed.

Lemma stream_output_chunking_witness :
  output (handle_stream (StreamResponse (ok_response []) [[236; 149]; [136; 235; 133; 149]] None)
            sample_page) = js "안녕" /\
  output (handle_stream (StreamResponse (ok_response []) [[236; 149; 136; 235; 133]] None)
            sample_page) = js "안".
Proof.
  destruct (stream_output_chunking sample_page (ok_response [])
              ltac:(vm_compute; reflexivity) eq_refl) as [H H2].
  split.
  - rewrite H. vm_compute. reflexivity.
  - assert (E : [236; 149; 136; 235; 133] = utf8_encode (js "안") ++ firstn 2 (utf8_encode_cp 45397))
      by (vm_compute; reflexivity).
    rewrite E. rewrite (H2 (js "안") 45397 2%nat) by (vm_compute; (reflexivity || lia)).
    vm_compute. reflexivity.
Defined.

(** ** The UI page reads back the parameters the background script set *)


Ltac zbool :=
  repeat match goal with
  | |- context [?a <=? ?b] =>
      first [rewrite (proj2 (Z.leb_le a b)) by lia | rewrite (proj2 (Z.leb_gt a b)) by lia]
  | |- context [?a <? ?b] =>
      first [rewrite (proj2 (Z.ltb_lt a b)) by lia | rewrite (proj2 (Z.ltb_ge a b)) by lia]
  | |- context [?a =? ?b] =>
      first [rewrite (proj2 (Z.eqb_eq a b)) by lia | rewrite (proj2 (Z.eqb_neq a b)) by lia]
  end; cbn [andb orb negb].

Lemma hex_digit_props n :
  0 <= n < 16 ->
  is_hex_digit (Background.hex_digit n) = true /\ hex_value (Background.hex_digit n) = n /\
  url_safe (Background.hex_digit n) = true /\ Background.hex_digit n <> 43.
Proof.
  intros Hn. unfold Background.hex_digit, is_hex_digit, hex_value, url_safe.
  destruct (Z.ltb_spec n 10); zbool; repeat split; try reflexivity; lia.
Qed.

Lemma form_byte_safe c : 0 <= c <= 255 -> forallb url_safe (Background.form_byte c) = true.
Proof.
  intros Hc. unfold Background.form_byte.
  destruct (((48 <=? c) && (c <=? 57)) || ((65 <=? c) && (c <=? 90)) || ((97 <=? c) && (c <=? 122))
            || (c =? 42) || (c =? 45) || (c =? 46) || (c =? 95)) eqn:K.
  - cbn [forallb]. rewrite andb_true_r. unfold url_safe.
    repeat rewrite orb_true_iff in K. repeat rewrite andb_true_iff in K.
    rewrite !Z.leb_le, !Z.eqb_eq in K.
    destruct K as [[[[[[[? ?] | [? ?]] | [? ?]] | ?] | ?] | ?] | ?];
      repeat (rewrite ?(proj2 (Z.leb_le _ _)), ?(proj2 (Z.ltb_lt _ _)), ?(proj2 (Z.eqb_neq _ _)) by lia); reflexivity.
  - destruct (Z.eqb_spec c 32); [reflexivity |].
    cbn [forallb]. destruct (hex_digit_props (c / 16)) as (_ & _ & S1 & _); [zdiv |].
    destruct (hex_digit_props (c mod 16)) as (_ & _ & S2 & _); [zdiv |].
    rewrite S1, S2. reflexivity.
Qed.

Lemma percent_decode_form_byte c rest :
  0 <= c <= 255 ->
  percent_decode (plus_to_space (Background.form_byte c ++ rest))
  = c :: percent_decode (plus_to_space rest).
Proof.
  intros Hc. unfold Background.form_byte.
  destruct (((48 <=? c) && (c <=? 57)) || ((65 <=? c) && (c <=? 90)) || ((97 <=? c) && (c <=? 122))
            || (c =? 42) || (c =? 45) || (c =? 46) || (c =? 95)) eqn:K.
  - cbn [app plus_to_space map percent_decode].
    assert (N43 : c <> 43 /\ c <> 37).
    { repeat rewrite orb_true_iff in K. repeat rewrite andb_true_iff in K.
      rewrite !Z.leb_le, !Z.eqb_eq in K. lia. }
    rewrite (proj2 (Z.eqb_neq c 43)) by lia. rewrite (proj2 (Z.eqb_neq c 37)) by lia.
    reflexivity.
  - destruct (Z.eqb_spec c 32) as [-> | N32].
    + reflexivity.
    + destruct (hex_digit_props (c / 16)) as (H1 & V1 & _ & P1); [zdiv |].
      destruct (hex_digit_props (c mod 16)) as (H2 & V2 & _ & P2); [zdiv |].
      cbn [app plus_to_space map].
      rewrite (proj2 (Z.eqb_neq (Background.hex_digit (c / 16)) 43)) by exact P1.
      rewrite (proj2 (Z.eqb_neq (Background.hex_digit (c mod 16)) 43)) by exact P2.
      cbn [Z.eqb percent_decode Pos.eqb]. rewrite H1, H2. cbn [andb].
      rewrite V1, V2. f_equal. zdiv.
Qed.

Lemma percent_decode_form bs :
  forallb (fun b => (0 <=? b) && (b <=? 255)) bs = true ->
  percent_decode (plus_to_space (flat_map Background.form_byte bs)) = bs.
Proof.
  induction bs as [| b bs IH]; [reflexivity |].
  cbn [forallb flat_map]. intros H. apply andb_prop in H as [Hb H].
  apply andb_prop in Hb as [H0 H1]. apply Z.leb_le in H0, H1.
  rewrite percent_decode_form_byte by lia. now rewrite IH.
Qed.

Lemma utf8_encode_cp_bytes c :
  scalar_value c = true -> forallb (fun b => (0 <=? b) && (b <=? 255)) (utf8_encode_cp c) = true.
Proof.
  unfold scalar_value. intros Hc.
  apply andb_prop in Hc as [Hc _]. apply andb_prop in Hc as [H0 H1].
  apply Z.leb_le in H0, H1.
  unfold utf8_encode_cp.
  destruct (Z.ltb_spec c 128); [cbn; rewrite (proj2 (Z.leb_le 0 c)), (proj2 (Z.leb_le c 255)) by lia; reflexivity |].
  destruct (Z.ltb_spec c 2048).
  { cbn [forallb]. rewrite !(proj2 (Z.leb_le _ _)) by zdiv. reflexivity. }
  destruct (Z.ltb_spec c 65536).
  { cbn [forallb]. rewrite !(proj2 (Z.leb_le _ _)) by zdiv. reflexivity. }
  { cbn [forallb]. rewrite !(proj2 (Z.leb_le _ _)) by zdiv. reflexivity. }
Qed.

Lemma utf8_encode_bytes t :
  forallb scalar_value t = true ->
  forallb (fun b => (0 <=? b) && (b <=? 255)) (utf8_encode t) = true.
Proof.
  induction t as [| c t IH]; [reflexivity |].
  cbn [forallb]. intros H. apply andb_prop in H as [Hc H].
  unfold utf8_encode. cbn [flat_map]. rewrite forallb_app.
  rewrite utf8_encode_cp_bytes by exact Hc. exact (IH H).
Qed.

Lemma form_decode_encode t :
  forallb scalar_value t = true -> form_decode (Background.form_encode t) = t.
Proof.
  intros H. unfold form_decode, Background.form_encode.
  rewrite percent_decode_form by now apply utf8_encode_bytes.
  unfold utf8_decode_no_bom. rewrite utf8_roundtrip by exact H.
  cbn. apply app_nil_r.
Qed.

Lemma form_encode_safe t :
  forallb scalar_value t = true -> forallb url_safe (Background.form_encode t) = true.
Proof.
  intros H. unfold Background.form_encode.
  pose proof (utf8_encode_bytes t H) as B. revert B.
  generalize (utf8_encode t). induction l as [| b l IH]; [reflexivity |].
  cbn [forallb flat_map]. intros B. apply andb_prop in B as [Hb B].
  apply andb_prop in Hb as [H0 H1]. apply Z.leb_le in H0, H1.
  rewrite forallb_app, form_byte_safe by lia. exact (IH B).
Qed.

Lemma utf8_encode_ascii t : forallb (fun b => (0 <=? b) && (b <? 128)) t = true -> utf8_encode t = t.
Proof.
  induction t as [| c t IH]; [reflexivity |].
  cbn [forallb]. intros H. apply andb_prop in H as [Hc H].
  apply andb_prop in Hc as [_ Hc]. unfold utf8_encode. cbn [flat_map].
  unfold utf8_encode_cp. rewrite Hc. cbn [app]. f_equal. exact (IH H).
Qed.

Lemma split_on_no c a :
  forallb (fun x => negb (x =? c)) a = true -> split_on c a = [a].
Proof.
  induction a as [| x a IH]; [reflexivity |].
  cbn [forallb split_on]. intros H. apply andb_prop in H as [Hx H].
  apply negb_true_iff in Hx. rewrite Hx, IH by exact H. reflexivity.
Qed.

Lemma split_on_app c a b :
  forallb (fun x => negb (x =? c)) a = true -> split_on c (a ++ c :: b) = a :: split_on c b.
Proof.
  induction a as [| x a IH]; intros H.
  - cbn. now rewrite Z.eqb_refl.
  - cbn [forallb] in H. apply andb_prop in H as [Hx H]. apply negb_true_iff in Hx.
    cbn [app split_on]. rewrite Hx, IH by exact H. reflexivity.
Qed.

Lemma break_at_app c a b :
  forallb (fun x => negb (x =? c)) a = true -> break_at c (a ++ c :: b) = (a, Some b).
Proof.
  induction a as [| x a IH]; intros H.
  - cbn. now rewrite Z.eqb_refl.
  - cbn [forallb] in H. apply andb_prop in H as [Hx H]. apply negb_true_iff in Hx.
    cbn [app break_at]. rewrite Hx, IH by exact H. reflexivity.
Qed.

Lemma take_until_no c a : forallb (fun x => negb (x =? c)) a = true -> take_until c a = a.
Proof.
  induction a as [| x a IH]; [reflexivity |].
  cbn [forallb take_until]. intros H. apply andb_prop in H as [Hx H].
  apply negb_true_iff in Hx. rewrite Hx, IH by exact H. reflexivity.
Qed.

Lemma location_search_skip a b :
  forallb (fun x => negb (x =? 63) && negb (x =? 35)) a = true ->
  location_search (a ++ b) = location_search b.
Proof.
  induction a as [| x a IH]; [reflexivity |].
  cbn [forallb]. intros H. apply andb_prop in H as [Hx H]. apply andb_prop in Hx as [H63 H35].
  apply negb_true_iff in H63, H35. cbn [app location_search]. rewrite H35, H63. exact (IH H).
Qed.

Lemma forallb_impl {A} (f g : A -> bool) l :
  (forall x, f x = true -> g x = true) -> forallb f l = true -> forallb g l = true.
Proof.
  intros I. induction l as [| x l IH]; [reflexivity |].
  cbn. intros H. apply andb_prop in H as [Hx H]. now rewrite (I x Hx), IH.
Qed.

Lemma url_safe_no38 l : forallb url_safe l = true -> forallb (fun x => negb (x =? 38)) l = true.
Proof.
  apply forallb_impl. unfold url_safe. intros x H.
  repeat (apply andb_prop in H as [H ?]). assumption.
Qed.

Lemma url_safe_no61 l : forallb url_safe l = true -> forallb (fun x => negb (x =? 61)) l = true.
Proof.
  apply forallb_impl. unfold url_safe. intros x H.
  repeat (apply andb_prop in H as [H ?]). assumption.
Qed.

Lemma url_safe_no35 l : forallb url_safe l = true -> forallb (fun x => negb (x =? 35)) l = true.
Proof.
  apply forallb_impl. unfold url_safe. intros x H.
  repeat (apply andb_prop in H as [H ?]). assumption.
Qed.

Lemma url_safe_ascii l : forallb url_safe l = true -> forallb (fun b => (0 <=? b) && (b <? 128)) l = true.
Proof.
  apply forallb_impl. unfold url_safe. intros x H.
  repeat (apply andb_prop in H as [H ?]). now rewrite H, H4.
Qed.

Lemma form_parse_three N1 N2 N3 E1 E2 E3 :
  N1 <> [] -> N2 <> [] -> N3 <> [] ->
  forallb (fun x => negb (x =? 38)) (N1 ++ E1 ++ N2 ++ E2 ++ N3 ++ E3) = true ->
  forallb (fun x => negb (x =? 61)) (N1 ++ N2 ++ N3) = true ->
  form_parse (N1 ++ 61 :: E1 ++ 38 :: N2 ++ 61 :: E2 ++ 38 :: N3 ++ 61 :: E3) =
  [(form_decode N1, form_decode E1); (form_decode N2, form_decode E2);
   (form_decode N3, form_decode E3)].
Proof.
  intros H1 H2 H3 A38 A61.
  rewrite !forallb_app in A38. rewrite !forallb_app in A61.
  apply andb_prop in A38 as [a1 A38]. apply andb_prop in A38 as [e1 A38].
  apply andb_prop in A38 as [a2 A38]. apply andb_prop in A38 as [e2 A38].
  apply andb_prop in A38 as [a3 e3].
  apply andb_prop in A61 as [b1 A61]. apply andb_prop in A61 as [b2 b3].
  unfold form_parse.
  set (R2 := N2 ++ 61 :: E2 ++ 38 :: N3 ++ 61 :: E3).
  replace (N1 ++ 61 :: E1 ++ 38 :: R2) with ((N1 ++ 61 :: E1) ++ 38 :: R2)
    by (now rewrite <- app_assoc).
  rewrite split_on_app by (rewrite forallb_app; cbn [forallb]; rewrite a1, e1; reflexivity).
  subst R2.
  replace (N2 ++ 61 :: E2 ++ 38 :: N3 ++ 61 :: E3) with ((N2 ++ 61 :: E2) ++ 38 :: N3 ++ 61 :: E3)
    by (now rewrite <- app_assoc).
  rewrite split_on_app by (rewrite forallb_app; cbn [forallb]; rewrite a2, e2; reflexivity).
  rewrite split_on_no by (rewrite forallb_app; cbn [forallb]; rewrite a3, e3; reflexivity).
  destruct N1 as [| x1 N1]; [congruence |]. destruct N2 as [| x2 N2]; [congruence |].
  destruct N3 as [| x3 N3]; [congruence |].
  cbn [flat_map].
  rewrite !break_at_app by assumption. reflexivity.
Qed.

Lemma ui_url_shape ext d :
  Background.ui_url ext d =
  (ext ++ js "translator_ui.html") ++ 63 ::
    js "videoId" ++ 61 :: Background.form_encode (Background.videoId d) ++
    38 :: js "videoTitle" ++ 61 :: Background.form_encode (Background.videoTitle d) ++
    38 :: js "fullUrl" ++ 61 :: Background.form_encode (Background.fullUrl d).
Proof.
  unfold Background.ui_url.
  assert (J1 : js "translator_ui.html?videoId=" = js "translator_ui.html" ++ 63 :: js "videoId" ++ [61])
    by (vm_compute; reflexivity).
  assert (J2 : js "&videoTitle=" = 38 :: js "videoTitle" ++ [61]) by (vm_compute; reflexivity).
  assert (J3 : js "&fullUrl=" = 38 :: js "fullUrl" ++ [61]) by (vm_compute; reflexivity).
  rewrite J1, J2, J3. rewrite <- !app_assoc. cbn [app]. rewrite <- !app_assoc. reflexivity.
Qed.

Lemma ui_url_params ext d :
  forallb (fun x => negb (x =? 63) && negb (x =? 35)) ext = true ->
  forallb scalar_value (Background.videoId d) = true ->
  forallb scalar_value (Background.videoTitle d) = true ->
  forallb scalar_value (Background.fullUrl d) = true ->
  let urlParams := url_search_params (location_search (Background.ui_url ext d)) in
  search_get (js "videoId") urlParams = Some (Background.videoId d) /\
  search_get (js "videoTitle") urlParams = Some (Background.videoTitle d) /\
  search_get (js "fullUrl") urlParams = Some (Background.fullUrl d).
Proof.
  intros Hext Hv Ht Hu. cbv zeta. rewrite ui_url_shape.
  pose proof (form_encode_safe _ Hv) as Sv. pose proof (form_encode_safe _ Ht) as St.
  pose proof (form_encode_safe _ Hu) as Su.
  set (E1 := Background.form_encode (Background.videoId d)) in *.
  set (E2 := Background.form_encode (Background.videoTitle d)) in *.
  set (E3 := Background.form_encode (Background.fullUrl d)) in *.
  rewrite location_search_skip by (rewrite forallb_app, Hext; vm_compute; reflexivity).
  remember (js "videoId" ++ 61 :: E1 ++ 38 :: js "videoTitle" ++ 61 :: E2 ++ 38 :: js "fullUrl" ++ 61 :: E3)
    as R eqn:HR.
  assert (RS : forallb url_safe (js "videoId") = true /\ forallb url_safe (js "videoTitle") = true /\
               forallb url_safe (js "fullUrl") = true) by (vm_compute; auto).
  destruct RS as (Q1 & Q2 & Q3).
  assert (R35 : forallb (fun x => negb (x =? 35)) R = true).
  { rewrite HR. repeat (rewrite forallb_app || cbn [forallb]).
    rewrite (url_safe_no35 _ Sv), (url_safe_no35 _ St), (url_safe_no35 _ Su),
      (url_safe_no35 _ Q1), (url_safe_no35 _ Q2), (url_safe_no35 _ Q3). reflexivity. }
  assert (Rasc : forallb (fun b => (0 <=? b) && (b <? 128)) R = true).
  { rewrite HR. repeat (rewrite forallb_app || cbn [forallb]).
    rewrite (url_safe_ascii _ Sv), (url_safe_ascii _ St), (url_safe_ascii _ Su),
      (url_safe_ascii _ Q1), (url_safe_ascii _ Q2), (url_safe_ascii _ Q3). reflexivity. }
  assert (RV : js "videoId" = 118 :: tl (js "videoId")) by (vm_compute; reflexivity).
  assert (RN : R <> []) by (rewrite HR, RV; discriminate).
  cbn [location_search]. cbv beta iota delta [Z.eqb Pos.eqb].
  rewrite take_until_no by exact R35.
  destruct R as [| r0 R0]; [congruence |].
  unfold url_search_params. cbv iota beta.
  rewrite utf8_encode_ascii by exact Rasc. rewrite HR.
  rewrite form_parse_three.
  2, 3, 4: vm_compute; discriminate.
  2: { repeat rewrite forallb_app.
       rewrite (url_safe_no38 _ Sv), (url_safe_no38 _ St), (url_safe_no38 _ Su),
         (url_safe_no38 _ Q1), (url_safe_no38 _ Q2), (url_safe_no38 _ Q3). reflexivity. }
  2: vm_compute; reflexivity.
  unfold E1, E2, E3. rewrite !form_decode_encode by assumption.
  assert (D : form_decode (js "videoId") = js "videoId" /\ form_decode (js "videoTitle") = js "videoTitle" /\
              form_decode (js "fullUrl") = js "fullUrl") by (vm_compute; auto).
  destruct D as (D1 & D2 & D3). rewrite D1, D2, D3.
  unfold search_get. cbn [find fst].
  vm_compute (text_eqb (js "videoId") (js "videoId")).
  vm_compute (text_eqb (js "videoId") (js "videoTitle")).
  vm_compute (text_eqb (js "videoTitle") (js "videoTitle")).
  vm_compute (text_eqb (js "videoId") (js "fullUrl")).
  vm_compute (text_eqb (js "videoTitle") (js "fullUrl")).
  vm_compute (text_eqb (js "fullUrl") (js "fullUrl")).
  repeat split.
Qed.

(** X2: the page the background script opens for a video reads back, with
    [new URLSearchParams(window.location.search)] and [urlParams.get], the
    exact videoId, videoTitle and fullUrl of the message, whatever
    characters they hold ('&', '=', '#', '+', '%', spaces, non-ASCII),
    provided the extension's base URL has no '?' or '#'. *)
Theorem ui_url_params_roundtrip ext d :
  forallb (fun x => negb (x =? 63) && negb (x =? 35)) ext = true ->
  forallb scalar_value (Background.videoId d) = true ->
  forallb scalar_value (Background.videoTitle d) = true ->
  forallb scalar_value (Background.fullUrl d) = true ->
  let urlParams := url_search_params (location_search (Background.ui_url ext d)) in
  search_get (js "videoId") urlParams = Some (Background.videoId d) /\
  search_get (js "videoTitle") urlParams = Some (Background.videoTitle d) /\
  search_get (js "fullUrl") urlParams = Some (Background.fullUrl d).
Proof. exact (ui_url_params ext d). Qed.


Lemma ui_url_params_roundtrip_witness :
  search_get (js "videoTitle")
    (url_search_params (location_search (Background.ui_url (js "chrome-extension://abcdef/") tricky_video)))
  = Some (js "Tom & Jerry = 톰과 제리 #1 + 100%").
Proof.
  exact (proj1 (proj2 (ui_url_params_roundtrip (js "chrome-extension://abcdef/") tricky_video
           ltac:(vm_compute; reflexivity) ltac:(vm_compute; reflexivity)
           ltac:(vm_compute; reflexivity) ltac:(vm_compute; reflexivity)))).
Defined.

(** ** The 'DOMContentLoaded' listener *)

Lemma input_html_transcript_start v q : input_html (transcript_start v q) = loading_html.
Proof. unfold transcript_start, issue. cbn [input_html set_requests]. now rewrite input_html_update_status. Qed.
Lemma requests_transcript_start v q :
  requests (transcript_start v q) = ReqTranscript v (timestamp_checked (form q)) :: requests q.
Proof. unfold transcript_start, issue. cbn [requests set_requests]. now rewrite requests_update_status. Qed.
Lemma store_transcript_start v q : store (transcript_start v q) = store q.
Proof. unfold transcript_start, issue. cbn [store set_requests]. now rewrite store_update_status. Qed.
Lemma form_transcript_start v q : form (transcript_start v q) = form q.
Proof. unfold transcript_start, issue. cbn [form set_requests]. now rewrite form_update_status. Qed.

Lemma input_html_models_start v q : input_html (models_start v q) = input_html q.
Proof. unfold models_start, issue. cbn [input_html set_requests]. now rewrite input_html_update_status. Qed.
Lemma requests_models_start v q : requests (models_start v q) = ReqModels v :: requests q.
Proof. unfold models_start, issue. cbn [requests set_requests]. now rewrite requests_update_status. Qed.
Lemma store_models_start v q : store (models_start v q) = store q.
Proof. unfold models_start, issue. cbn [store set_requests]. now rewrite store_update_status. Qed.
Lemma form_models_start v q : form (models_start v q) = with_model (js "모델 로딩 중...") (form q).
Proof. unfold models_start, issue. cbn [form set_requests]. now rewrite form_update_status. Qed.

Lemma input_html_models_finish s o q : input_html (models_finish s o q) = input_html q.
Proof.
  unfold models_finish. destruct o as [e | [| m0 ms]]; rewrite input_html_update_status; reflexivity.
Qed.
Lemma requests_models_finish s o q : requests (models_finish s o q) = requests q.
Proof.
  unfold models_finish. destruct o as [e | [| m0 ms]]; rewrite requests_update_status; reflexivity.
Qed.
Lemma store_models_finish s o q : store (models_finish s o q) = store q.
Proof.
  unfold models_finish. destruct o as [e | [| m0 ms]]; rewrite store_update_status; reflexivity.
Qed.
Lemma input_text_models_finish s o q : input_text (form (models_finish s o q)) = input_text (form q).
Proof.
  unfold models_finish. destruct o as [e | [| m0 ms]]; rewrite form_update_status; reflexivity.
Qed.

Lemma input_html_transcript_finish t u o q :
  input_html (transcript_finish t u o q) =
  match t with
  | None => input_html q
  | Some title =>
      title_html title ++ url_html (template_value u) ++
      match transcript_result o with
      | inl x => transcript_content x
      | inr e => error_html (err_message e)
      end
  end.
Proof.
  unfold transcript_finish. destruct t as [title |]; [| reflexivity]. cbv zeta.
  destruct (transcript_result o); rewrite input_html_update_status; reflexivity.
Qed.
Lemma requests_transcript_finish t u o q : requests (transcript_finish t u o q) = requests q.
Proof.
  unfold transcript_finish. destruct t; [| reflexivity]. cbv zeta.
  destruct (transcript_result o); rewrite requests_update_status; reflexivity.
Qed.
Lemma store_transcript_finish t u o q : store (transcript_finish t u o q) = store q.
Proof.
  unfold transcript_finish. destruct t; [| reflexivity]. cbv zeta.
  destruct (transcript_result o); rewrite store_update_status; reflexivity.
Qed.
Lemma form_transcript_finish t u o q : form (transcript_finish t u o q) = form q.
Proof.
  unfold transcript_finish. destruct t; [| reflexivity]. cbv zeta.
  destruct (transcript_result o); rewrite form_update_status; reflexivity.
Qed.

Ltac page_simp :=
  repeat (rewrite ?input_html_transcript_start, ?requests_transcript_start, ?store_transcript_start,
            ?form_transcript_start, ?input_html_models_start, ?requests_models_start,
            ?store_models_start, ?form_models_start, ?input_html_models_finish,
            ?requests_models_finish, ?store_models_finish, ?input_text_models_finish,
            ?input_html_transcript_finish, ?requests_transcript_finish,
            ?store_transcript_finish, ?form_transcript_finish;
          cbn [input_html requests store form set_form set_input_html show_placeholder
               input_text with_input with_model with_provider with_streaming with_timestamp
               with_target timestamp_checked]).

(** The listener, for a page whose URL carries a non-empty videoId. *)
Lemma dom_loaded_video_facts search v t_o m_o first p :
  search_get (js "videoId") (url_search_params search) = Some v ->
  truthy v = true ->
  let p' := dom_content_loaded search t_o m_o first p in
  let prov := or_else (get_item "lastUsedProvider" (store p)) (js "gemini") in
  requests p' = ReqModels prov :: ReqTranscript v (stored_true "show_timestamp" (store p)) :: requests p /\
  store p' = store p /\
  input_html p' =
    match search_get (js "videoTitle") (url_search_params search) with
    | None => loading_html
    | Some title =>
        title_html title ++
        url_html (template_value (search_get (js "fullUrl") (url_search_params search))) ++
        match transcript_result t_o with
        | inl x => transcript_content x
        | inr e => error_html (err_message e)
        end
    end.
Proof.
  intros Hv Ht. cbv zeta. unfold dom_content_loaded. cbv zeta. rewrite Hv. cbv beta iota.
  rewrite Ht. destruct first; page_simp; repeat split;
    destruct (search_get (js "videoTitle") (url_search_params search)); reflexivity.
Qed.

(** X3: when the background script opens the translator page for a video,
    the page's 'DOMContentLoaded' listener requests that video's transcript
    (with the stored timestamp preference) and the stored provider's models,
    writes nothing to localStorage, and, once the transcript request is
    answered, shows the video's own title and URL above the transcript or
    the error, whichever request is answered first. *)
Theorem dom_loaded_for_video ext d t_o m_o first p :
  forallb (fun x => negb (x =? 63) && negb (x =? 35)) ext = true ->
  forallb scalar_value (Background.videoId d) = true ->
  forallb scalar_value (Background.videoTitle d) = true ->
  forallb scalar_value (Background.fullUrl d) = true ->
  truthy (Background.videoId d) = true ->
  let p' := dom_content_loaded (location_search (Background.ui_url ext d)) t_o m_o first p in
  let prov := or_else (get_item "lastUsedProvider" (store p)) (js "gemini") in
  requests p' = ReqModels prov ::
                ReqTranscript (Background.videoId d) (stored_true "show_timestamp" (store p)) ::
                requests p /\
  store p' = store p /\
  input_html p' =
    title_html (Background.videoTitle d) ++ url_html (Background.fullUrl d) ++
    match transcript_result t_o with
    | inl x => transcript_content x
    | inr e => error_html (err_message e)
    end.
Proof.
  intros He Hi Hti Hu Ht. cbv zeta.
  destruct (ui_url_params ext d He Hi Hti Hu) as (A & B & C).
  destruct (dom_loaded_video_facts _ _ t_o m_o first p A Ht) as (R & S & I).
  rewrite B, C in I. cbn [template_value] in I. auto.
Qed.

Lemma dom_loaded_for_video_witness :
  input_html (dom_content_loaded
                (location_search (Background.ui_url (js "chrome-extension://abcdef/") tricky_video))
                (TranscriptResponse (Response 200 (BodyJson (JObject [("transcript"%string, js "a < b")]))))
                (ModelsLoaded [js "models/gemini-pro"]) true sample_page) =
  title_html (js "Tom & Jerry = 톰과 제리 #1 + 100%")
    ++ url_html (js "https://www.youtube.com/watch?v=dQw4w9WgXcQ&t=42s") ++
    match transcript_result
            (TranscriptResponse (Response 200 (BodyJson (JObject [("transcript"%string, js "a < b")]))))
    with
    | inl x => transcript_content x
    | inr e => error_html (err_message e)
    end.
Proof.
  exact (proj2 (proj2 (dom_loaded_for_video (js "chrome-extension://abcdef/") tricky_video
           (TranscriptResponse (Response 200 (BodyJson (JObject [("transcript"%string, js "a < b")]))))
           (ModelsLoaded [js "models/gemini-pro"]) true
           sample_page ltac:(vm_compute; reflexivity) ltac:(vm_compute; reflexivity)
           ltac:(vm_compute; reflexivity) ltac:(vm_compute; reflexivity)
           ltac:(vm_compute; reflexivity)))).
Defined.

(** X4: when the URL has a non-empty videoId but no videoTitle, the
    transcript request is still sent, but the input area keeps the loading
    message (the rendering throws on the missing title); with a title but
    no fullUrl, the URL line reads "null". *)
Theorem dom_loaded_missing_params search v t_o m_o first p :
  search_get (js "videoId") (url_search_params search) = Some v ->
  truthy v = true ->
  let p' := dom_content_loaded search t_o m_o first p in
  In (ReqTranscript v (stored_true "show_timestamp" (store p))) (requests p') /\
  (search_get (js "videoTitle") (url_search_params search) = None ->
   input_html p' = loading_html) /\
  (forall title,
   search_get (js "videoTitle") (url_search_params search) = Some title ->
   search_get (js "fullUrl") (url_search_params search) = None ->
   input_html p' =
     title_html title ++ url_html (js "null") ++
     match transcript_result t_o with
     | inl x => transcript_content x
     | inr e => error_html (err_message e)
     end).
Proof.
  intros Hv Ht. cbv zeta.
  destruct (dom_loaded_video_facts _ _ t_o m_o first p Hv Ht) as (R & _ & I).
  split; [rewrite R; right; left; reflexivity |].
  split.
  - intros Hn. rewrite Hn in I. exact I.
  - intros title Hs Hu. rewrite Hs, Hu in I. exact I.
Qed.

Lemma dom_loaded_missing_params_witness :
  input_html (dom_content_loaded (js "?videoId=abc&fullUrl=x") (TranscriptResponse (ok_response (js "hi")))
                (ModelsLoaded []) true sample_page) = loading_html.
Proof.
  exact (proj1 (proj2 (dom_loaded_missing_params (js "?videoId=abc&fullUrl=x") (js "abc")
           (TranscriptResponse (ok_response (js "hi"))) (ModelsLoaded []) true sample_page
           ltac:(vm_compute; reflexivity) ltac:(vm_compute; reflexivity)))
           ltac:(vm_compute; reflexivity)).
Defined.

(** X5: when the URL has no videoId (or an empty one), the listener shows
    the placeholder in the input area (its innerText then being the
    placeholder sentence), requests no transcript, only the stored
    provider's models, and writes nothing to localStorage. *)
Theorem dom_loaded_without_video search t_o m_o first p :
  match search_get (js "videoId") (url_search_params search) with
  | Some v => truthy v
  | None => false
  end = false ->
  let p' := dom_content_loaded search t_o m_o first p in
  let prov := or_else (get_item "lastUsedProvider" (store p)) (js "gemini") in
  input_html p' = placeholder_html /\
  input_text (form p') = placeholder_text /\
  requests p' = ReqModels prov :: requests p /\
  store p' = store p.
Proof.
  intros Hv. cbv zeta. unfold dom_content_loaded. cbv zeta.
  assert (Hf : truthy (match search_get (js "videoId") (url_search_params search) with
                       | Some v => v | None => [] end) = false)
    by (destruct (search_get (js "videoId") (url_search_params search)); [exact Hv | reflexivity]).
  rewrite Hf. destruct first; page_simp; repeat split.
Qed.

Lemma dom_loaded_without_video_witness :
  requests (dom_content_loaded (js "?videoId=&x=1") (TranscriptResponse (ok_response (js "hi")))
              (ModelsLoaded []) false sample_page)
  = ReqModels (or_else (get_item "lastUsedProvider" (store sample_page)) (js "gemini"))
      :: requests sample_page.
Proof.
  exact (proj1 (proj2 (proj2 (dom_loaded_without_video (js "?videoId=&x=1")
           (TranscriptResponse (ok_response (js "hi"))) (ModelsLoaded []) false sample_page
           ltac:(vm_compute; reflexivity))))).
Defined.

(** ** What one translation attempt leaves behind *)

Lemma status_update_status m t s q :
  status_ind (update_status m t s q) = StatusView m t s (s || negb (String.eqb t "info")).
Proof.
  unfold update_status, set_timer. destruct (hide_timeout q); destruct (negb s && String.eqb t "success");
    reflexivity.
Qed.

Lemma progress_update_status m t s q : progress (update_status m t s q) = progress q.
Proof.
  unfold update_status, set_timer. destruct (hide_timeout q); destruct (negb s && String.eqb t "success");
    reflexivity.
Qed.

Lemma requests_finally iid tid q : requests (regular_finally iid tid q) = requests q.
Proof.
  unfold regular_finally. cbn [negb btn_disabled set_editable set_btn_disabled].
  rewrite requests_update_status. reflexivity.
Qed.

Lemma status_finally iid tid q :
  status_ind (regular_finally iid tid q) = StatusView (js "준비 완료") "success" false true.
Proof.
  unfold regular_finally. cbn [negb btn_disabled set_editable set_btn_disabled].
  rewrite status_update_status. reflexivity.
Qed.

Lemma progress_finally iid tid q : progress (regular_finally iid tid q) = progress q.
Proof.
  unfold regular_finally. cbn [negb btn_disabled set_editable set_btn_disabled].
  rewrite progress_update_status. reflexivity.
Qed.

Lemma requests_catch iid e q : requests (regular_catch iid e q) = requests q.
Proof. unfold regular_catch. cbv zeta. rewrite requests_update_status. reflexivity. Qed.

Lemma requests_then2 prov model data q q2 r2 :
  regular_then2 prov model data q = (q2, r2) -> requests q2 = requests q.
Proof.
  unfold regular_then2, set_timer. intros H.
  destruct (json_get data "translated_text"); injection H as <- <-; reflexivity.
Qed.

Lemma requests_regular_chain prov model tid iid res q :
  requests (regular_chain prov model tid iid res q) = requests q.
Proof.
  unfold regular_chain.
  destruct res as [r | e].
  - destruct (regular_then1 tid r q) as [q1 r1] eqn:E1.
    destruct (then1_facts tid r q q1 r1 E1) as [(_ & _ & _ & _ & R1 & _) _].
    destruct r1 as [data | e].
    + destruct (regular_then2 prov model data q1) as [q2 r2] eqn:E2.
      pose proof (requests_then2 _ _ _ _ _ _ E2) as R2.
      destruct r2; rewrite requests_finally, ?requests_catch; congruence.
    + rewrite requests_finally, requests_catch. exact R1.
  - rewrite requests_finally, requests_catch. reflexivity.
Qed.

Lemma status_regular_chain prov model tid iid res q :
  status_ind (regular_chain prov model tid iid res q) =
  StatusView (js "준비 완료") "success" false true.
Proof.
  unfold regular_chain.
  destruct res as [r | e]; [destruct (regular_then1 tid r q) as [q1 [data | e]] |];
    [destruct (regular_then2 prov model data q1) as [q2 [u | e]] | |];
    apply status_finally.
Qed.

(** The chain for an OK response whose body parses and whose
    [translated_text] can be read. *)
Lemma chain_success_view prov model tid iid r data t q :
  response_ok r = true -> response_json r = inl data -> json_get data "translated_text" = inl t ->
  let q' := regular_chain prov model tid iid (FetchResponse r) q in
  output q' = match t with Some x => x | None => [] end /\ pv_width (progress q') = 100.
Proof.
  intros Hok Hj Ht. cbv zeta. unfold regular_chain, regular_then1.
  rewrite Hok, Hj. cbn [negb]. cbv iota. unfold regular_then2. rewrite Ht.
  cbv beta iota zeta delta [set_timer].
  rewrite progress_finally. split.
  - rewrite (proj1 (proj2 (proj2 (finally_facts _ _ _)))). reflexivity.
  - reflexivity.
Qed.

Lemma requests_run_ticks k ph q : requests (snd (run_ticks k ph q)) = requests q.
Proof. destruct (frame_run_ticks k ph q) as (_ & _ & _ & _ & R & _). exact R. Qed.

Lemma requests_fire_timeout tid ctrl q : requests (fire_timeout tid ctrl q) = requests q.
Proof.
  unfold fire_timeout. cbn [requests set_editable set_btn_disabled hide_progress set_progress].
  rewrite requests_update_status. reflexivity.
Qed.

(** A single-shot attempt that gets past the checks issues its request and
    then runs the promise chain: on the fetch's result when it settles
    within 180 s, on the abort otherwise. *)
Lemma handle_regular_chain o p :
  model_rejected (model_value (form p)) = false ->
  truthy (js_trim (input_text (form p))) = true ->
  let f := form p in
  exists tid iid res q,
    handle_regular o p = regular_chain (provider_value f) (model_value f) tid iid res q /\
    requests q = ReqTranslate (input_text f) (model_value f) (target_value f) (notify_checked f)
                 :: requests p /\
    (forall secs r, o = Settles secs r -> (secs < 180)%nat -> res = r).
Proof.
  intros Hm Ht. cbv zeta.
  unfold handle_regular. rewrite Ht. unfold model_rejected in Hm. rewrite Hm.
  cbv beta iota zeta delta [negb new_controller set_timer].
  destruct o as [secs res |]; [destruct (Nat.ltb_spec secs 180) as [Hlt | Hge] |];
    (eexists _, _, _, _; split; [reflexivity | split]);
    rewrite ?requests_fire_timeout, ?requests_run_ticks;
    cbn [requests issue set_requests set_timers update_progress_bar show_progress set_progress
         set_editable set_btn_disabled];
    rewrite ?requests_update_status; try reflexivity.
  - intros secs' r' E _. injection E as <- <-. reflexivity.
  - intros secs' r' E Hlt. injection E as <- _. lia.
  - intros secs' r' E. discriminate.
Qed.

Lemma requests_stream_catch e q : requests (stream_catch e q) = requests q.
Proof. unfold stream_catch. destruct (String.eqb (err_name e) "AbortError"); now rewrite requests_update_status. Qed.

Lemma stream_catch_status e q :
  st_text (status_ind (stream_catch e q)) =
  (if String.eqb (err_name e) "AbortError" then js "번역 취소됨" else js "오류: " ++ err_message e).
Proof. unfold stream_catch. destruct (String.eqb (err_name e) "AbortError"); apply update_status_text. Qed.

(** The streaming handler past its check, up to its [finally] block. *)
Lemma handle_stream_body so p :
  truthy (js_trim (input_text (form p))) = true ->
  let f := form p in
  exists ps ctrl,
    requests ps = ReqTranslateStream (input_text f) (model_value f) (target_value f) (notify_checked f)
                  :: requests p /\
    handle_stream so p =
      (let p :=
         match so with
         | StreamFetchError e => stream_catch e ps
         | StreamResponse r chunks ending =>
             if negb (response_ok r) then stream_catch (stream_http_error r) ps
             else
               let '(_, out) := read_loop new_TextDecoder (output ps) chunks in
               let p := set_output out ps in
               match ending with
               | None => update_status (js "스트리밍 완료") "success" false p
               | Some e => stream_catch e p
               end
         end in
       let p := set_unload_handlers
                  (filter (fun h => negb (Nat.eqb h ctrl)) (unload_handlers p)) p in
       let p := set_btn_disabled false p in
       set_editable true p).
Proof.
  intros Ht. cbv zeta. unfold handle_stream. rewrite Ht.
  cbv beta iota zeta delta [negb new_controller].
  eexists _, _. split; [| reflexivity].
  cbn [requests issue set_requests set_unload_handlers set_timers].
  rewrite requests_update_status. reflexivity.
Qed.

(** X6: a click on the translate button with a non-blank input issues
    exactly one request: a streaming one when the streaming box is checked
    (whatever the model select holds), a single-shot one otherwise
    (provided a usable model is selected), carrying the input text, model,
    target language and notify flag read when the click happened. *)
Theorem translate_click_one_request o so p :
  truthy (js_trim (input_text (form p))) = true ->
  (streaming_checked (form p) = false -> model_rejected (model_value (form p)) = false) ->
  let f := form p in
  requests (translate_click o so p) =
    (if streaming_checked f
     then ReqTranslateStream (input_text f) (model_value f) (target_value f) (notify_checked f)
     else ReqTranslate (input_text f) (model_value f) (target_value f) (notify_checked f))
    :: requests p.
Proof.
  intros Ht Hm. cbv zeta. unfold translate_click.
  destruct (streaming_checked (form p)) eqn:Es.
  - destruct (handle_stream_body so p Ht) as (ps & ctrl & R & ->). cbv zeta.
    cbn [requests set_editable set_btn_disabled set_unload_handlers].
    destruct so as [e | r chunks ending].
    + now rewrite requests_stream_catch.
    + destruct (negb (response_ok r)); [now rewrite requests_stream_catch |].
      destruct (read_loop new_TextDecoder (output ps) chunks) as [td out].
      destruct ending; rewrite ?requests_stream_catch, ?requests_update_status; exact R.
  - destruct (handle_regular_chain o p (Hm eq_refl) Ht) as (tid & iid & res & q & -> & R & _).
    rewrite requests_regular_chain. exact R.
Qed.

Lemma translate_click_one_request_witness :
  requests (translate_click NeverSettles (StreamFetchError abort_error) sample_page) =
  [ReqTranslate (js "hello") (js "models/gemini-pro") (js "ko") false].
Proof.
  exact (translate_click_one_request NeverSettles (StreamFetchError abort_error) sample_page
           ltac:(vm_compute; reflexivity) (fun _ => ltac:(vm_compute; reflexivity))).
Defined.

(** X7: every single-shot attempt that gets past the checks ends with the
    status indicator reading '준비 완료' in the success style, also after
    a server error, a network error or the 180 s timeout: the [finally]
    block overwrites the error status, which is then only visible in the
    output area (after a success, the timer set for 500 ms later is still
    pending and will show the character count). *)
Theorem regular_attempt_ends_ready o p :
  model_rejected (model_value (form p)) = false ->
  truthy (js_trim (input_text (form p))) = true ->
  status_ind (handle_regular o p) = StatusView (js "준비 완료") "success" false true.
Proof.
  intros Hm Ht.
  destruct (handle_regular_chain o p Hm Ht) as (tid & iid & res & q & -> & _ & _).
  apply status_regular_chain.
Qed.

Lemma regular_attempt_ends_ready_witness :
  st_text (status_ind (handle_regular NeverSettles sample_page)) = js "준비 완료" /\
  output (handle_regular NeverSettles sample_page) = msg_timeout.
Proof.
  split; [| vm_compute; reflexivity].
  rewrite (regular_attempt_ends_ready NeverSettles sample_page
             ltac:(vm_compute; reflexivity) ltac:(vm_compute; reflexivity)).
  reflexivity.
Defined.

(** X8: when the single-shot response arrives within 180 s, is OK, and its
    body is a JSON object, the output area shows its translated_text (empty
    when the field is absent) and the progress bar is at 100%. *)
Theorem regular_success_output o p secs r data t :
  model_rejected (model_value (form p)) = false ->
  truthy (js_trim (input_text (form p))) = true ->
  o = Settles secs (FetchResponse r) -> (secs < 180)%nat ->
  response_ok r = true -> response_json r = inl data ->
  json_get data "translated_text" = inl t ->
  output (handle_regular o p) = match t with Some x => x | None => [] end /\
  pv_width (progress (handle_regular o p)) = 100.
Proof.
  intros Hm Ht Ho Hlt Hok Hj Htt.
  destruct (handle_regular_chain o p Hm Ht) as (tid & iid & res & q & -> & _ & Hres).
  rewrite (Hres secs (FetchResponse r) Ho Hlt).
  exact (chain_success_view _ _ tid iid r data t q Hok Hj Htt).
Qed.

Lemma regular_success_output_witness :
  output (handle_regular (Settles 2 (FetchResponse (ok_response (js "안녕하세요")))) sample_page)
  = js "안녕하세요".
Proof.
  exact (proj1 (regular_success_output _ sample_page 2 (ok_response (js "안녕하세요"))
           (JObject [("translated_text"%string, js "안녕하세요")]) (Some (js "안녕하세요"))
           ltac:(vm_compute; reflexivity) ltac:(vm_compute; reflexivity) eq_refl
           ltac:(lia) ltac:(vm_compute; reflexivity) ltac:(vm_compute; reflexivity)
           ltac:(vm_compute; reflexivity))).
Defined.

(** X9: when the single-shot fetch rejects within 180 s with error [e], the
    output area shows the message [.catch] derives from [e]; for a
    TypeError whose message mentions 'fetch' (the browser's network
    failure) that is the 'server unreachable' message. *)
Theorem regular_network_error o p secs e :
  model_rejected (model_value (form p)) = false ->
  truthy (js_trim (input_text (form p))) = true ->
  o = Settles secs (FetchError e) -> (secs < 180)%nat ->
  output (handle_regular o p) = friendly_message e /\
  (String.eqb (err_name e) "TypeError" = true -> includes (err_message e) (js "fetch") = true ->
   output (handle_regular o p) = msg_unreachable).
Proof.
  intros Hm Ht Ho Hlt.
  destruct (handle_regular_chain o p Hm Ht) as (tid & iid & res & q & -> & _ & Hres).
  rewrite (Hres secs (FetchError e) Ho Hlt), chain_error_output.
  split; [reflexivity |].
  intros Hn Hf. unfold friendly_message.
  destruct (String.eqb_spec (err_name e) "AbortError") as [E | _].
  - rewrite E in Hn. discriminate.
  - rewrite Hn, Hf. reflexivity.
Qed.

Lemma regular_network_error_witness :
  output (handle_regular (Settles 0 (FetchError (JsError "TypeError" (js "Failed to fetch"))))
            sample_page) = msg_unreachable.
Proof.
  exact (proj2 (regular_network_error _ sample_page 0 (JsError "TypeError" (js "Failed to fetch"))
           ltac:(vm_compute; reflexivity) ltac:(vm_compute; reflexivity) eq_refl ltac:(lia))
           eq_refl ltac:(vm_compute; reflexivity)).
Defined.

(** X10: when a streaming attempt fails (the fetch rejects, or the reader
    rejects after an OK response, possibly after some chunks were shown),
    the output area is replaced by the cancellation notice for an
    AbortError ('번역 취소됨' in the status) and by '오류: ' and the
    error message otherwise: text already streamed is discarded. *)
Theorem stream_failure_output so p e :
  truthy (js_trim (input_text (form p))) = true ->
  (so = StreamFetchError e \/ exists r chunks, so = StreamResponse r chunks (Some e) /\ response_ok r = true) ->
  let p' := handle_stream so p in
  output p' = (if String.eqb (err_name e) "AbortError" then msg_cancelled else js "오류: " ++ err_message e) /\
  st_text (status_ind p') =
    (if String.eqb (err_name e) "AbortError" then js "번역 취소됨" else js "오류: " ++ err_message e).
Proof.
  intros Ht Hso. cbv zeta.
  destruct (handle_stream_body so p Ht) as (ps & ctrl & _ & ->). cbv zeta.
  cbn [output status_ind set_editable set_btn_disabled set_unload_handlers].
  destruct Hso as [-> | (r & chunks & -> & Hok)].
  - split; [apply stream_catch_facts | apply stream_catch_status].
  - rewrite Hok. cbn [negb]. destruct (read_loop new_TextDecoder (output ps) chunks) as [td out].
    split; [apply stream_catch_facts | apply stream_catch_status].
Qed.

Lemma stream_failure_output_witness :
  output (handle_stream (StreamResponse (ok_response []) [[236; 149; 136]] (Some abort_error))
            sample_page) = msg_cancelled.
Proof.
  refine (proj1 (stream_failure_output
           (StreamResponse (ok_response []) [[236; 149; 136]] (Some abort_error)) sample_page abort_error
           _ _)).
  - vm_compute. reflexivity.
  - right. exists (ok_response []), [[236; 149; 136]]. split; [reflexivity | vm_compute; reflexivity].
Defined.

(** ** The model list and the single-shot check *)

Lemma load_models_input_text prov sel mo p :
  input_text (form (load_models_for_provider prov sel mo p)) = input_text (form p).
Proof.
  unfold load_models_for_provider.
  destruct mo as [e | [| m0 ms]]; rewrite form_update_status; cbn [form set_form issue set_requests];
    rewrite ?form_update_status; reflexivity.
Qed.

Lemma load_models_model prov sel mo p :
  model_value (form (load_models_for_provider prov sel mo p)) =
  match mo with
  | ModelsFailed _ => js "모델 로딩 실패"
  | ModelsLoaded [] => js "사용 가능한 모델 없음"
  | ModelsLoaded ((m0 :: _) as models) =>
      match sel with
      | Some s => if truthy s then (if existsb (text_eqb s) models then s else []) else m0
      | None => m0
      end
  end.
Proof.
  unfold load_models_for_provider.
  destruct mo as [e | [| m0 ms]]; rewrite form_update_status; cbn [form set_form issue set_requests];
    rewrite ?form_update_status; reflexivity.
Qed.

(** X11: when the model list cannot be used (the request failed, the list is
    empty, or the remembered model is not in it, which leaves no option
    selected), a later single-shot attempt with a non-blank input is
    refused with the 'select a model first' status and sends no request. *)
Theorem unusable_models_refused prov sel mo o p :
  truthy (js_trim (input_text (form p))) = true ->
  match mo with
  | ModelsFailed _ => True
  | ModelsLoaded [] => True
  | ModelsLoaded ms => exists s, sel = Some s /\ truthy s = true /\ existsb (text_eqb s) ms = false
  end ->
  let p' := load_models_for_provider prov sel mo p in
  handle_regular o p' = update_status msg_select_model "error" false p' /\
  requests (handle_regular o p') = requests p'.
Proof.
  intros Ht Hmo. cbv zeta.
  assert (Hr : model_rejected (model_value (form (load_models_for_provider prov sel mo p))) = true).
  { rewrite load_models_model.
    destruct mo as [e | [| m0 ms]]; [vm_compute; reflexivity | vm_compute; reflexivity |].
    destruct Hmo as (s & -> & Hs & Hn). rewrite Hs. cbn [existsb]. cbn [existsb] in Hn.
    rewrite Hn. reflexivity. }
  assert (E : handle_regular o (load_models_for_provider prov sel mo p) =
              update_status msg_select_model "error" false (load_models_for_provider prov sel mo p)).
  { unfold handle_regular. rewrite load_models_input_text, Ht. unfold model_rejected in Hr.
    rewrite Hr. reflexivity. }
  split; [exact E | rewrite E; apply requests_update_status].
Qed.

Lemma unusable_models_refused_witness :
  requests (handle_regular NeverSettles
              (load_models_for_provider (js "gemini") (Some (js "gone"))
                 (ModelsLoaded [js "models/gemini-pro"]) sample_page))
  = [ReqModels (js "gemini")].
Proof.
  assert (Hs : exists s, Some (js "gone") = Some s /\ truthy s = true /\
                         existsb (text_eqb s) [js "models/gemini-pro"] = false).
  { exists (js "gone"). split; [reflexivity | split; vm_compute; reflexivity]. }
  rewrite (proj2 (unusable_models_refused (js "gemini") (Some (js "gone"))
             (ModelsLoaded [js "models/gemini-pro"]) NeverSettles sample_page
             ltac:(vm_compute; reflexivity) Hs)).
  vm_compute. reflexivity.
Defined.

(** ** The progress modal while waiting *)

Lemma progress_steps_last : (length progress_steps - 1 = 4)%nat.
Proof. reflexivity. Qed.

(** X12: from the initial phase, [k >= 1] runs of the progress interval
    leave phase [min k 4]: the modal shows that step's text and a width of
    [10 + 20 * phase] percent, so it stops at '완료 처리중...' and 90% from
    the fourth second on. *)
Theorem run_ticks_progress k p :
  (1 <= k)%nat ->
  let '(phase, p') := run_ticks k 0 p in
  phase = Nat.min k 4 /\
  progress p' = ProgressView true (progress_step phase) (10 + Z.of_nat phase * 20) /\
  10 + Z.of_nat phase * 20 <= 90.
Proof.
  intros Hk.
  assert (G : forall k ph q, (ph <= 4)%nat ->
            let '(phase, q') := run_ticks (S k) ph q in
            phase = Nat.min (ph + S k) 4 /\
            progress q' = ProgressView true (progress_step phase) (10 + Z.of_nat phase * 20)).
  { clear. induction k as [| k IH]; intros ph q Hph.
    - cbn [run_ticks]. rewrite progress_steps_last. split; [lia | reflexivity].
    - change (run_ticks (S (S k)) ph q) with
        (run_ticks (S k) (Nat.min (S ph) (length progress_steps - 1))
           (update_progress_bar (10 + Z.of_nat (Nat.min (S ph) (length progress_steps - 1)) * 20)
              (show_progress (progress_step (Nat.min (S ph) (length progress_steps - 1))) q))).
      rewrite progress_steps_last.
      specialize (IH (Nat.min (S ph) 4)
                    (update_progress_bar (10 + Z.of_nat (Nat.min (S ph) 4) * 20)
                       (show_progress (progress_step (Nat.min (S ph) 4)) q)) ltac:(lia)).
      destruct (run_ticks (S k) _ _) as [phase q']. destruct IH as [IH1 IH2].
      split; [lia | exact IH2]. }
  destruct k as [| k]; [lia |].
  specialize (G k 0%nat p ltac:(lia)). destruct (run_ticks (S k) 0 p) as [phase p'].
  destruct G as [G1 G2]. split; [lia | split; [exact G2 | lia]].
Qed.

Lemma run_ticks_progress_witness :
  pv_width (progress (snd (run_ticks 60 0 sample_page))) = 90.
Proof.
  pose proof (run_ticks_progress 60 sample_page ltac:(lia)) as H.
  destruct (run_ticks 60 0 sample_page) as [phase p'] eqn:E. destruct H as (-> & Hp & _).
  cbn [snd]. rewrite Hp. reflexivity.
Defined.

(** ** The status indicator's fade-out timer *)

Lemma nodup_map_filter {A B} (f : A -> B) g (l : list A) :
  NoDup (map f l) -> NoDup (map f (filter g l)).
Proof.
  induction l as [| a l IH]; intros H; cbn [filter map]; [constructor |].
  inversion H as [| x y Hn Hd]; subst.
  destruct (g a); cbn [map]; [| now apply IH].
  constructor; [| now apply IH].
  intros Hin. apply Hn. apply in_map_iff in Hin as (b & Hb & Hin). apply filter_In in Hin as [Hin _].
  rewrite <- Hb. now apply in_map.
Qed.

Lemma nodup_map_inj {A B} (f : A -> B) (l : list A) x y :
  NoDup (map f l) -> In x l -> In y l -> f x = f y -> x = y.
Proof.
  induction l as [| a l IH]; intros H Hx Hy Hf; [destruct Hx |].
  inversion H as [| z w Hn Hd]; subst.
  destruct Hx as [<- | Hx]; destruct Hy as [<- | Hy]; auto.
  - exfalso. apply Hn. rewrite Hf. now apply in_map.
  - exfalso. apply Hn. rewrite <- Hf. now apply in_map.
Qed.

(** Under [fade_inv] at most one fade-out timer is pending. *)
Lemma fade_inv_unique q e1 e2 :
  fade_inv q -> In e1 (timers q) -> In e2 (timers q) ->
  snd e1 = StatusFade -> snd e2 = StatusFade -> e1 = e2.
Proof.
  intros (Hd & _ & Hf) H1 H2 F1 F2.
  apply (nodup_map_inj fst (timers q)); auto.
  pose proof (Hf e1 H1 F1) as A. pose proof (Hf e2 H2 F2) as B. congruence.
Qed.

(** X13: [updateStatus] keeps the bookkeeping of the fade-out timer: pending
    timer ids are distinct and below the next id, and every pending fade
    timer is the one [hideTimeout] names; so, from a page where this holds,
    however many status updates follow each other, at most one fade-out is
    pending. *)
Theorem update_status_single_fade m t s p :
  fade_inv p ->
  fade_inv (update_status m t s p) /\
  (forall e1 e2, In e1 (timers (update_status m t s p)) -> In e2 (timers (update_status m t s p)) ->
     snd e1 = StatusFade -> snd e2 = StatusFade -> e1 = e2).
Proof.
  intros Hi.
  assert (Hinv : fade_inv (update_status m t s p)).
  { destruct Hi as (Hd & Hb & Hf).
    set (p1 := match hide_timeout p with
               | Some id => set_hide_timeout None (clear_timer id p)
               | None => p
               end).
    assert (C : NoDup (map fst (timers p1)) /\
                (forall e, In e (timers p1) -> (fst e < next_id p1)%nat) /\
                (forall e, In e (timers p1) -> snd e <> StatusFade) /\
                (hide_timeout p1 = None \/ p1 = p /\ hide_timeout p = None)).
    { subst p1. destruct (hide_timeout p) as [id |] eqn:Eh.
      - cbn [timers next_id hide_timeout set_hide_timeout clear_timer set_timers].
        split; [now apply nodup_map_filter | split; [| split; [| now left]]].
        + intros e He. apply filter_In in He as [He _]. now apply Hb.
        + intros e He Hs. apply filter_In in He as [He Hn].
          pose proof (Hf e He Hs) as Ee. injection Ee as Ee.
          rewrite Ee, Nat.eqb_refl in Hn. discriminate.
      - split; [exact Hd | split; [exact Hb | split; [| now right]]].
        intros e He Hs. pose proof (Hf e He Hs). discriminate. }
    destruct C as (Cd & Cb & Cf & Ch).
    unfold update_status, set_timer. fold p1.
    destruct (negb s && String.eqb t "success").
    + unfold fade_inv. cbn [timers next_id hide_timeout set_hide_timeout set_timers set_status_ind].
      split; [| split].
      * constructor; [| exact Cd]. intros Hin. apply in_map_iff in Hin as (e & Ee & He).
        pose proof (Cb e He). cbn [fst] in Ee. lia.
      * intros e [<- | He]; [cbn [fst]; lia | pose proof (Cb e He); lia].
      * intros e [<- | He] Hs; [reflexivity | now destruct (Cf e He)].
    + unfold fade_inv. cbn [timers next_id hide_timeout set_status_ind].
      split; [exact Cd | split; [exact Cb |]]. intros e He Hs. now destruct (Cf e He). }
  split; [exact Hinv |]. intros e1 e2. now apply fade_inv_unique.
Qed.

Lemma fade_inv_sample : fade_inv sample_page.
Proof. split; [constructor | split; intros e []]. Qed.

Lemma update_status_single_fade_witness :
  fade_inv (update_status (js "완료") "success" false
              (update_status (js "자막 로드 완료") "success" false sample_page)).
Proof.
  exact (proj1 (update_status_single_fade (js "완료") "success" false _
           (proj1 (update_status_single_fade (js "자막 로드 완료") "success" false sample_page
                     fade_inv_sample)))).
Defined.

(** ** The translator tab across messages and tab closings *)

Lemma find_none_filter_id id ts :
  find (fun t => Background.tab_id t =? id)
    (filter (fun t => negb (Background.tab_id t =? id)) ts) = None.
Proof.
  induction ts as [| t ts IH]; [reflexivity |].
  cbn [filter]. destruct (Background.tab_id t =? id) eqn:E; cbn [negb]; [exact IH |].
  cbn [find]. rewrite E. exact IH.
Qed.

Lemma find_app_fresh (n : Z) u ts :
  (forall t, In t ts -> Background.tab_id t < n) ->
  find (fun t => Background.tab_id t =? n) (ts ++ [Background.Tab n u]) = Some (Background.Tab n u).
Proof.
  induction ts as [| t ts IH]; intros H.
  - cbn. now rewrite Z.eqb_refl.
  - cbn [app find]. destruct (Z.eqb_spec (Background.tab_id t) n) as [E | _].
    + pose proof (H t (or_introl eq_refl)). lia.
    + apply IH. intros t' Ht'. apply H. now right.
Qed.

Lemma map_update_fresh (n : Z) u u' ts :
  (forall t, In t ts -> Background.tab_id t < n) ->
  map (fun t => if Background.tab_id t =? n then Background.Tab n u' else t) (ts ++ [Background.Tab n u])
  = ts ++ [Background.Tab n u'].
Proof.
  induction ts as [| t ts IH]; intros H.
  - cbn. now rewrite Z.eqb_refl.
  - cbn [app map]. destruct (Z.eqb_spec (Background.tab_id t) n) as [E | _].
    + pose proof (H t (or_introl eq_refl)). lia.
    + f_equal. apply IH. intros t' Ht'. apply H. now right.
Qed.

Lemma create_translator_tab_eq u b :
  Background.next_tab b <> 0 ->
  Background.createTranslatorTab u b =
  Background.Browser (Background.tabs b ++ [Background.Tab (Background.next_tab b) u])
    (Some (Background.next_tab b)) (Some (Background.next_tab b)) (Background.next_tab b + 1).
Proof.
  intros Hn. unfold Background.createTranslatorTab, Background.tabs_create.
  cbn [Background.tab_id]. destruct (Z.eqb_spec (Background.next_tab b) 0) as [E | _];
    [contradiction |]. reflexivity.
Qed.

(** X14: starting with no translator tab recorded, two 'showVideoId'
    messages in a row open exactly one tab: the first creates it at the
    first video's page and records its id, the second navigates that same
    tab to the second video's page and focuses it. *)
Theorem show_twice_one_tab ext d1 d2 b :
  tabs_wf b ->
  Background.translatorTabId b = None ->
  truthy (Background.videoId d1) = true ->
  truthy (Background.videoId d2) = true ->
  let b2 := Background.on_message ext "showVideoId" (Some d2)
              (Background.on_message ext "showVideoId" (Some d1) b) in
  Background.tabs b2 = Background.tabs b ++ [Background.Tab (Background.next_tab b)
                                               (Background.ui_url ext d2)] /\
  Background.focused b2 = Some (Background.next_tab b) /\
  Background.translatorTabId b2 = Some (Background.next_tab b).
Proof.
  intros (Hpos & Hids) Hs H1 H2. cbv zeta.
  assert (Hb1 : Background.on_message ext "showVideoId" (Some d1) b =
                Background.Browser
                  (Background.tabs b ++ [Background.Tab (Background.next_tab b) (Background.ui_url ext d1)])
                  (Some (Background.next_tab b)) (Some (Background.next_tab b))
                  (Background.next_tab b + 1)).
  { unfold Background.on_message. rewrite String.eqb_refl, H1.
    unfold Background.reuseOrCreateTab. rewrite Hs. apply create_translator_tab_eq. lia. }
  rewrite Hb1. unfold Background.on_message, Background.reuseOrCreateTab. rewrite String.eqb_refl, H2.
  cbn [Background.translatorTabId].
  destruct (Z.eqb_spec (Background.next_tab b) 0) as [E | _]; [lia |]. cbn [negb].
  unfold Background.tabs_get. cbn [Background.tabs].
  rewrite (find_app_fresh _ _ _ (fun t Ht => proj2 (Hids t Ht))).
  unfold Background.tabs_update, Background.set_focused, Background.set_tabs.
  cbn [Background.tabs Background.focused Background.translatorTabId Background.tab_id].
  rewrite (map_update_fresh _ _ _ _ (fun t Ht => proj2 (Hids t Ht))).
  repeat split.
Qed.

Lemma show_twice_one_tab_witness :
  length (Background.tabs (Background.on_message (js "chrome-extension://x/") "showVideoId"
            (Some sample_video) (Background.on_message (js "chrome-extension://x/") "showVideoId"
               (Some sample_video) (Background.set_translatorTabId None sample_browser)))) =
  S (length (Background.tabs sample_browser)).
Proof.
  destruct (show_twice_one_tab (js "chrome-extension://x/") sample_video sample_video
              (Background.set_translatorTabId None sample_browser)) as (T & _ & _).
  - split; [vm_compute; reflexivity |]. intros t Ht. vm_compute in Ht.
    destruct Ht as [<- | [<- | []]]; vm_compute; split; reflexivity.
  - reflexivity.
  - vm_compute. reflexivity.
  - vm_compute. reflexivity.
  - rewrite T, length_app. cbn [length]. rewrite Nat.add_1_r. reflexivity.
Defined.

(** X15: closing the translator tab clears the recorded id, so the next
    'showVideoId' message creates a new tab (it does not look the closed
    one up); closing any other tab keeps the recorded id. *)
Theorem close_translator_tab ext d id b :
  Background.next_tab b <> 0 ->
  Background.translatorTabId b = Some id ->
  let b1 := Background.on_removed id b in
  Background.translatorTabId b1 = None /\
  Background.tabs_get id b1 = None /\
  (truthy (Background.videoId d) = true ->
   let b2 := Background.on_message ext "showVideoId" (Some d) b1 in
   Background.tabs b2 = Background.tabs b1 ++ [Background.Tab (Background.next_tab b)
                                                 (Background.ui_url ext d)] /\
   Background.translatorTabId b2 = Some (Background.next_tab b)) /\
  (forall id', id' <> id -> Background.translatorTabId (Background.on_removed id' b) = Some id).
Proof.
  intros Hn Hs. cbv zeta.
  assert (Hb1 : Background.on_removed id b =
                Background.Browser (filter (fun t => negb (Background.tab_id t =? id)) (Background.tabs b))
                  (Background.focused b) None (Background.next_tab b)).
  { unfold Background.on_removed, Background.set_tabs. cbn [Background.translatorTabId].
    rewrite Hs, Z.eqb_refl. reflexivity. }
  rewrite Hb1. split; [reflexivity | split].
  - unfold Background.tabs_get. cbn [Background.tabs]. apply find_none_filter_id.
  - split.
    + intros Hv. unfold Background.on_message. rewrite String.eqb_refl, Hv.
      unfold Background.reuseOrCreateTab. cbn [Background.translatorTabId].
      rewrite create_translator_tab_eq by exact Hn. split; reflexivity.
    + intros id' Hne. unfold Background.on_removed, Background.set_tabs.
      cbn [Background.translatorTabId]. rewrite Hs.
      destruct (Z.eqb_spec id id') as [E | _]; [congruence | reflexivity].
Qed.

Lemma close_translator_tab_witness :
  Background.translatorTabId (Background.on_removed 5 sample_browser) = None.
Proof.
  exact (proj1 (close_translator_tab (js "chrome-extension://x/") sample_video 5 sample_browser
           ltac:(discriminate) eq_refl)).
Defined.

(** ** The input area's placeholder *)

Lemma text_eqb_refl t : text_eqb t t = true.
Proof. induction t as [| a t IH]; [reflexivity |]. cbn [text_eqb]. now rewrite Z.eqb_refl, IH. Qed.

Lemma js_trim_placeholder : js_trim placeholder_text = placeholder_text.
Proof. vm_compute. reflexivity. Qed.

(** X16: on a page opened without a video, where the placeholder and its
    focus and blur handlers are installed: focusing the input area while it
    shows the placeholder empties it, and leaving it empty brings the
    placeholder back exactly; an input holding other non-blank text is
    left alone by both handlers. The
    placeholder is real text: a single-shot attempt made without focusing
    the area sends the placeholder sentence to be translated. *)
Theorem placeholder_focus_blur o p :
  on_input_focus (show_placeholder p) = set_form (with_input [] (form p)) (set_input_html [] (show_placeholder p)) /\
  on_input_blur (on_input_focus (show_placeholder p)) = show_placeholder p /\
  (truthy (js_trim (input_text (form p))) = true ->
   text_eqb (js_trim (input_text (form p))) placeholder_text = false ->
   on_input_focus p = p /\ on_input_blur p = p) /\
  (model_rejected (model_value (form p)) = false ->
   requests (handle_regular o (show_placeholder p)) =
     ReqTranslate placeholder_text (model_value (form p)) (target_value (form p)) (notify_checked (form p))
     :: requests p).
Proof.
  assert (F : on_input_focus (show_placeholder p) =
              set_form (with_input [] (form p)) (set_input_html [] (show_placeholder p))).
  { unfold on_input_focus, show_placeholder at 1. cbn [form set_form set_input_html input_text with_input].
    rewrite js_trim_placeholder, text_eqb_refl. reflexivity. }
  split; [exact F | split; [| split]].
  - rewrite F. reflexivity.
  - intros Ht Hn. unfold on_input_focus, on_input_blur. rewrite Hn. split; [reflexivity |].
    destruct (js_trim (input_text (form p))); [discriminate | reflexivity].
  - intros Hm.
    assert (Ht : truthy (js_trim (input_text (form (show_placeholder p)))) = true)
      by (cbn [show_placeholder form set_form input_text with_input]; rewrite js_trim_placeholder;
          reflexivity).
    destruct (handle_regular_chain o (show_placeholder p) Hm Ht) as (tid & iid & res & q & -> & R & _).
    rewrite requests_regular_chain, R. reflexivity.
Qed.

Lemma placeholder_focus_blur_witness :
  requests (handle_regular NeverSettles (show_placeholder sample_page)) =
  [ReqTranslate placeholder_text (js "models/gemini-pro") (js "ko") false].
Proof.
  exact (proj2 (proj2 (proj2 (placeholder_focus_blur NeverSettles sample_page)))
           ltac:(vm_compute; reflexivity)).
Defined.

(** ** The checkbox preferences across a reload *)

Lemma stored_true_set k b st : stored_true k (set_item k (bool_text b) st) = b.
Proof. unfold stored_true. rewrite get_set_item. destruct b; vm_compute; reflexivity. Qed.

Lemma checks_models_finish s o q :
  timestamp_checked (form (models_finish s o q)) = timestamp_checked (form q) /\
  streaming_checked (form (models_finish s o q)) = streaming_checked (form q).
Proof.
  unfold models_finish. destruct o as [e | [| m0 ms]]; rewrite form_update_status; split; reflexivity.
Qed.

Lemma dom_loaded_checks search t_o m_o first q :
  timestamp_checked (form (dom_content_loaded search t_o m_o first q)) =
    stored_true "show_timestamp" (store q) /\
  streaming_checked (form (dom_content_loaded search t_o m_o first q)) =
    stored_true "use_streaming" (store q).
Proof.
  unfold dom_content_loaded. cbv zeta.
  destruct (truthy (match search_get (js "videoId") (url_search_params search) with
                    | Some v => v | None => [] end));
    destruct first; page_simp;
    rewrite ?(proj1 (checks_models_finish _ _ _)), ?(proj2 (checks_models_finish _ _ _));
    page_simp; split; reflexivity.
Qed.

Lemma store_on_timestamp_change c vid title url o p :
  store (on_timestamp_change c vid title url o p) = set_item "show_timestamp" (bool_text c) (store p).
Proof.
  unfold on_timestamp_change. cbv zeta.
  destruct (truthy vid); [rewrite store_fetch_transcript |]; reflexivity.
Qed.

Lemma stored_true_set_other k k' v st :
  k <> k' -> stored_true k (set_item k' v st) = stored_true k st.
Proof. intros Hne. unfold stored_true. now rewrite get_set_item_other. Qed.

Lemma run_checkbox_events_stored evs p :
  stored_true "show_timestamp" (store (run_checkbox_events evs p)) =
    last_timestamp_choice evs (stored_true "show_timestamp" (store p)) /\
  stored_true "use_streaming" (store (run_checkbox_events evs p)) =
    last_streaming_choice evs (stored_true "use_streaming" (store p)).
Proof.
  revert p. induction evs as [| e evs IH]; intros p; [split; reflexivity |].
  unfold run_checkbox_events. cbn [fold_left]. fold (run_checkbox_events evs (run_checkbox_event p e)).
  rewrite (proj1 (IH _)), (proj2 (IH _)).
  destruct e as [c v t u o | c]; cbn [run_checkbox_event last_timestamp_choice last_streaming_choice].
  - rewrite store_on_timestamp_change, stored_true_set, stored_true_set_other by discriminate.
    split; reflexivity.
  - unfold on_streaming_change. cbn [store set_store set_form].
    rewrite stored_true_set, stored_true_set_other by discriminate. split; reflexivity.
Qed.

(** X17: ticking or unticking the timestamp box stores the choice and, on a
    page showing a video, re-requests its transcript with that choice;
    ticking or unticking the streaming box stores that choice. After any
    sequence of changes of the two boxes, a page loaded later with the
    same localStorage starts with each box in the state last chosen for
    it (or as stored before, for a box not changed), whatever changes of
    the other box came after. *)
Theorem checkbox_choice_survives_reload evs p search t_o m_o first q :
  (forall c vid title url o, truthy vid = true ->
   requests (on_timestamp_change c vid title url o p) = ReqTranscript vid c :: requests p) /\
  (store q = store (run_checkbox_events evs p) ->
   timestamp_checked (form (dom_content_loaded search t_o m_o first q)) =
     last_timestamp_choice evs (stored_true "show_timestamp" (store p)) /\
   streaming_checked (form (dom_content_loaded search t_o m_o first q)) =
     last_streaming_choice evs (stored_true "use_streaming" (store p))).
Proof.
  split.
  - intros c vid title url o Hv. unfold on_timestamp_change. rewrite Hv.
    unfold fetch_and_display_transcript. cbv zeta.
    destruct (transcript_result o); rewrite requests_update_status; cbn [requests issue set_requests
      set_input_html]; rewrite requests_update_status; reflexivity.
  - intros Hs. destruct (dom_loaded_checks search t_o m_o first q) as [A B].
    rewrite A, B, Hs. exact (run_checkbox_events_stored evs p).
Qed.

Lemma checkbox_choice_survives_reload_witness :
  requests (on_timestamp_change true (js "abc") (js "T") (js "u") (TranscriptResponse (ok_response []))
              sample_page) = [ReqTranscript (js "abc") true] /\
  timestamp_checked (form (dom_content_loaded [] (TranscriptResponse (ok_response [])) (ModelsLoaded [])
    true (run_checkbox_events
            [TimestampChange true (js "abc") (js "T") (js "u") (TranscriptResponse (ok_response []));
             StreamingChange true; StreamingChange false] sample_page))) = true /\
  streaming_checked (form (dom_content_loaded [] (TranscriptResponse (ok_response [])) (ModelsLoaded [])
    true (run_checkbox_events
            [TimestampChange true (js "abc") (js "T") (js "u") (TranscriptResponse (ok_response []));
             StreamingChange true; StreamingChange false] sample_page))) = false.
Proof.
  destruct (checkbox_choice_survives_reload
              [TimestampChange true (js "abc") (js "T") (js "u") (TranscriptResponse (ok_response []));
               StreamingChange true; StreamingChange false]
              sample_page [] (TranscriptResponse (ok_response [])) (ModelsLoaded []) true
              (run_checkbox_events
                 [TimestampChange true (js "abc") (js "T") (js "u") (TranscriptResponse (ok_response []));
                  StreamingChange true; StreamingChange false] sample_page)) as [R S].
  destruct (S eq_refl) as [A B].
  split; [exact (R true (js "abc") (js "T") (js "u") (TranscriptResponse (ok_response []))
                   ltac:(vm_compute; reflexivity)) |].
  rewrite A, B. vm_compute. split; reflexivity.
Defined.
